(** * Run export / import for an experiment-tracking service

    A shallow embedding of [export_exp.py], [import_exp.py] and
    [clear_runs.py]: the record encoder and its metadata ledger, the
    record decoder [extract_run_data], the pagination loop, the artifact
    mirror in both directions, the import driver and the run-deletion
    tool, followed by the properties that the specification states about
    them. *)

From Stdlib Require Import ZArith QArith Qabs Ascii.
From Stdlib Require Import Floats.SpecFloat.
From stdpp Require Import base option list gmap strings pretty.

Local Open Scope string_scope.
Local Open Scope list_scope.
Local Open Scope Z_scope.

(** ** Values of the host language *)

(** A Python [float] is an IEEE-754 binary64 value.  [spec_float] is the
    Standard Library's inductive description of such values. *)
Definition float : Type := spec_float.

Definition prec : Z := 53.
Definition emax : Z := 1024.

Definition is_nan (f : float) : bool :=
  match f with S754_nan => true | _ => false end.

(** [int.__float__]: round to nearest, ties to even. *)
Definition float_of_Z (z : Z) : float := binary_normalize prec emax z 0 false.

(** [float.is_integer]: false on infinities and NaN. *)
Definition is_integer (f : float) : bool :=
  match f with
  | S754_zero _ => true
  | S754_finite _ m e =>
      if 0 <=? e then true else Z.pos m mod 2 ^ (- e) =? 0
  | S754_infinity _ | S754_nan => false
  end.

(** [abs(f) < bound] for an integer literal [bound]; every comparison
    with NaN is false and no infinity is below a finite bound. *)
Definition abs_lt (f : float) (bound : Z) : bool :=
  match f with
  | S754_zero _ => 0 <? bound
  | S754_finite _ m e =>
      if 0 <=? e then Z.pos m * 2 ^ e <? bound
      else Z.pos m <? bound * 2 ^ (- e)
  | S754_infinity _ | S754_nan => false
  end.

(** The two conversions between text and floats are built-ins of the
    interpreter, not code of the tools; the development is parametric in
    them. [float_of_str s = None] stands for [float(s)] raising
    [ValueError]. *)
Class Builtins := {
  float_of_str : string → option float;
  str_of_float : float → string
}.

(** ** Cells of a table row *)

(** The value found in one cell of a [pandas.Series]: text, a 64-bit
    integer, a double, a boolean, or [None]. *)
Inductive cell :=
| CStr (s : string)
| CInt (z : Z)
| CFloat (f : float)
| CBool (b : bool)
| CNone.

(** [pd.isna] *)
Definition isna (v : cell) : bool :=
  match v with
  | CNone => true
  | CFloat f => is_nan f
  | _ => false
  end.

Section WithBuiltins.
Context `{Builtins}.

(** [float(v)]; [None] is a [ValueError] or a [TypeError], the two
    exceptions that the decoder catches. *)
Definition py_float (v : cell) : option float :=
  match v with
  | CStr s => float_of_str s
  | CInt z => Some (float_of_Z z)
  | CFloat f => Some f
  | CBool b => Some (float_of_Z (if b then 1 else 0))
  | CNone => None
  end.

(** [str(v)] *)
Definition py_str (v : cell) : string :=
  match v with
  | CStr s => s
  | CInt z => pretty z
  | CFloat f => str_of_float f
  | CBool b => if b then "True" else "False"
  | CNone => "None"
  end.

End WithBuiltins.

(** ** Text helpers *)

(** [s.startswith(p)] *)
Definition startswith (p s : string) : bool := String.prefix p s.

(** [s[n:]] *)
Fixpoint slice_from (n : nat) (s : string) : string :=
  match n, s with
  | O, _ => s
  | S n', String _ s' => slice_from n' s'
  | S _, EmptyString => EmptyString
  end.

(** ** Dictionaries *)

(** A Python [dict] keeps its entries in insertion order and its keys
    unique.  [d[k] = v] replaces the value of a present key in place and
    appends an absent one. *)
Abbreviation pydict V := (list (string * V)).

Fixpoint setitem {V : Type} (k : string) (v : V) (d : pydict V) : pydict V :=
  match d with
  | [] => [(k, v)]
  | (k', v') :: d' =>
      if bool_decide (k' = k) then (k, v) :: d' else (k', v') :: setitem k v d'
  end.

Definition keys {V : Type} (d : pydict V) : list string := d.*1.

(** ** The metadata ledger *)

(** [{"parameters": [...], "metrics": [...], "tags": [...]}] *)
Record Metadata := {
  md_parameters : list string;
  md_metrics : list string;
  md_tags : list string
}.

Definition empty_metadata : Metadata :=
  {| md_parameters := []; md_metrics := []; md_tags := [] |}.

(** What [json.load] returns for a ledger file: an object in which each
    of the three lists is present or missing.  Files whose entries are
    no lists of names are not modelled. *)
Record LoadedMetadata := {
  ld_parameters : option (list string);
  ld_metrics : option (list string);
  ld_tags : option (list string)
}.

(** A ledger with its three lists, as a loaded object. *)
Definition complete (metadata : Metadata) : LoadedMetadata :=
  {| ld_parameters := Some (md_parameters metadata);
     ld_metrics := Some (md_metrics metadata);
     ld_tags := Some (md_tags metadata) |}.

(** The three lists of a loaded object, when none is missing. *)
Definition all_lists (metadata : LoadedMetadata) : option Metadata :=
  match ld_parameters metadata, ld_metrics metadata, ld_tags metadata with
  | Some parameters, Some metrics, Some tags =>
      Some {| md_parameters := parameters; md_metrics := metrics;
              md_tags := tags |}
  | _, _, _ => None
  end.

(** [str(KeyError(key))] *)
Definition key_error (key : string) : string := "'" +:+ key +:+ "'".

(** [if name not in l: l.append(name)] *)
Definition observe (name : string) (l : list string) : list string :=
  if bool_decide (name ∈ l) then l else l ++ [name].

(** ** The record decoder: [extract_run_data] *)

Record decoded := {
  params : gmap string string;
  metrics : gmap string float;
  tags : gmap string string;
  printed : list string
}.

Definition decoded_empty : decoded :=
  {| params := ∅; metrics := ∅; tags := ∅; printed := [] |}.

Definition set_param (k v : string) (d : decoded) : decoded :=
  {| params := <[k := v]> (params d); metrics := metrics d;
     tags := tags d; printed := printed d |}.

Definition set_metric (k : string) (v : float) (d : decoded) : decoded :=
  {| params := params d; metrics := <[k := v]> (metrics d);
     tags := tags d; printed := printed d |}.

Definition set_tag (k v : string) (d : decoded) : decoded :=
  {| params := params d; metrics := metrics d;
     tags := <[k := v]> (tags d); printed := printed d |}.

Definition print_line (line : string) (d : decoded) : decoded :=
  {| params := params d; metrics := metrics d;
     tags := tags d; printed := printed d ++ [line] |}.

Definition system_columns : list string :=
  ["run_id"; "experiment_id"; "user_id"; "start_time";
   "end_time"; "status"; "lifecycle_stage"].

Section Decoder.
Context `{Builtins}.

Definition warn_convert (metric_name : string) (v : cell) : string :=
  "Warning: Could not convert metric '" +:+ metric_name
    +:+ "' to float. Value: " +:+ py_str v.

Definition warn_infer_metric (col : string) : string :=
  "Warning: Inferring '" +:+ col +:+ "' as metric based on value type.".

Definition warn_infer_param (col : string) : string :=
  "Warning: Inferring '" +:+ col +:+ "' as parameter based on value type.".

(** The [try: metrics[name] = float(v) / except: print(...)] block. *)
Definition store_metric (metric_name : string) (v : cell) (d : decoded)
  : decoded :=
  match py_float v with
  | Some x => set_metric metric_name x d
  | None => print_line (warn_convert metric_name v) d
  end.

(** The final [else] branch: the type is guessed from the value. *)
Definition infer (col : string) (v : cell) (d : decoded) : decoded :=
  match py_float v with
  | Some float_val =>
      if is_integer float_val && abs_lt float_val 1000
      then set_param col (py_str v) d
      else print_line (warn_infer_metric col) (set_metric col float_val d)
  | None => print_line (warn_infer_param col) (set_param col (py_str v) d)
  end.

(** One iteration of [for col in run_data.index]. The labels of a row
    are pairwise distinct, so [run_data[col]] is the cell stored next to
    [col]. *)
Definition extract_step (metadata : Metadata) (d : decoded)
    (entry : string * cell) : decoded :=
  let '(col, v) := entry in
  if isna v || bool_decide (col ∈ system_columns) then d
  else if startswith "param:" col then
    set_param (slice_from 6 col) (py_str v) d
  else if startswith "metric:" col then
    store_metric (slice_from 7 col) v d
  else if startswith "tag:" col then
    set_tag (slice_from 4 col) (py_str v) d
  else if bool_decide (col ∈ md_parameters metadata) then
    set_param col (py_str v) d
  else if bool_decide (col ∈ md_metrics metadata) then
    store_metric col v d
  else if bool_decide (col ∈ md_tags metadata) then
    set_tag col (py_str v) d
  else infer col v d.

Definition extract_run_data (run_data : list (string * cell))
    (metadata : Metadata) : decoded :=
  foldl (extract_step metadata) decoded_empty run_data.

(** The same iteration for a ledger as it was loaded, in which
    [metadata[key]] raises [KeyError] when the list is missing.  The
    result is the state of the three dictionaries and of the output, and
    the exception when one was raised. *)
Definition extract_step_loaded (metadata : LoadedMetadata) (d : decoded)
    (entry : string * cell) : decoded * option string :=
  let '(col, v) := entry in
  if isna v || bool_decide (col ∈ system_columns) then (d, None)
  else if startswith "param:" col then
    (set_param (slice_from 6 col) (py_str v) d, None)
  else if startswith "metric:" col then
    (store_metric (slice_from 7 col) v d, None)
  else if startswith "tag:" col then
    (set_tag (slice_from 4 col) (py_str v) d, None)
  else
    match ld_parameters metadata with
    | None => (d, Some (key_error "parameters"))
    | Some parameters =>
        if bool_decide (col ∈ parameters) then
          (set_param col (py_str v) d, None)
        else
          match ld_metrics metadata with
          | None => (d, Some (key_error "metrics"))
          | Some metrics =>
              if bool_decide (col ∈ metrics) then (store_metric col v d, None)
              else
                match ld_tags metadata with
                | None => (d, Some (key_error "tags"))
                | Some tags =>
                    if bool_decide (col ∈ tags) then
                      (set_tag col (py_str v) d, None)
                    else (infer col v d, None)
                end
          end
    end.

(** The loop from the state [d]: it ends at the first exception. *)
Fixpoint extract_from (metadata : LoadedMetadata) (d : decoded)
    (run_data : list (string * cell)) : decoded * option string :=
  match run_data with
  | [] => (d, None)
  | entry :: rest =>
      match extract_step_loaded metadata d entry with
      | (d', None) => extract_from metadata d' rest
      | (d', Some e) => (d', Some e)
      end
  end.

Definition extract_run_data_loaded (run_data : list (string * cell))
    (metadata : LoadedMetadata) : decoded * option string :=
  extract_from metadata decoded_empty run_data.

End Decoder.

(** ** A reference instance of the built-ins *)

(** Decimal literals, read with correct rounding and printed exactly.
    [float_of_str] accepts, between optional white space, an optional
    sign followed by [inf], [infinity], [nan] (in any case) or by digits
    with an optional fraction and an optional exponent; single
    underscores may separate digits.  [str_of_float] prints the exact
    decimal expansion of a double; the interpreter prints the shortest
    decimal that reads back as the same double, which is the same text
    for the integer-valued doubles below [10 ^ 16]. *)
Module Decimal.

Definition digit_value (c : ascii) : option Z :=
  let n := Z.of_N (N_of_ascii c) in
  if (48 <=? n) && (n <=? 57) then Some (n - 48) else None.

Definition starts_with_digit (s : string) : bool :=
  match s with
  | String c _ => bool_decide (is_Some (digit_value c))
  | EmptyString => false
  end.

(** The digits at the start of [s], added to [acc]; an underscore is
    skipped when it stands between two digits. *)
Fixpoint read_digits (s : string) (acc count : Z) : Z * Z * string :=
  match s with
  | String c s' =>
      match digit_value c with
      | Some d => read_digits s' (10 * acc + d) (count + 1)
      | None =>
          if bool_decide (c = "_"%char) && (0 <? count) && starts_with_digit s'
          then read_digits s' acc count
          else (acc, count, s)
      end
  | EmptyString => (acc, count, s)
  end.

Definition is_space (c : ascii) : bool :=
  let n := N_of_ascii c in ((9 <=? n) && (n <=? 13) || (n =? 32))%N.

Fixpoint lstrip (s : string) : string :=
  match s with
  | String c s' => if is_space c then lstrip s' else s
  | EmptyString => EmptyString
  end.

Fixpoint rstrip (s : string) : string :=
  match s with
  | String c s' =>
      match rstrip s' with
      | EmptyString => if is_space c then "" else String c ""
      | t => String c t
      end
  | EmptyString => EmptyString
  end.

Definition read_sign (s : string) : bool * string :=
  match s with
  | String "-" s' => (true, s')
  | String "+" s' => (false, s')
  | _ => (false, s)
  end.

Definition lower_char (c : ascii) : ascii :=
  let n := N_of_ascii c in
  if ((65 <=? n) && (n <=? 90))%N then ascii_of_N (n + 32) else c.

Fixpoint lowercase (s : string) : string :=
  match s with
  | String c s' => String (lower_char c) (lowercase s')
  | EmptyString => EmptyString
  end.

(** The double nearest to [± mant * 10 ^ e10]. *)
Definition decimal_to_float (neg : bool) (mant e10 : Z) : float :=
  if mant =? 0 then S754_zero neg
  else if 0 <=? e10 then
    binary_normalize prec emax ((if neg then - mant else mant) * 10 ^ e10) 0 false
  else
    SFdiv prec emax (S754_finite neg (Z.to_pos mant) 0)
                    (S754_finite false (Z.to_pos (10 ^ (- e10))) 0).

Definition read_exponent (neg : bool) (mant cf : Z) (s : string)
  : option float :=
  let '(eneg, s1) := read_sign s in
  let '(ev, ce, s2) := read_digits s1 0 0 in
  if (ce =? 0) || negb (bool_decide (s2 = "")) then None
  else Some (decimal_to_float neg mant ((if eneg then - ev else ev) - cf)).

Definition parse_float (s : string) : option float :=
  let '(neg, s1) := read_sign (rstrip (lstrip s)) in
  let low := lowercase s1 in
  if bool_decide (low = "inf") || bool_decide (low = "infinity")
  then Some (S754_infinity neg)
  else if bool_decide (low = "nan") then Some S754_nan
  else
    let '(ip, ci, s2) := read_digits s1 0 0 in
    let '(mant, cf, s3) :=
      match s2 with
      | String "." s2' => read_digits s2' ip 0
      | _ => (ip, 0, s2)
      end in
    if ci + cf =? 0 then None
    else match s3 with
         | EmptyString => Some (decimal_to_float neg mant (- cf))
         | String c s4 =>
             if bool_decide (lower_char c = "e"%char)
             then read_exponent neg mant cf s4
             else None
         end.

Fixpoint zeros (n : nat) : string :=
  match n with O => "" | S n' => String "0" (zeros n') end.

(** Drop the zeros at the end of a digit string. *)
Fixpoint strip_zeros (s : string) : string :=
  match s with
  | EmptyString => EmptyString
  | String c s' =>
      match strip_zeros s' with
      | EmptyString => if bool_decide (c = "0"%char) then "" else String c ""
      | t => String c t
      end
  end.

Definition fraction_digits (num : Z) (k : Z) : string :=
  let digits := pretty num in
  let padded := zeros (Z.to_nat k - String.length digits) +:+ digits in
  match strip_zeros padded with
  | EmptyString => "0"
  | t => t
  end.

Definition print_float (f : float) : string :=
  match f with
  | S754_nan => "nan"
  | S754_infinity s => if s then "-inf" else "inf"
  | S754_zero s => if s then "-0.0" else "0.0"
  | S754_finite s m e =>
      let sign := if s then "-" else "" in
      if 0 <=? e then sign +:+ pretty (Z.pos m * 2 ^ e) +:+ ".0"
      else
        let k := - e in
        sign +:+ pretty (Z.pos m / 2 ^ k) +:+ "."
          +:+ fraction_digits ((Z.pos m mod 2 ^ k) * 5 ^ k) k
  end.

#[export] Instance builtins : Builtins :=
  {| float_of_str := parse_float; str_of_float := print_float |}.

End Decimal.

(** ** Entities of the tracking service *)

Module RunInfo.
Record t := {
  run_id : string;
  experiment_id : string;
  user_id : string;
  start_time : option Z;
  end_time : option Z;
  status : string;
  lifecycle_stage : string
}.
End RunInfo.

Module RunData.
Record t := {
  metrics : pydict float;
  params : pydict string;
  tags : pydict string
}.
End RunData.

Record Run := { info : RunInfo.t; data : RunData.t }.

Module Experiment.
Record t := { name : string; experiment_id : string }.
End Experiment.

Module FileInfo.
Record t := { path : string; is_dir : bool }.
End FileInfo.

(** A flat row: the [run_data] dictionary of the exporter, and the
    [pandas.Series] that the importer reads. *)
Abbreviation row := (list (string * cell)).

(** ** Effects *)

(** Exceptions are identified with their message. *)
Definition exn : Type := string.

Inductive res (A : Type) : Type :=
| Ok (a : A)
| Raise (e : exn).
Arguments Ok {A} a.
Arguments Raise {A} e.

Module ExportSummary.
Record t := {
  total_runs : nat;
  successful_runs : nat;
  failed_runs : nat;
  experiment_name : string;
  experiment_id : string;
  tracking_uri : string;
  parameters_count : nat;
  metrics_count : nat;
  tags_count : nat
}.
End ExportSummary.

Module ImportSummary.
Record t := {
  total_runs_attempted : nat;
  successful_imports : nat;
  failed_imports : nat;
  destination_experiment : string;
  destination_experiment_id : string;
  tracking_uri : string;
  failed_run_indices : list nat
}.
End ImportSummary.

(** What the tools write to disk. *)
Inductive document :=
| Table (rows : list row)
| Ledger (metadata : Metadata)
| ExportReport (summary : ExportSummary.t)
| ImportReport (summary : ImportSummary.t).

(** The tracking client and the file system, as the tools consume them.
    Every operation takes the world to the next one, also when it
    raises. *)
Class Service := {
  world : Type;
  token : Type;
  (* mlflow *)
  set_tracking_uri : string → world → res unit * world;
  get_tracking_uri : world → string;
  get_experiment_by_name : string → world → res (option Experiment.t) * world;
  get_experiment : string → world → res Experiment.t * world;
  search_experiments : world → res (list Experiment.t) * world;
  create_experiment : string → world → res string * world;
  search_runs :
    list string → Z → option token → world → res (list Run * option token) * world;
  delete_run : string → world → res unit * world;
  start_run : string → world → res string * world;
  end_run : string → world → res unit * world;
  log_params : gmap string string → world → res unit * world;
  log_metrics : gmap string float → world → res unit * world;
  set_tags : gmap string string → world → res unit * world;
  log_artifact : string → option string → world → res unit * world;
  list_artifacts : string → world → res (list FileInfo.t) * world;
  download_artifacts : string → string → string → world → res unit * world;
  (* os, pandas, json *)
  makedirs : string → world → res unit * world;
  path_exists : string → world → bool;
  walk : string → world → list (string * list string);
  relpath : string → string → string;
  read_csv : string → world → res (list row) * world;
  load_metadata : string → world → res LoadedMetadata * world;
  write_file : string → document → world → res unit * world
}.

(** ** Paths *)

Definition slash : ascii := "/"%char.

(** [os.path.join(a, b)] *)
Definition path_join (a b : string) : string :=
  if startswith "/" b then b
  else if bool_decide (a = "") then b
  else match last (String.list_ascii_of_string a) with
       | Some c => if bool_decide (c = slash) then a +:+ b else a +:+ "/" +:+ b
       | None => b
       end.

Fixpoint drop_while {A : Type} (f : A → bool) (l : list A) : list A :=
  match l with
  | [] => []
  | x :: l' => if f x then drop_while f l' else l
  end.

(** [os.path.dirname(p)]: everything up to the last slash, without the
    slashes that end it unless it consists of slashes only. *)
Definition dirname (p : string) : string :=
  let is_slash := λ c : ascii, bool_decide (c = slash) in
  let head := rev (drop_while (λ c, negb (is_slash c)) (rev (String.list_ascii_of_string p))) in
  if forallb is_slash head then String.string_of_list_ascii head
  else String.string_of_list_ascii (rev (drop_while is_slash (rev head))).

Definition newline : string := String (ascii_of_nat 10) "".

(** [d[k]] and [d.get(k)] *)
Fixpoint getitem {V : Type} (k : string) (d : pydict V) : option V :=
  match d with
  | [] => None
  | (k', v) :: d' => if bool_decide (k' = k) then Some v else getitem k d'
  end.

(** The truth value of an optional text argument: [None] and the empty
    text are false. *)
Definition truthy (o : option string) : option string :=
  match o with
  | Some s => if bool_decide (s = "") then None else Some s
  | None => None
  end.

(** ** The monad of the tools: a world, the standard output, local
    variables that outlive an exception, and exceptions *)

Section Tools.
Context `{Builtins} `{Service}.

Record env (L : Type) := Env {
  env_world : world;
  stdout : list string;
  locals : L
}.
Arguments Env {L}.
Arguments env_world {L}.
Arguments stdout {L}.
Arguments locals {L}.

Definition M (L A : Type) : Type := env L → res A * env L.

#[local] Instance M_ret {L} : MRet (M L) := λ A a s, (Ok a, s).

#[local] Instance M_bind {L} : MBind (M L) := λ A B k m s,
  match m s with
  | (Ok a, s') => k a s'
  | (Raise e, s') => (Raise e, s')
  end.

Definition raise {L A} (e : exn) : M L A := λ s, (Raise e, s).

(** [try: m / except Exception as e: handler e] *)
Definition try_except {L A} (m : M L A) (handler : exn → M L A) : M L A :=
  λ s, match m s with
       | (Raise e, s') => handler e s'
       | r => r
       end.

Definition call {L A} (op : world → res A * world) : M L A :=
  λ s, let '(r, w) := op (env_world s) in (r, Env w (stdout s) (locals s)).

Definition ask {L A} (f : world → A) : M L A :=
  λ s, (Ok (f (env_world s)), s).

Definition print {L} (line : string) : M L unit :=
  λ s, (Ok tt, Env (env_world s) (stdout s ++ [line]) (locals s)).

Definition get_locals {L} : M L L := λ s, (Ok (locals s), s).

Definition modify_locals {L} (f : L → L) : M L unit :=
  λ s, (Ok tt, Env (env_world s) (stdout s) (f (locals s))).

(** [for x in xs: body x] *)
Fixpoint for_each {L X} (xs : list X) (body : X → M L unit) : M L unit :=
  match xs with
  | [] => mret tt
  | x :: xs' => body x ;; for_each xs' body
  end.

(** [Using MLflow tracking URI] / [Using default MLflow tracking URI] *)
Definition select_tracking_uri {L} (tracking_uri : option string) : M L unit :=
  match truthy tracking_uri with
  | Some uri =>
      call (set_tracking_uri uri) ;;
      print ("Using MLflow tracking URI: " +:+ uri)
  | None =>
      uri ← ask get_tracking_uri;
      print ("Using default MLflow tracking URI: " +:+ uri)
  end.

(** *** [export_exp.py] *)

Definition max_results_per_page : Z := 5000.

Definition opt_int (t : option Z) : cell :=
  match t with Some z => CInt z | None => CNone end.

(** The dictionary literal that starts [run_data]. *)
Definition system_cells (i : RunInfo.t) : row :=
  [("run_id", CStr (RunInfo.run_id i));
   ("experiment_id", CStr (RunInfo.experiment_id i));
   ("user_id", CStr (RunInfo.user_id i));
   ("start_time", opt_int (RunInfo.start_time i));
   ("end_time", opt_int (RunInfo.end_time i));
   ("status", CStr (RunInfo.status i));
   ("lifecycle_stage", CStr (RunInfo.lifecycle_stage i))].

(** One iteration of [for k, v in group.items()]: the column is stored
    in the row and observed by the ledger list of its group. *)
Definition add_column {V : Type} (prefix : string) (to_cell : V → cell)
    (acc : row * list string) (entry : string * V) : row * list string :=
  let column_name := prefix +:+ entry.1 in
  (setitem column_name (to_cell entry.2) acc.1, observe column_name acc.2).

(** The body of [for run in runs], up to the [append]. *)
Definition encode_run (run : Run) (metadata : Metadata) : row * Metadata :=
  let run_data := system_cells (info run) in
  let '(run_data, ms) :=
    foldl (add_column "metric:" CFloat) (run_data, md_metrics metadata)
          (RunData.metrics (data run)) in
  let '(run_data, ps) :=
    foldl (add_column "param:" CStr) (run_data, md_parameters metadata)
          (RunData.params (data run)) in
  let '(run_data, ts) :=
    foldl (add_column "tag:" CStr) (run_data, md_tags metadata)
          (RunData.tags (data run)) in
  (run_data, {| md_parameters := ps; md_metrics := ms; md_tags := ts |}).

Definition encode_page (runs : list Run) (acc : list row * Metadata)
  : list row * Metadata :=
  foldl (λ acc run,
           let '(run_data, metadata) := encode_run run acc.2 in
           (acc.1 ++ [run_data], metadata))
        acc runs.

(** The [while True] loop.  [None] is returned when [fuel] requests did
    not reach a page without a token. *)
Fixpoint fetch_runs {L} (fuel : nat) (experiment_id : string)
    (page_token : option token) (detailed_runs_data : list row)
    (metadata : Metadata) (total_runs : nat)
  : M L (option (list row * Metadata * nat)) :=
  match fuel with
  | O => mret None
  | S fuel' =>
      runs_page ← call (search_runs [experiment_id] max_results_per_page page_token);
      let runs := runs_page.1 in
      let total_runs := (total_runs + length runs)%nat in
      print ("Retrieved " +:+ pretty (length runs) +:+ " runs. Total so far: "
               +:+ pretty total_runs) ;;
      let '(detailed_runs_data, metadata) :=
        encode_page runs (detailed_runs_data, metadata) in
      match runs_page.2 with
      | None => mret (Some (detailed_runs_data, metadata, total_runs))
      | Some next => fetch_runs fuel' experiment_id (Some next)
                       detailed_runs_data metadata total_runs
      end
  end.

(** [run['run_id']], which the encoder always stores as text. *)
Definition row_run_id {L} (run : row) : M L string :=
  match getitem "run_id" run with
  | Some (CStr run_id) => mret run_id
  | Some _ => raise "TypeError"
  | None => raise "KeyError: 'run_id'"
  end.

(** The body of [for artifact in artifacts]. *)
Definition download_artifact {L} (run_id run_artifacts_dir : string)
    (artifact : FileInfo.t) : M L unit :=
  if FileInfo.is_dir artifact then
    call (download_artifacts run_id (FileInfo.path artifact) run_artifacts_dir)
  else
    let artifact_path := dirname (FileInfo.path artifact) in
    let dst_dir := path_join run_artifacts_dir artifact_path in
    call (makedirs dst_dir) ;;
    call (download_artifacts run_id (FileInfo.path artifact) dst_dir).

(** The [try] block that mirrors the artifacts of one run. *)
Definition download_run_artifacts {L} (run_id run_artifacts_dir : string)
  : M L unit :=
  try_except
    (artifacts ← call (list_artifacts run_id);
     for_each artifacts (download_artifact run_id run_artifacts_dir))
    (λ e, print ("Error downloading artifacts for run " +:+ run_id
                   +:+ ": " +:+ e)).

(** The body of [for i, run in enumerate(detailed_runs_data)]. *)
Definition export_run_artifacts {L} (artifacts_dir : string) (count : nat)
    (entry : nat * row) : M L unit :=
  run_id ← row_run_id entry.2;
  print ("Downloading artifacts for run " +:+ pretty (entry.1 + 1)%nat
           +:+ "/" +:+ pretty count +:+ ": " +:+ run_id) ;;
  let run_artifacts_dir := path_join artifacts_dir run_id in
  call (makedirs run_artifacts_dir) ;;
  download_run_artifacts run_id run_artifacts_dir.

Definition enumerate {X : Type} (l : list X) : list (nat * X) :=
  zip (seq 0 (length l)) l.

Definition has_status (s : string) (r : row) : bool :=
  match getitem "status" r with
  | Some (CStr s') => bool_decide (s' = s)
  | _ => false
  end.

(** Lines 107 to 163: what follows the pagination loop. *)
Definition write_bundle {L} (experiment : Experiment.t) (output_dir : string)
    (include_artifacts : bool) (detailed_runs_data : list row)
    (metadata : Metadata) (total_runs : nat) : M L unit :=
  print ("Retrieved all " +:+ pretty total_runs +:+ " runs from experiment") ;;
  let csv_path :=
    path_join output_dir (Experiment.name experiment +:+ "_runs.csv") in
  call (write_file csv_path (Table detailed_runs_data)) ;;
  print ("Runs summary saved to " +:+ csv_path) ;;
  let metadata_path :=
    path_join output_dir (Experiment.name experiment +:+ "_metadata.json") in
  call (write_file metadata_path (Ledger metadata)) ;;
  print ("Metadata saved to " +:+ metadata_path) ;;
  (if include_artifacts then
     let artifacts_dir := path_join output_dir "artifacts" in
     call (makedirs artifacts_dir) ;;
     for_each (enumerate detailed_runs_data)
       (export_run_artifacts artifacts_dir (length detailed_runs_data))
   else mret tt) ;;
  uri ← ask get_tracking_uri;
  let summary_report :=
    {| ExportSummary.total_runs := total_runs;
       ExportSummary.successful_runs :=
         length (filter (λ r, has_status "FINISHED" r = true) detailed_runs_data);
       ExportSummary.failed_runs :=
         length (filter (λ r, has_status "FAILED" r = true) detailed_runs_data);
       ExportSummary.experiment_name := Experiment.name experiment;
       ExportSummary.experiment_id := Experiment.experiment_id experiment;
       ExportSummary.tracking_uri := uri;
       ExportSummary.parameters_count := length (md_parameters metadata);
       ExportSummary.metrics_count := length (md_metrics metadata);
       ExportSummary.tags_count := length (md_tags metadata) |} in
  call (write_file (path_join output_dir "export_summary.json")
                   (ExportReport summary_report)) ;;
  print ("Export completed for experiment: " +:+ Experiment.name experiment) ;;
  print ("Total runs exported: " +:+ pretty total_runs) ;;
  print ("Parameters exported: " +:+ pretty (length (md_parameters metadata))) ;;
  print ("Metrics exported: " +:+ pretty (length (md_metrics metadata))) ;;
  print ("Tags exported: " +:+ pretty (length (md_tags metadata))) ;;
  print ("Export directory: " +:+ output_dir).

(** Lines 35 to 49: the experiment is looked up by name, then by
    identifier; [None] is the early [return]. *)
Definition find_experiment {L} (experiment_name : string)
  : M L (option Experiment.t) :=
  experiment ← call (get_experiment_by_name experiment_name);
  match experiment with
  | Some e => mret (Some e)
  | None =>
      try_except
        (e ← call (get_experiment experiment_name);
         print ("Found experiment by ID: " +:+ Experiment.name e) ;;
         mret (Some e))
        (λ _,
           print ("Experiment '" +:+ experiment_name
                    +:+ "' not found as name or ID. You may want to specify --tracking-uri or check the experiment name.") ;;
           experiments ← call search_experiments;
           (match experiments with
            | [] => mret tt
            | _ =>
                print (newline +:+ "Available experiments:") ;;
                for_each experiments
                  (λ exp, print ("  - Name: " +:+ Experiment.name exp
                                   +:+ ", ID: " +:+ Experiment.experiment_id exp))
            end) ;;
           mret None)
  end.

(** [export_runs_detailed]; the result is [None] when the pagination
    loop ran out of [fuel]. *)
Definition export_runs_detailed {L} (fuel : nat) (experiment_name : string)
    (output_dir : option string) (include_artifacts : bool)
    (tracking_uri : option string) : M L (option unit) :=
  select_tracking_uri tracking_uri ;;
  let output_dir :=
    default (experiment_name +:+ "_runs_export") (truthy output_dir) in
  call (makedirs output_dir) ;;
  try_except
    (found ← find_experiment experiment_name;
     match found with
     | None => mret (Some tt)
     | Some experiment =>
         print ("Found experiment: " +:+ Experiment.name experiment +:+ " (ID: "
                  +:+ Experiment.experiment_id experiment +:+ ")") ;;
         fetched ← fetch_runs fuel (Experiment.experiment_id experiment) None
                     [] empty_metadata 0%nat;
         match fetched with
         | None => mret None
         | Some (detailed_runs_data, metadata, total_runs) =>
             write_bundle experiment output_dir include_artifacts
               detailed_runs_data metadata total_runs ;;
             mret (Some tt)
         end
     end)
    (λ e, print ("Error exporting runs: " +:+ e) ;; mret (Some tt)).

(** *** [import_exp.py] *)

(** The two lists that the import loop fills. *)
Record import_locals := {
  imported_runs : list string;
  failed_runs : list nat
}.

Definition append_imported (run_id : string) (l : import_locals)
  : import_locals :=
  {| imported_runs := imported_runs l ++ [run_id];
     failed_runs := failed_runs l |}.

Definition append_failed (index : nat) (l : import_locals) : import_locals :=
  {| imported_runs := imported_runs l;
     failed_runs := failed_runs l ++ [index] |}.

(** [with mlflow.start_run(experiment_id=...) as active_run: body].
    Leaving the block ends the run, as [FINISHED] or as [FAILED]; an
    exception of the body is raised again afterwards. *)
Definition leave_run {L A} (body : M L A) : M L A :=
  λ s, match body s with
       | (Ok a, s') => (call (end_run "FINISHED") ;; mret a) s'
       | (Raise e, s') => (call (end_run "FAILED") ;; raise e) s'
       end.

Definition with_run {L A} (experiment_id : string) (body : string → M L A)
  : M L A :=
  active_run ← call (start_run experiment_id);
  leave_run (body active_run).

(** The body of [for file in files], with its own [try]. *)
Definition log_file {L} (run_artifacts_path root : string)
    (artifact_count : nat) (file : string) : M L nat :=
  let full_path := path_join root file in
  let rel_path := relpath full_path run_artifacts_path in
  try_except
    (let artifact_path := truthy (Some (dirname rel_path)) in
     call (log_artifact full_path artifact_path) ;;
     mret (S artifact_count))
    (λ artifact_error,
       print ("Error logging artifact " +:+ rel_path +:+ ": " +:+ artifact_error) ;;
       mret artifact_count).

Fixpoint log_files {L} (run_artifacts_path root : string) (files : list string)
    (artifact_count : nat) : M L nat :=
  match files with
  | [] => mret artifact_count
  | file :: files' =>
      artifact_count ← log_file run_artifacts_path root artifact_count file;
      log_files run_artifacts_path root files' artifact_count
  end.

(** [for root, _, files in os.walk(run_artifacts_path)] *)
Fixpoint log_tree {L} (run_artifacts_path : string)
    (walked : list (string * list string)) (artifact_count : nat) : M L nat :=
  match walked with
  | [] => mret artifact_count
  | (root, files) :: walked' =>
      artifact_count ← log_files run_artifacts_path root files artifact_count;
      log_tree run_artifacts_path walked' artifact_count
  end.

(** Lines 91 to 113 *)
Definition import_run_artifacts {L} (import_artifacts : bool)
    (artifacts_dir : option string) (run_data : row) : M L unit :=
  match import_artifacts, truthy artifacts_dir with
  | true, Some artifacts_dir =>
      let original_run_id := py_str (default (CStr "") (getitem "run_id" run_data)) in
      if bool_decide (original_run_id = "") then mret tt
      else
        let run_artifacts_path :=
          path_join (path_join artifacts_dir "artifacts") original_run_id in
        found ← ask (path_exists run_artifacts_path);
        if found : bool then
          print ("Importing artifacts from " +:+ run_artifacts_path) ;;
          walked ← ask (walk run_artifacts_path);
          artifact_count ← log_tree run_artifacts_path walked 0%nat;
          print ("Imported " +:+ pretty artifact_count +:+ " artifacts")
        else
          print ("No artifacts directory found at " +:+ run_artifacts_path)
  | _, _ => mret tt
  end.

(** Lines 79 to 89: the non-empty groups are logged. *)
Definition log_run_data {L} (d : decoded) : M L unit :=
  (if bool_decide (params d = ∅) then mret tt
   else call (log_params (params d)) ;;
        print ("Logged " +:+ pretty (size (params d)) +:+ " parameters")) ;;
  (if bool_decide (metrics d = ∅) then mret tt
   else call (log_metrics (metrics d)) ;;
        print ("Logged " +:+ pretty (size (metrics d)) +:+ " metrics")) ;;
  (if bool_decide (tags d = ∅) then mret tt
   else call (set_tags (tags d)) ;;
        print ("Set " +:+ pretty (size (tags d)) +:+ " tags")).

(** The [try] block of one row, lines 74 to 116. *)
Definition import_row (experiment_id : string) (artifacts_dir : option string)
    (import_artifacts : bool) (metadata : Metadata) (count : nat)
    (index : nat) (run_data : row) : M import_locals unit :=
  print ("Importing run " +:+ pretty (index + 1)%nat +:+ "/" +:+ pretty count) ;;
  let d := extract_run_data run_data metadata in
  for_each (printed d) print ;;
  with_run experiment_id (λ active_run,
    log_run_data d ;;
    import_run_artifacts import_artifacts artifacts_dir run_data ;;
    modify_locals (append_imported active_run) ;;
    print ("Successfully imported run to " +:+ active_run)).

(** One iteration of [for index, run_data in runs_df.iterrows()].  The
    traceback goes to the standard error stream, which is not modelled. *)
Definition import_step (experiment_id : string) (artifacts_dir : option string)
    (import_artifacts : bool) (metadata : Metadata) (count : nat)
    (entry : nat * row) : M import_locals unit :=
  try_except
    (import_row experiment_id artifacts_dir import_artifacts metadata count
       entry.1 entry.2)
    (λ e,
       print ("Failed to import run " +:+ pretty entry.1 +:+ ": " +:+ e) ;;
       modify_locals (append_failed entry.1)).

(** Lines 38 to 50; [None] is the early [return]. *)
Definition setup_experiment {L} (experiment_name : string)
    (create_experiment_flag : bool) : M L (option string) :=
  try_except
    (experiment ← call (get_experiment_by_name experiment_name);
     match experiment with
     | None =>
         if create_experiment_flag then
           experiment_id ← call (create_experiment experiment_name);
           print ("Created new experiment: " +:+ experiment_name +:+ " (ID: "
                    +:+ experiment_id +:+ ")") ;;
           mret (Some experiment_id)
         else
           raise ("Experiment '" +:+ experiment_name
                    +:+ "' does not exist, you may want to specify --tracking-uri")
     | Some experiment =>
         let experiment_id := Experiment.experiment_id experiment in
         print ("Using existing experiment: " +:+ experiment_name +:+ " (ID: "
                  +:+ experiment_id +:+ ")") ;;
         mret (Some experiment_id)
     end)
    (λ e, print ("Error setting up experiment: " +:+ e) ;; mret None).

(** Lines 52 to 57 *)
Definition load_rows {L} (csv_path : string) : M L (option (list row)) :=
  try_except
    (runs_df ← call (read_csv csv_path);
     print ("Loaded " +:+ pretty (length runs_df) +:+ " runs from " +:+ csv_path) ;;
     mret (Some runs_df))
    (λ e, print ("Error reading CSV file: " +:+ e) ;; mret None).

(** The text of the line that reports the three lengths: evaluating it
    looks the three lists up, in this order. *)
Definition found_line (metadata : LoadedMetadata) : res string :=
  match ld_parameters metadata with
  | None => Raise (key_error "parameters")
  | Some parameters =>
      match ld_metrics metadata with
      | None => Raise (key_error "metrics")
      | Some metrics =>
          match ld_tags metadata with
          | None => Raise (key_error "tags")
          | Some tags =>
              Ok ("Found " +:+ pretty (length parameters) +:+ " parameters, "
                    +:+ pretty (length metrics) +:+ " metrics, and "
                    +:+ pretty (length tags) +:+ " tags")
          end
      end
  end.

(** Lines 59 to 67.  The variable [metadata] keeps its initial value
    when opening or parsing the file raises, and the object that
    [json.load] returned when only the line that reports the three
    lengths raises. *)
Definition load_ledger {L} (metadata_path : option string)
  : M L LoadedMetadata :=
  match truthy metadata_path with
  | None => mret (complete empty_metadata)
  | Some metadata_path =>
      found ← ask (path_exists metadata_path);
      if found : bool then
        read ← try_except
                 (metadata ← call (load_metadata metadata_path);
                  mret (Some metadata))
                 (λ e,
                    print ("Error loading metadata, will rely on column prefixes: "
                             +:+ e) ;;
                    mret None);
        match read with
        | None => mret (complete empty_metadata)
        | Some metadata =>
            print ("Loaded metadata from " +:+ metadata_path) ;;
            match found_line metadata with
            | Ok line => print line
            | Raise e =>
                print ("Error loading metadata, will rely on column prefixes: "
                         +:+ e)
            end ;;
            mret metadata
        end
      else mret (complete empty_metadata)
  end.

Definition show_indices (l : list nat) : string :=
  "[" +:+ String.concat ", " (pretty <$> l) +:+ "]".

(** The [summary] dictionary of lines 124 to 132. *)
Definition make_summary (experiment_name experiment_id uri : string)
    (count : nat) (l : import_locals) : ImportSummary.t :=
  {| ImportSummary.total_runs_attempted := count;
     ImportSummary.successful_imports := length (imported_runs l);
     ImportSummary.failed_imports := length (failed_runs l);
     ImportSummary.destination_experiment := experiment_name;
     ImportSummary.destination_experiment_id := experiment_id;
     ImportSummary.tracking_uri := uri;
     ImportSummary.failed_run_indices := failed_runs l |}.

(** Lines 134 to 146: the summary is written, printed and returned. *)
Definition emit_summary {L} (csv_path experiment_name : string)
    (summary : ImportSummary.t) : M L ImportSummary.t :=
  let summary_path := path_join (dirname csv_path) "import_summary.json" in
  call (write_file summary_path (ImportReport summary)) ;;
  print (newline +:+ "Import Summary for Experiment '" +:+ experiment_name +:+ "':") ;;
  print ("Total Runs Attempted: "
           +:+ pretty (ImportSummary.total_runs_attempted summary)) ;;
  print ("Successful Imports: "
           +:+ pretty (ImportSummary.successful_imports summary)) ;;
  print ("Failed Imports: " +:+ pretty (ImportSummary.failed_imports summary)) ;;
  (match ImportSummary.failed_run_indices summary with
   | [] => mret tt
   | failed => print ("Failed Run Indices: " +:+ show_indices failed)
   end) ;;
  mret summary.

(** The [for] loop of lines 72 to 122. *)
Definition import_rows (experiment_id : string) (artifacts_dir : option string)
    (import_artifacts : bool) (metadata : Metadata) (runs_df : list row)
  : M import_locals unit :=
  for_each (enumerate runs_df)
    (import_step experiment_id artifacts_dir import_artifacts metadata
       (length runs_df)).

(** Lines 69 to 146: what [import_runs] does once the experiment, the
    table and the ledger are there. *)
Definition import_loaded (csv_path experiment_name experiment_id : string)
    (artifacts_dir : option string) (import_artifacts : bool)
    (metadata : Metadata) (runs_df : list row)
  : M import_locals ImportSummary.t :=
  modify_locals (λ _, {| imported_runs := []; failed_runs := [] |}) ;;
  import_rows experiment_id artifacts_dir import_artifacts metadata runs_df ;;
  l ← get_locals;
  uri ← ask get_tracking_uri;
  emit_summary csv_path experiment_name
    (make_summary experiment_name experiment_id uri (length runs_df) l).

(** The same lines for a loaded ledger that lacks one of its lists: the
    decoder raises [KeyError] at the first column that it looks up in a
    missing list, after the warnings of the columns before it, and
    before a run is started. *)
Definition import_row_loaded (experiment_id : string)
    (artifacts_dir : option string) (import_artifacts : bool)
    (metadata : LoadedMetadata) (count : nat) (index : nat) (run_data : row)
  : M import_locals unit :=
  print ("Importing run " +:+ pretty (index + 1)%nat +:+ "/" +:+ pretty count) ;;
  let '(d, raised) := extract_run_data_loaded run_data metadata in
  for_each (printed d) print ;;
  match raised with
  | Some e => raise e
  | None =>
      with_run experiment_id (λ active_run,
        log_run_data d ;;
        import_run_artifacts import_artifacts artifacts_dir run_data ;;
        modify_locals (append_imported active_run) ;;
        print ("Successfully imported run to " +:+ active_run))
  end.

Definition import_step_loaded (experiment_id : string)
    (artifacts_dir : option string) (import_artifacts : bool)
    (metadata : LoadedMetadata) (count : nat) (entry : nat * row)
  : M import_locals unit :=
  try_except
    (import_row_loaded experiment_id artifacts_dir import_artifacts metadata
       count entry.1 entry.2)
    (λ e,
       print ("Failed to import run " +:+ pretty entry.1 +:+ ": " +:+ e) ;;
       modify_locals (append_failed entry.1)).

Definition import_rows_loaded (experiment_id : string)
    (artifacts_dir : option string) (import_artifacts : bool)
    (metadata : LoadedMetadata) (runs_df : list row)
  : M import_locals unit :=
  for_each (enumerate runs_df)
    (import_step_loaded experiment_id artifacts_dir import_artifacts metadata
       (length runs_df)).

Definition import_loaded_partial (csv_path experiment_name experiment_id : string)
    (artifacts_dir : option string) (import_artifacts : bool)
    (metadata : LoadedMetadata) (runs_df : list row)
  : M import_locals ImportSummary.t :=
  modify_locals (λ _, {| imported_runs := []; failed_runs := [] |}) ;;
  import_rows_loaded experiment_id artifacts_dir import_artifacts metadata
    runs_df ;;
  l ← get_locals;
  uri ← ask get_tracking_uri;
  emit_summary csv_path experiment_name
    (make_summary experiment_name experiment_id uri (length runs_df) l).

(** [import_runs]; [None] is one of the two early returns.  A ledger
    with its three lists is the [metadata] of [import_loaded]; one that
    lacks a list is handed on as it was loaded. *)
Definition import_runs (csv_path experiment_name : string)
    (artifacts_dir : option string) (import_artifacts : bool)
    (create_experiment_flag : bool) (metadata_path tracking_uri : option string)
  : M import_locals (option ImportSummary.t) :=
  select_tracking_uri tracking_uri ;;
  experiment ← setup_experiment experiment_name create_experiment_flag;
  match experiment with
  | None => mret None
  | Some experiment_id =>
      loaded ← load_rows csv_path;
      match loaded with
      | None => mret None
      | Some runs_df =>
          metadata ← load_ledger metadata_path;
          summary ←
            match all_lists metadata with
            | Some lists =>
                import_loaded csv_path experiment_name experiment_id
                  artifacts_dir import_artifacts lists runs_df
            | None =>
                import_loaded_partial csv_path experiment_name experiment_id
                  artifacts_dir import_artifacts metadata runs_df
            end;
          mret (Some summary)
      end
  end.

(** *** [clear_runs.py] *)

(** The body of [for run in runs]. *)
Definition delete_one {L} (run : Run) : M L unit :=
  let run_id := RunInfo.run_id (info run) in
  call (delete_run run_id) ;;
  print ("Deleted run: " +:+ run_id).

Definition delete_all_runs_in_experiment {L} (experiment_name : string)
    (tracking_uri : option string) : M L unit :=
  select_tracking_uri tracking_uri ;;
  try_except
    (experiment ← call (get_experiment_by_name experiment_name);
     match experiment with
     | None => print ("Experiment '" +:+ experiment_name +:+ "' not found.")
     | Some experiment =>
         runs ← call (search_runs [Experiment.experiment_id experiment] 50000 None);
         for_each runs.1 delete_one ;;
         print ("Deleted " +:+ pretty (length runs.1) +:+ " runs in experiment: "
                  +:+ experiment_name)
     end)
    (λ e, print ("Error deleting runs: " +:+ e)).

End Tools.

#[export] Existing Instance M_ret.
#[export] Existing Instance M_bind.

Arguments Env {_ _} world0 stdout0 locals0 : rename.
Arguments env_world {_ _} e : rename.
Arguments stdout {_ _} e : rename.
Arguments locals {_ _} e : rename.

(** ** A reference tracking service *)

(** The tracking service and the file system are not code of the tools.
    This instance follows the contract that the tools consume: one
    experiment whose active runs are served in pages, a file system that
    answers from fixed listings, a record of every request received, and
    a set of requests that fail.  The continuation token is the offset
    of the next run. *)
Module Sim.

Inductive request :=
| SetTrackingUri (uri : string)
| GetExperimentByName (name : string)
| GetExperiment (experiment_id : string)
| SearchExperiments
| CreateExperiment (name : string)
| SearchRuns (max_results : Z) (page_token : option nat)
| DeleteRun (run_id : string)
| StartRun (experiment_id : string)
| EndRun (status : string)
| LogParams (params : gmap string string)
| LogMetrics (metrics : gmap string float)
| SetTags (tags : gmap string string)
| LogArtifact (local_path : string) (artifact_path : option string)
| ListArtifacts (run_id : string)
| DownloadArtifacts (run_id path dst_path : string)
| MakeDirs (path : string)
| ReadCsv (path : string)
| LoadMetadata (path : string)
| WriteFile (path : string) (doc : document).

Record state := {
  uri : string;
  experiment : Experiment.t;
  runs : list Run;           (* the active runs, in the order of a search *)
  page_cap : nat;            (* the server returns no longer page *)
  short_page_ends : bool;    (* the token is absent only after a page
                                shorter than the one asked for *)
  started : nat;             (* how many runs were started *)
  artifacts : list FileInfo.t;
  existing : list string;
  tree : list (string * list string);
  table : list row;
  ledger : LoadedMetadata;
  faulty : request → bool;
  requests : list request
}.

Definition record_request (r : request) (w : state) : state :=
  {| uri := uri w; experiment := experiment w; runs := runs w;
     page_cap := page_cap w; short_page_ends := short_page_ends w;
     started := started w; artifacts := artifacts w; existing := existing w;
     tree := tree w; table := table w; ledger := ledger w;
     faulty := faulty w; requests := requests w ++ [r] |}.

Definition with_uri (u : string) (w : state) : state :=
  {| uri := u; experiment := experiment w; runs := runs w;
     page_cap := page_cap w; short_page_ends := short_page_ends w;
     started := started w; artifacts := artifacts w; existing := existing w;
     tree := tree w; table := table w; ledger := ledger w;
     faulty := faulty w; requests := requests w |}.

Definition with_runs (l : list Run) (w : state) : state :=
  {| uri := uri w; experiment := experiment w; runs := l;
     page_cap := page_cap w; short_page_ends := short_page_ends w;
     started := started w; artifacts := artifacts w; existing := existing w;
     tree := tree w; table := table w; ledger := ledger w;
     faulty := faulty w; requests := requests w |}.

Definition with_started (n : nat) (w : state) : state :=
  {| uri := uri w; experiment := experiment w; runs := runs w;
     page_cap := page_cap w; short_page_ends := short_page_ends w;
     started := n; artifacts := artifacts w; existing := existing w;
     tree := tree w; table := table w; ledger := ledger w;
     faulty := faulty w; requests := requests w |}.

(** Every request is recorded; a faulty one raises and changes nothing
    else. *)
Definition serve {A : Type} (r : request) (answer : state → A * state)
    (w : state) : res A * state :=
  let w := record_request r w in
  if faulty w r then (Raise "service failure", w)
  else let '(a, w') := answer w in (Ok a, w').

Definition page_of (max_results : Z) (page_token : option nat) (w : state)
  : list Run * option nat :=
  let offset := default 0%nat page_token in
  let size := Nat.min (Z.to_nat max_results) (page_cap w) in
  let page := take size (drop offset (runs w)) in
  let next := (offset + length page)%nat in
  let more :=
    if short_page_ends w then bool_decide (length page = size)
    else bool_decide (next < length (runs w))%nat in
  (page, if more then Some next else None).

Definition strip_prefix (start full : string) : string :=
  if startswith (start +:+ "/") full
  then slice_from (String.length start + 1) full else full.

#[export] Instance service : Service := {|
  world := state;
  token := nat;
  set_tracking_uri u := serve (SetTrackingUri u) (λ w, (tt, with_uri u w));
  get_tracking_uri := uri;
  get_experiment_by_name n :=
    serve (GetExperimentByName n)
      (λ w, (if bool_decide (Experiment.name (experiment w) = n)
             then Some (experiment w) else None, w));
  get_experiment i w :=
    let w := record_request (GetExperiment i) w in
    if faulty w (GetExperiment i)
       || negb (bool_decide (Experiment.experiment_id (experiment w) = i))
    then (Raise "RESOURCE_DOES_NOT_EXIST", w) else (Ok (experiment w), w);
  search_experiments := serve SearchExperiments (λ w, ([experiment w], w));
  create_experiment n := serve (CreateExperiment n) (λ w, ("created", w));
  search_runs _ max_results page_token :=
    serve (SearchRuns max_results page_token)
      (λ w, (page_of max_results page_token w, w));
  delete_run i :=
    serve (DeleteRun i)
      (λ w, (tt, with_runs (filter (λ r, RunInfo.run_id (info r) ≠ i) (runs w)) w));
  start_run e :=
    serve (StartRun e)
      (λ w, ("run-" +:+ pretty (started w), with_started (S (started w)) w));
  end_run s := serve (EndRun s) (λ w, (tt, w));
  log_params p := serve (LogParams p) (λ w, (tt, w));
  log_metrics m := serve (LogMetrics m) (λ w, (tt, w));
  set_tags t := serve (SetTags t) (λ w, (tt, w));
  log_artifact p a := serve (LogArtifact p a) (λ w, (tt, w));
  list_artifacts i := serve (ListArtifacts i) (λ w, (artifacts w, w));
  download_artifacts i p d := serve (DownloadArtifacts i p d) (λ w, (tt, w));
  makedirs p := serve (MakeDirs p) (λ w, (tt, w));
  path_exists p w := bool_decide (p ∈ existing w);
  walk _ := tree;
  relpath full start := strip_prefix start full;
  read_csv p := serve (ReadCsv p) (λ w, (table w, w));
  load_metadata p := serve (LoadMetadata p) (λ w, (ledger w, w));
  write_file p d := serve (WriteFile p d) (λ w, (tt, w))
|}.

(** A server with the given runs and page size, nothing on disk, and no
    failing request. *)
Definition server (l : list Run) (cap : nat) (short : bool) : state :=
  {| uri := "http://localhost:5000";
     experiment := {| Experiment.name := "demo"; Experiment.experiment_id := "1" |};
     runs := l; page_cap := cap; short_page_ends := short; started := 0;
     artifacts := []; existing := []; tree := []; table := [];
     ledger := complete empty_metadata; faulty := λ _, false; requests := [] |}.

End Sim.

(** ** Vocabulary of the statements *)

(** The column that the encoder emits for one entry of a group. *)
Definition column {V : Type} (prefix : string) (to_cell : V → cell)
    (entry : string * V) : string * cell :=
  (prefix +:+ entry.1, to_cell entry.2).

(** The mapping that a dictionary denotes. *)
Definition mapping {V : Type} (d : pydict V) : gmap string V := list_to_map d.

(** A dictionary is well formed when no key occurs twice. *)
Definition wf_dict {V : Type} (d : pydict V) : Prop := NoDup (keys d).

Definition wf_run (r : Run) : Prop :=
  wf_dict (RunData.metrics (data r)) ∧ wf_dict (RunData.params (data r))
  ∧ wf_dict (RunData.tags (data r)).

(** The entries of a metrics dictionary whose value is a number. *)
Definition without_nan (d : pydict float) : pydict float :=
  filter (λ e, is_nan e.2 = false) d.

Definition nan_free (d : pydict float) : Prop :=
  Forall (λ e, is_nan e.2 = false) d.

(** [m[k] = v] for an entry [(k, v)]. *)
Definition store {V : Type} (m : gmap string V) (e : string * V)
  : gmap string V := <[e.1 := e.2]> m.

(** The ledger that an export of [batch] has accumulated at its end. *)
Definition export_ledger (batch : list Run) : Metadata :=
  (encode_page batch ([], empty_metadata)).2.

(** The three mappings of a run, as a decoder result that printed
    nothing. *)
Definition original (r : Run) : decoded :=
  {| params := mapping (RunData.params (data r));
     metrics := mapping (RunData.metrics (data r));
     tags := mapping (RunData.tags (data r));
     printed := [] |}.

(** The run of the specification's example: [lr = "0.01"],
    [loss = 0.53], [owner = "alice"]. *)
Definition example_info : RunInfo.t :=
  {| RunInfo.run_id := "0a1b2c"; RunInfo.experiment_id := "1";
     RunInfo.user_id := "alice"; RunInfo.start_time := Some 1700000000000;
     RunInfo.end_time := None; RunInfo.status := "FINISHED";
     RunInfo.lifecycle_stage := "active" |}.

Definition example_run : Run :=
  {| info := example_info;
     data := {| RunData.metrics := [("loss", S754_finite false 4773815605012726 (-53))];
                RunData.params := [("lr", "0.01")];
                RunData.tags := [("owner", "alice")] |} |}.

(** A run whose only metric diverged. *)
Definition diverged_run : Run :=
  {| info := example_info;
     data := {| RunData.metrics := [("loss", S754_nan)];
                RunData.params := [("lr", "0.01")];
                RunData.tags := [] |} |}.

(** A column name that carries one of the three group prefixes. *)
Definition prefixed (col : string) : bool :=
  startswith "param:" col || startswith "metric:" col || startswith "tag:" col.

(** A cell that the decoder settles without looking at the ledger: it is
    missing, or its column is a system column or a prefixed one. *)
Definition ledger_free (entry : string * cell) : Prop :=
  isna entry.2 = true ∨ entry.1 ∈ system_columns ∨ prefixed entry.1 = true.

(** A cell reaches the shape inference of the decoder when it is not
    missing and its column is neither a system column, nor prefixed, nor
    named by the ledger. *)
Definition reaches_inference (metadata : Metadata) (col : string) (v : cell)
  : Prop :=
  isna v = false ∧ (col ∉ system_columns) ∧ prefixed col = false
  ∧ (col ∉ md_parameters metadata) ∧ (col ∉ md_metrics metadata)
  ∧ (col ∉ md_tags metadata).

(** The rational number that a finite double stands for. *)
Definition float_value (f : float) : option Q :=
  match f with
  | S754_zero _ => Some 0%Q
  | S754_finite s m e =>
      let n := if s then Z.neg m else Z.pos m in
      Some (if 0 <=? e then inject_Z (n * 2 ^ e)
            else Qmake n (Z.to_pos (2 ^ (- e))))
  | S754_infinity _ | S754_nan => None
  end.

(** Truncation towards zero. *)
Definition Qtruncate (q : Q) : Z := Z.quot (Qnum q) (Z.pos (Qden q)).

(** Following the specification's words: a value that equals its own
    integer truncation and whose magnitude is below the threshold. *)
Definition small_integer (threshold : Z) (f : float) : Prop :=
  ∃ q : Q, float_value f = Some q
           ∧ (inject_Z (Qtruncate q) == q)%Q
           ∧ (Qabs q < inject_Z threshold)%Q.

(** A column is routed to the metrics group by its prefix, or, when it
    has none of the prefixes, by the ledger, in which the parameters are
    looked up first.  The last argument is the name of the metric. *)
Inductive routed_to_metrics (metadata : Metadata) (col : string)
  : string → Prop :=
| by_prefix :
    startswith "metric:" col = true →
    routed_to_metrics metadata col (slice_from 7 col)
| by_ledger :
    col ∉ system_columns →
    prefixed col = false →
    col ∉ md_parameters metadata →
    col ∈ md_metrics metadata →
    routed_to_metrics metadata col col.

(** Two decoder results with the same three mappings. *)
Definition same_mappings (d1 d2 : decoded) : Prop :=
  params d1 = params d2 ∧ metrics d1 = metrics d2 ∧ tags d1 = tags d2.

(** The rows that the exporter builds for a list of runs. *)
Definition rows_of (batch : list Run) : list row :=
  (encode_page batch ([], empty_metadata)).1.

(** [serves id w tok pages w']: asked for the page at [tok] in the world
    [w], the service answers with the pages [pages], one request each,
    every page but the last one with a token for the next one and the
    last one without a token, and is then in the world [w']. *)
Inductive serves `{Service} (experiment_id : string)
  : world → option token → list (list Run) → world → Prop :=
| serves_last (w : world) (tok : option token) (page : list Run) (w' : world) :
    search_runs [experiment_id] max_results_per_page tok w
      = (Ok (page, None), w') →
    serves experiment_id w tok [page] w'
| serves_more (w : world) (tok : option token) (page : list Run) (next : token)
    (w' : world) (pages : list (list Run)) (w'' : world) :
    search_runs [experiment_id] max_results_per_page tok w
      = (Ok (page, Some next), w') →
    serves experiment_id w' (Some next) pages w'' →
    serves experiment_id w tok (page :: pages) w''.

(** The progress lines of the pagination loop. *)
Fixpoint progress (total : nat) (pages : list (list Run)) : list string :=
  match pages with
  | [] => []
  | page :: pages' =>
      let total := (total + length page)%nat in
      ("Retrieved " +:+ pretty (length page) +:+ " runs. Total so far: "
         +:+ pretty total) :: progress total pages'
  end.

(** A server of the reference service that holds [l], serves pages of at
    most [cap] runs and fails no request. *)
Definition healthy (w : Sim.state) (l : list Run) (cap : nat) (short : bool)
  : Prop :=
  Sim.runs w = l ∧ Sim.page_cap w = cap ∧ Sim.short_page_ends w = short
  ∧ ∀ r, Sim.faulty w r = false.

Definition numbered_run (i : nat) : Run :=
  {| info := {| RunInfo.run_id := "run" +:+ pretty i;
                RunInfo.experiment_id := "1"; RunInfo.user_id := "alice";
                RunInfo.start_time := Some (Z.of_nat i); RunInfo.end_time := None;
                RunInfo.status := "FINISHED";
                RunInfo.lifecycle_stage := "active" |};
     data := {| RunData.metrics := []; RunData.params := [];
                RunData.tags := [] |} |}.

Definition numbered_runs (n : nat) : list Run := numbered_run <$> seq 0 n.

(** The [max_results] of the only search that [clear_runs.py] makes. *)
Definition search_limit : nat := Z.to_nat 50000.

Definition run_ids (l : list Run) : list string :=
  (λ r, RunInfo.run_id (info r)) <$> l.

(** An environment of the reference service without local variables. *)
Abbreviation sim_env := (@Env Sim.service unit).

(** A server of the reference service for an import: it holds the
    experiment [demo], answers [read_csv] with [rows], lists [files]
    under the artifact directory of every run, and fails the requests in
    [faulty]. *)
Definition import_server (rows : list row) (paths : list string)
    (files : list (string * list string)) (faulty : Sim.request → bool)
  : Sim.state :=
  {| Sim.uri := "http://localhost:5000";
     Sim.experiment :=
       {| Experiment.name := "demo"; Experiment.experiment_id := "1" |};
     Sim.runs := []; Sim.page_cap := 5000; Sim.short_page_ends := true;
     Sim.started := 0; Sim.artifacts := []; Sim.existing := paths;
     Sim.tree := files; Sim.table := rows; Sim.ledger := complete empty_metadata;
     Sim.faulty := faulty; Sim.requests := [] |}.

(** An environment of the reference service for the importer. *)
Abbreviation import_env :=
  (@Env Sim.service import_locals).

Definition no_locals : import_locals :=
  {| imported_runs := []; failed_runs := [] |}.

(** Three rows of an exported table; the second one holds text where
    its metric should be. *)
Definition three_rows : list row :=
  [ [("run_id", CStr "a"); ("status", CStr "FINISHED");
     ("param:lr", CStr "0.01"); ("metric:loss", CFloat (float_of_Z 1))];
    [("run_id", CStr "b"); ("status", CStr "FINISHED");
     ("param:lr", CStr "0.02"); ("metric:loss", CStr "diverged")];
    [("run_id", CStr "c"); ("status", CStr "FINISHED");
     ("param:lr", CStr "0.03"); ("metric:loss", CFloat (float_of_Z 3))] ].

(** The service cannot close a run as finished. *)
Definition closing_fails (r : Sim.request) : bool :=
  match r with
  | Sim.EndRun "FINISHED" => true
  | _ => false
  end.

(** *** Rows of an import, one by one *)

Section ImportVocabulary.
Context `{Builtins} `{Service}.
Variables (experiment_id : string) (artifacts_dir : option string)
  (import_artifacts : bool) (metadata : Metadata) (count : nat).

(** The environment in which the loop reaches the entry at position [i]. *)
Definition state_before (entries : list (nat * row)) (s : env import_locals)
    (i : nat) : env import_locals :=
  (for_each (take i entries)
     (import_step experiment_id artifacts_dir import_artifacts metadata count)
     s).2.

(** How the [try] block of the entry at position [i] ends. *)
Definition row_result (entries : list (nat * row)) (s : env import_locals)
    (i : nat) : option (res unit) :=
  match entries !! i with
  | Some entry =>
      Some (import_row experiment_id artifacts_dir import_artifacts metadata
              count entry.1 entry.2 (state_before entries s i)).1
  | None => None
  end.

Definition row_raised (entries : list (nat * row)) (s : env import_locals)
    (i : nat) : bool :=
  match row_result entries s i with
  | Some (Raise _) => true
  | _ => false
  end.

End ImportVocabulary.

(** A computation that leaves the local variables alone. *)
Definition frames `{Service} {L A : Type} (m : M L A) : Prop :=
  ∀ s, locals (m s).2 = locals s.

(** The service rejects the parameters of the second of the three rows. *)
Definition rejects_second (r : Sim.request) : bool :=
  match r with
  | Sim.LogParams p => bool_decide (p !! "lr" = Some "0.02")
  | _ => false
  end.

(** *** Requests of the artifact mirror *)

(** The world after the reference service has received [rs]. *)
Definition record_all (rs : list Sim.request) (w : Sim.state) : Sim.state :=
  foldl (λ w r, Sim.record_request r w) w rs.

(** The requests up to the first faulty one, which is the last. *)
Fixpoint until_faulty (faulty : Sim.request → bool) (rs : list Sim.request)
  : list Sim.request :=
  match rs with
  | [] => []
  | r :: rs' => if faulty r then [r] else r :: until_faulty faulty rs'
  end.

(** The files below the artifact directory of a run, in the order of the
    walk, each with its full and its relative path. *)
Definition uploads (run_artifacts_path : string)
    (walked : list (string * list string)) : list (string * string) :=
  concat ((λ entry : string * list string,
             (λ file, let full_path := path_join entry.1 file in
                      (full_path, Sim.strip_prefix run_artifacts_path full_path))
               <$> entry.2) <$> walked).

Definition upload_request (u : string * string) : Sim.request :=
  Sim.LogArtifact u.1 (truthy (Some (dirname u.2))).

Definition upload_error (u : string * string) : string :=
  "Error logging artifact " +:+ u.2 +:+ ": service failure".

(** The requests that mirroring one artifact of a run takes. *)
Definition download_requests (run_id run_artifacts_dir : string)
    (artifact : FileInfo.t) : list Sim.request :=
  if FileInfo.is_dir artifact then
    [Sim.DownloadArtifacts run_id (FileInfo.path artifact) run_artifacts_dir]
  else
    let dst_dir :=
      path_join run_artifacts_dir (dirname (FileInfo.path artifact)) in
    [Sim.MakeDirs dst_dir;
     Sim.DownloadArtifacts run_id (FileInfo.path artifact) dst_dir].

(** The requests that mirroring all artifacts of a run takes. *)
Definition mirror_requests (run_id run_artifacts_dir : string) (w : Sim.state)
  : list Sim.request :=
  Sim.ListArtifacts run_id
    :: concat (download_requests run_id run_artifacts_dir <$> Sim.artifacts w).

(** A server of the reference service that lists [files] as the
    artifacts of every run and fails the requests in [faulty]. *)
Definition artifact_server (files : list FileInfo.t)
    (faulty : Sim.request → bool) : Sim.state :=
  {| Sim.uri := "http://localhost:5000";
     Sim.experiment :=
       {| Experiment.name := "demo"; Experiment.experiment_id := "1" |};
     Sim.runs := []; Sim.page_cap := 5000; Sim.short_page_ends := true;
     Sim.started := 0; Sim.artifacts := files; Sim.existing := [];
     Sim.tree := []; Sim.table := []; Sim.ledger := complete empty_metadata;
     Sim.faulty := faulty; Sim.requests := [] |}.

(** The download of [model.pkl] fails. *)
Definition model_fails (r : Sim.request) : bool :=
  match r with
  | Sim.DownloadArtifacts _ "model.pkl" _ => true
  | _ => false
  end.

(** ** The experiment tools: [restore_exp.py] and [delete_exp.py] *)

(** An experiment as a search over all life-cycle stages returns it. *)
Module StoredExperiment.
Record t := {
  name : string;
  experiment_id : string;
  lifecycle_stage : string
}.
End StoredExperiment.

(** What the two tools ask of the tracking client beyond [Service]:
    [search_experiments(view_type=ViewType.ALL)], [restore_experiment]
    and [delete_experiment]. *)
Class Registry `{Service} := {
  search_all_experiments : world → res (list StoredExperiment.t) * world;
  restore_experiment : string → world → res unit * world;
  delete_experiment : string → world → res unit * world
}.

Section ExperimentTools.
Context `{Service} `{!Registry}.

(** [next((exp for exp in all_experiments if exp.name == experiment_name
    and exp.lifecycle_stage == "deleted"), None)] *)
Definition find_deleted (all_experiments : list StoredExperiment.t)
    (experiment_name : string) : option StoredExperiment.t :=
  head (filter (λ exp, StoredExperiment.name exp = experiment_name
                       ∧ StoredExperiment.lifecycle_stage exp = "deleted")
               all_experiments).

(** The body of [for experiment_name in experiment_names]. *)
Definition restore_one {L} (all_experiments : list StoredExperiment.t)
    (experiment_name : string) : M L unit :=
  match find_deleted all_experiments experiment_name with
  | Some deleted_experiment =>
      call (restore_experiment
              (StoredExperiment.experiment_id deleted_experiment)) ;;
      print ("Experiment '" +:+ experiment_name +:+ "' restored successfully.")
  | None =>
      print ("Deleted experiment '" +:+ experiment_name +:+ "' not found.")
  end.

Definition restore_experiments {L} (experiment_names : list string)
    (tracking_uri : option string) : M L unit :=
  select_tracking_uri tracking_uri ;;
  try_except
    (all_experiments ← call search_all_experiments;
     for_each experiment_names (restore_one all_experiments))
    (λ e, print ("Error restoring experiments: " +:+ e)).

Definition delete_mlflow_experiment {L} (experiment_name : string)
    (tracking_uri : option string) : M L unit :=
  select_tracking_uri tracking_uri ;;
  try_except
    (experiment ← call (get_experiment_by_name experiment_name);
     match experiment with
     | None => print ("Experiment '" +:+ experiment_name +:+ "' not found.")
     | Some experiment =>
         call (delete_experiment (Experiment.experiment_id experiment)) ;;
         print ("Experiment '" +:+ experiment_name +:+ "' deleted successfully.")
     end)
    (λ e, print ("Error deleting experiment '" +:+ experiment_name
                   +:+ "': " +:+ e)).

End ExperimentTools.

(** ** Vocabulary of the further properties *)

(** The names that a group of entries adds to a ledger list. *)
Definition observed {V : Type} (prefix : string) (l : list string)
    (es : pydict V) : list string :=
  foldl (λ l e, observe (prefix +:+ e.1) l) l es.

(** The ledger after the runs of [batch] were encoded, starting from
    [metadata]. *)
Definition ledger_after (batch : list Run) (metadata : Metadata) : Metadata :=
  foldl (λ metadata r, (encode_run r metadata).2) metadata batch.

(** Every name of the ledger carries a group prefix. *)
Definition prefixed_ledger (metadata : Metadata) : Prop :=
  Forall (λ c, prefixed c = true) (md_parameters metadata)
  ∧ Forall (λ c, prefixed c = true) (md_metrics metadata)
  ∧ Forall (λ c, prefixed c = true) (md_tags metadata).


Section DecoderVocabulary.
Context `{Builtins}.

(** A cell that the decoder looks at: it is present and its column is
    not a system column. *)
Definition data_cell (entry : string * cell) : Prop :=
  isna entry.2 = false ∧ entry.1 ∉ system_columns.

(** [entry] is a data cell of [run_data] whose column is [name], with or
    without the prefix [prefix]. *)
Definition cell_for (run_data : row) (prefix name : string)
    (entry : string * cell) : Prop :=
  entry ∈ run_data ∧ data_cell entry
  ∧ (entry.1 = prefix +:+ name ∨ entry.1 = name).

(** Every entry of the three mappings of [d] is the value of a data cell
    of [run_data]. *)
Definition sourced (run_data : row) (d : decoded) : Prop :=
  (∀ k v, params d !! k = Some v →
          ∃ entry, cell_for run_data "param:" k entry ∧ v = py_str entry.2)
  ∧ (∀ k x, metrics d !! k = Some x →
            ∃ entry, cell_for run_data "metric:" k entry
                     ∧ py_float entry.2 = Some x)
  ∧ (∀ k v, tags d !! k = Some v →
            ∃ entry, cell_for run_data "tag:" k entry ∧ v = py_str entry.2).

End DecoderVocabulary.

(** The table of the service cannot be read. *)
Definition unreadable (r : Sim.request) : bool :=
  match r with
  | Sim.ReadCsv _ => true
  | _ => false
  end.

(** [breaks id w tok pages e w']: asked for the page at [tok] in the
    world [w], the service answers with the pages [pages], every one
    with a token for the next one, and then raises [e], which leaves the
    world [w']. *)
Inductive breaks `{Service} (experiment_id : string)
  : world → option token → list (list Run) → exn → world → Prop :=
| breaks_now (w : world) (tok : option token) (e : exn) (w' : world) :
    search_runs [experiment_id] max_results_per_page tok w = (Raise e, w') →
    breaks experiment_id w tok [] e w'
| breaks_later (w : world) (tok : option token) (page : list Run) (next : token)
    (w' : world) (pages : list (list Run)) (e : exn) (w'' : world) :
    search_runs [experiment_id] max_results_per_page tok w
      = (Ok (page, Some next), w') →
    breaks experiment_id w' (Some next) pages e w'' →
    breaks experiment_id w tok (page :: pages) e w''.

(** The lines that list the experiments of the service. *)
Definition available (experiments : list Experiment.t) : list string :=
  match experiments with
  | [] => []
  | _ =>
      (newline +:+ "Available experiments:")
        :: ((λ exp, "  - Name: " +:+ Experiment.name exp +:+ ", ID: "
                      +:+ Experiment.experiment_id exp) <$> experiments)
  end.

(** [Sim.server] with the requests in [faulty] failing. *)
Definition failing_server (l : list Run) (cap : nat) (short : bool)
    (faulty : Sim.request → bool) : Sim.state :=
  {| Sim.uri := "http://localhost:5000";
     Sim.experiment :=
       {| Experiment.name := "demo"; Experiment.experiment_id := "1" |};
     Sim.runs := l; Sim.page_cap := cap; Sim.short_page_ends := short;
     Sim.started := 0; Sim.artifacts := []; Sim.existing := [];
     Sim.tree := []; Sim.table := []; Sim.ledger := complete empty_metadata;
     Sim.faulty := faulty; Sim.requests := [] |}.

(** The search for the page at offset [k] fails. *)
Definition fails_at (k : nat) (r : Sim.request) : bool :=
  match r with
  | Sim.SearchRuns _ (Some offset) => bool_decide (offset = k)
  | _ => false
  end.

(** A request for a page of runs, as the exporter makes it. *)
Definition is_search (r : Sim.request) : Prop :=
  ∃ tok, r = Sim.SearchRuns max_results_per_page tok.

(** The requests by which the exporter finds the experiment of the
    reference service: by its name or, failing that, by its identifier. *)
Definition lookup_requests (experiment_name : string) : list Sim.request :=
  if bool_decide (experiment_name = "demo")
  then [Sim.GetExperimentByName experiment_name]
  else [Sim.GetExperimentByName experiment_name;
        Sim.GetExperiment experiment_name].

Definition count_status (status : string) (batch : list Run) : nat :=
  length (filter (λ r, RunInfo.status (info r) = status) batch).

(** The summary of an export of [batch] from the reference service. *)
Definition summary_of (batch : list Run) : ExportSummary.t :=
  {| ExportSummary.total_runs := length batch;
     ExportSummary.successful_runs := count_status "FINISHED" batch;
     ExportSummary.failed_runs := count_status "FAILED" batch;
     ExportSummary.experiment_name := "demo";
     ExportSummary.experiment_id := "1";
     ExportSummary.tracking_uri := "http://localhost:5000";
     ExportSummary.parameters_count := length (md_parameters (export_ledger batch));
     ExportSummary.metrics_count := length (md_metrics (export_ledger batch));
     ExportSummary.tags_count := length (md_tags (export_ledger batch)) |}.

(** The table and the ledger of a bundle in [dir]. *)
Definition bundle_data (dir : string) (batch : list Run) : list Sim.request :=
  [Sim.WriteFile (path_join dir "demo_runs.csv") (Table (rows_of batch));
   Sim.WriteFile (path_join dir "demo_metadata.json")
     (Ledger (export_ledger batch))].

Definition bundle_summary (dir : string) (batch : list Run) : Sim.request :=
  Sim.WriteFile (path_join dir "export_summary.json")
    (ExportReport (summary_of batch)).

(** The world [w] with the requests in [faulty] failing. *)
Definition with_faulty (faulty : Sim.request → bool) (w : Sim.state)
  : Sim.state :=
  {| Sim.uri := Sim.uri w; Sim.experiment := Sim.experiment w;
     Sim.runs := Sim.runs w; Sim.page_cap := Sim.page_cap w;
     Sim.short_page_ends := Sim.short_page_ends w;
     Sim.started := Sim.started w; Sim.artifacts := Sim.artifacts w;
     Sim.existing := Sim.existing w; Sim.tree := Sim.tree w;
     Sim.table := Sim.table w; Sim.ledger := Sim.ledger w;
     Sim.faulty := faulty; Sim.requests := Sim.requests w |}.

(** A server of the reference service that holds the runs [l], lists
    [files] as the artifacts of every run and fails the requests in
    [faulty]. *)
Definition mirror_server (l : list Run) (cap : nat) (short : bool)
    (files : list FileInfo.t) (faulty : Sim.request → bool) : Sim.state :=
  {| Sim.uri := "http://localhost:5000";
     Sim.experiment :=
       {| Experiment.name := "demo"; Experiment.experiment_id := "1" |};
     Sim.runs := l; Sim.page_cap := cap; Sim.short_page_ends := short;
     Sim.started := 0; Sim.artifacts := files; Sim.existing := [];
     Sim.tree := []; Sim.table := []; Sim.ledger := complete empty_metadata;
     Sim.faulty := faulty; Sim.requests := [] |}.

(** The requests that list or fetch artifacts. *)
Definition transfer (r : Sim.request) : Prop :=
  match r with
  | Sim.ListArtifacts _ | Sim.DownloadArtifacts _ _ _ => True
  | _ => False
  end.

(** The requests that the exporter makes for the artifacts of one run
    below [artifacts_dir], when every run has the artifacts [files] and
    the requests in [faulty] fail. *)
Definition run_mirror (artifacts_dir : string) (files : list FileInfo.t)
    (faulty : Sim.request → bool) (r : Run) : list Sim.request :=
  let run_id := RunInfo.run_id (info r) in
  let run_artifacts_dir := path_join artifacts_dir run_id in
  Sim.MakeDirs run_artifacts_dir
    :: until_faulty faulty
         (Sim.ListArtifacts run_id
            :: concat (download_requests run_id run_artifacts_dir <$> files)).

(** The requests of the artifact stage of an export of [batch] into
    [dir]. *)
Definition artifact_stage (include_artifacts : bool) (dir : string)
    (files : list FileInfo.t) (faulty : Sim.request → bool) (batch : list Run)
  : list Sim.request :=
  if include_artifacts then
    Sim.MakeDirs (path_join dir "artifacts")
      :: concat (run_mirror (path_join dir "artifacts") files faulty <$> batch)
  else [].

(** The service cannot delete the run [run1]. *)
Definition keeps_run1 (r : Sim.request) : bool :=
  match r with
  | Sim.DeleteRun "run1" => true
  | _ => false
  end.

(** ** A reference registry of experiments *)

(** The reference service together with the experiments of all
    life-cycle stages: a search returns them as they are, restoring and
    deleting set the stage of the experiment with the given identifier,
    every request to the registry is recorded, and the requests in
    [faulty] fail. *)
Module Reg.

Inductive request :=
| SearchAll
| Restore (experiment_id : string)
| Delete (experiment_id : string).

Record state := {
  base : Sim.state;
  stored : list StoredExperiment.t;
  faulty : request → bool;
  requests : list request
}.

Definition with_base (b : Sim.state) (w : state) : state :=
  {| base := b; stored := stored w; faulty := faulty w;
     requests := requests w |}.

Definition with_stored (l : list StoredExperiment.t) (w : state) : state :=
  {| base := base w; stored := l; faulty := faulty w;
     requests := requests w |}.

Definition record_request (r : request) (w : state) : state :=
  {| base := base w; stored := stored w; faulty := faulty w;
     requests := requests w ++ [r] |}.

(** An operation of the reference service, on the first component. *)
Definition on_base {A : Type} (op : Sim.state → res A * Sim.state)
    (w : state) : res A * state :=
  let '(r, b) := op (base w) in (r, with_base b w).

Definition serve {A : Type} (r : request) (answer : state → A * state)
    (w : state) : res A * state :=
  let w := record_request r w in
  if faulty w r then (Raise "registry failure", w)
  else let '(a, w') := answer w in (Ok a, w').

Definition set_stage (experiment_id stage : string) (e : StoredExperiment.t)
  : StoredExperiment.t :=
  if bool_decide (StoredExperiment.experiment_id e = experiment_id)
  then {| StoredExperiment.name := StoredExperiment.name e;
          StoredExperiment.experiment_id := StoredExperiment.experiment_id e;
          StoredExperiment.lifecycle_stage := stage |}
  else e.

Definition service : Service := {|
  world := state;
  token := nat;
  set_tracking_uri u := on_base (@set_tracking_uri Sim.service u);
  get_tracking_uri w := @get_tracking_uri Sim.service (base w);
  get_experiment_by_name n := on_base (@get_experiment_by_name Sim.service n);
  get_experiment i := on_base (@get_experiment Sim.service i);
  search_experiments := on_base (@search_experiments Sim.service);
  create_experiment n := on_base (@create_experiment Sim.service n);
  search_runs ids max_results page_token :=
    on_base (@search_runs Sim.service ids max_results page_token);
  delete_run i := on_base (@delete_run Sim.service i);
  start_run e := on_base (@start_run Sim.service e);
  end_run s := on_base (@end_run Sim.service s);
  log_params p := on_base (@log_params Sim.service p);
  log_metrics m := on_base (@log_metrics Sim.service m);
  set_tags t := on_base (@set_tags Sim.service t);
  log_artifact p a := on_base (@log_artifact Sim.service p a);
  list_artifacts i := on_base (@list_artifacts Sim.service i);
  download_artifacts i p d := on_base (@download_artifacts Sim.service i p d);
  makedirs p := on_base (@makedirs Sim.service p);
  path_exists p w := @path_exists Sim.service p (base w);
  walk p w := @walk Sim.service p (base w);
  relpath := @relpath Sim.service;
  read_csv p := on_base (@read_csv Sim.service p);
  load_metadata p := on_base (@load_metadata Sim.service p);
  write_file p d := on_base (@write_file Sim.service p d)
|}.

Definition search_all (w : state) : res (list StoredExperiment.t) * state :=
  serve SearchAll (λ w, (stored w, w)) w.

Definition restore (i : string) (w : state) : res unit * state :=
  serve (Restore i)
    (λ w, (tt, with_stored (set_stage i "active" <$> stored w) w)) w.

Definition delete (i : string) (w : state) : res unit * state :=
  serve (Delete i)
    (λ w, (tt, with_stored (set_stage i "deleted" <$> stored w) w)) w.

Definition registry : @Registry service :=
  @Build_Registry service search_all restore delete.

(** A registry with the experiments [l] on top of the reference server
    that knows [demo]. *)
Definition server (l : list StoredExperiment.t) (faulty : request → bool)
  : state :=
  {| base := Sim.server [] 5000 true; stored := l; faulty := faulty;
     requests := [] |}.

End Reg.

(** An environment of the reference registry without local variables. *)
Abbreviation reg_env := (@Env Reg.service unit).

(** The requests up to the first one that fails, which is the last. *)
Fixpoint up_to_failure {R : Type} (faulty : R → bool) (rs : list R) : list R :=
  match rs with
  | [] => []
  | r :: rs' => if faulty r then [r] else r :: up_to_failure faulty rs'
  end.

(** The experiments that [restore_exp.py] asks to restore for the names
    [experiment_names], given the answer [all_experiments] of the
    search: for each name the first deleted experiment of that name. *)
Definition restore_targets (all_experiments : list StoredExperiment.t)
    (experiment_names : list string) : list string :=
  omap (λ experiment_name,
          StoredExperiment.experiment_id
            <$> find_deleted all_experiments experiment_name)
       experiment_names.

(** The registry after the experiments [ids] were restored, in order. *)
Definition restore_all (ids : list string) (l : list StoredExperiment.t)
  : list StoredExperiment.t :=
  foldl (λ l i, Reg.set_stage i "active" <$> l) l ids.

(** A deleted experiment of the given name. *)
Definition deleted_as (experiment_name : string) (e : StoredExperiment.t)
  : Prop :=
  StoredExperiment.name e = experiment_name
  ∧ StoredExperiment.lifecycle_stage e = "deleted".

(** The requests that log the non-empty groups of a decoded row. *)
Definition group_requests (d : decoded) : list Sim.request :=
  (if bool_decide (params d = ∅) then [] else [Sim.LogParams (params d)])
  ++ (if bool_decide (metrics d = ∅) then [] else [Sim.LogMetrics (metrics d)])
  ++ (if bool_decide (tags d = ∅) then [] else [Sim.SetTags (tags d)]).

Section ImportTrace.
Context `{Builtins}.

(** The requests that importing one row without artifacts takes on a
    service that fails no request. *)
Definition row_requests (experiment_id : string) (metadata : Metadata)
    (run_data : row) : list Sim.request :=
  [Sim.StartRun experiment_id]
    ++ group_requests (extract_run_data run_data metadata)
    ++ [Sim.EndRun "FINISHED"].

End ImportTrace.

(** The identifiers that the reference service gives to [n] new runs
    when [k] runs were started before. *)
Definition new_run_ids (k n : nat) : list string :=
  (λ i, "run-" +:+ pretty i) <$> seq k n.

(** The summary of an import of [n] rows into the experiment of the
    reference service, when every row was imported. *)
Definition clean_summary (n : nat) : ImportSummary.t :=
  {| ImportSummary.total_runs_attempted := n;
     ImportSummary.successful_imports := n;
     ImportSummary.failed_imports := 0;
     ImportSummary.destination_experiment := "demo";
     ImportSummary.destination_experiment_id := "1";
     ImportSummary.tracking_uri := "http://localhost:5000";
     ImportSummary.failed_run_indices := [] |}.

(** The service cannot switch to another tracking URI. *)
Definition uri_fails (r : Sim.request) : bool :=
  match r with
  | Sim.SetTrackingUri _ => true
  | _ => false
  end.

(** A ledger file that holds [{"parameters": []}] and nothing else. *)
Definition parameters_only : LoadedMetadata :=
  {| ld_parameters := Some []; ld_metrics := None; ld_tags := None |}.

(** A server of the reference service for an import with the ledger
    file [out/demo_metadata.json], which holds [ledger]. *)
Definition ledger_server (rows : list row) (ledger : LoadedMetadata)
  : Sim.state :=
  {| Sim.uri := "http://localhost:5000";
     Sim.experiment :=
       {| Experiment.name := "demo"; Experiment.experiment_id := "1" |};
     Sim.runs := []; Sim.page_cap := 5000; Sim.short_page_ends := true;
     Sim.started := 0; Sim.artifacts := [];
     Sim.existing := ["out/demo_metadata.json"];
     Sim.tree := []; Sim.table := rows; Sim.ledger := ledger;
     Sim.faulty := λ _, false; Sim.requests := [] |}.

(** A row of an exported table and a row with a column that has no
    prefix. *)
Definition two_rows : list row :=
  [ [("run_id", CStr "a"); ("param:lr", CStr "0.01")];
    [("run_id", CStr "b"); ("param:lr", CStr "0.02"); ("epochs", CInt 10)] ].

(** * Properties *)

(** ** Text and dictionaries *)

Lemma prefix_nil (s : string) : String.prefix "" s = true.
Proof. by destruct s. Qed.

Lemma string_app_inj (p a b : string) : p +:+ a = p +:+ b → a = b.
Proof.
  induction p as [|c p IH]; simpl; [done|].
  intros Heq. injection Heq as Heq. by apply IH.
Qed.

Lemma setitem_fresh {V : Type} (k : string) (v : V) (d : pydict V) :
  k ∉ keys d → setitem k v d = d ++ [(k, v)].
Proof.
  unfold keys. induction d as [|[k' v'] d IH]; simpl; [done|].
  rewrite not_elem_of_cons. intros [Hne Hnotin].
  rewrite bool_decide_eq_false_2 by (by intros ->).
  by rewrite IH.
Qed.

Lemma keys_app {V : Type} (d1 d2 : pydict V) :
  keys (d1 ++ d2) = keys d1 ++ keys d2.
Proof. unfold keys. by rewrite fmap_app. Qed.

Lemma keys_column {V : Type} (p : string) (c : V → cell) (es : pydict V) :
  keys (column p c <$> es) = (λ k, p +:+ k) <$> keys es.
Proof. unfold keys. rewrite <- !list_fmap_compose. done. Qed.

Lemma foldl_add_column {V : Type} (p : string) (c : V → cell)
    (es : pydict V) (rd : row) (l : list string) :
  wf_dict es →
  (∀ k, k ∈ keys es → p +:+ k ∉ keys rd) →
  (foldl (add_column p c) (rd, l) es).1 = rd ++ (column p c <$> es).
Proof.
  unfold wf_dict. revert rd l.
  induction es as [|[k v] es IH]; intros rd l Hnd Hfresh; simpl.
  { by rewrite app_nil_r. }
  unfold keys in Hnd. simpl in Hnd. apply NoDup_cons in Hnd as [Hk Hnd].
  unfold add_column at 2. simpl.
  assert (p +:+ k ∉ keys rd) as Hkrd.
  { apply Hfresh. unfold keys. simpl. left. }
  rewrite (setitem_fresh _ _ _ Hkrd).
  rewrite IH; [by rewrite <- app_assoc | done |].
  intros k' Hk'. rewrite keys_app, elem_of_app. intros [Hin|Hin].
  - revert Hin. apply Hfresh. unfold keys. simpl. by right.
  - unfold keys in Hin. simpl in Hin. apply list_elem_of_singleton in Hin.
    apply string_app_inj in Hin. subst k'. by apply Hk.
Qed.

(** ** The record encoder *)

Ltac not_a_system_column :=
  unfold system_columns; simpl;
  rewrite ?not_elem_of_cons; repeat split; try discriminate;
  apply not_elem_of_nil.

Lemma metric_not_system (k : string) : "metric:" +:+ k ∉ system_columns.
Proof. not_a_system_column. Qed.

Lemma param_not_system (k : string) : "param:" +:+ k ∉ system_columns.
Proof. not_a_system_column. Qed.

Lemma tag_not_system (k : string) : "tag:" +:+ k ∉ system_columns.
Proof. not_a_system_column. Qed.

Lemma keys_system_cells (i : RunInfo.t) : keys (system_cells i) = system_columns.
Proof. reflexivity. Qed.

(** The columns of an encoded row: the seven system columns, then one
    prefixed column per metric, per parameter and per tag. *)
Lemma encode_run_row (r : Run) (metadata : Metadata) :
  wf_run r →
  (encode_run r metadata).1 =
    system_cells (info r)
    ++ (column "metric:" CFloat <$> RunData.metrics (data r))
    ++ (column "param:" CStr <$> RunData.params (data r))
    ++ (column "tag:" CStr <$> RunData.tags (data r)).
Proof.
  intros (Hm & Hp & Ht). unfold encode_run.
  pose proof (foldl_add_column "metric:" CFloat (RunData.metrics (data r))
                (system_cells (info r)) (md_metrics metadata) Hm) as Em.
  destruct (foldl (add_column "metric:" CFloat) _ _) as [rd1 ms]. cbn [fst] in Em.
  rewrite Em; clear Em.
  2:{ intros k _. rewrite keys_system_cells. apply metric_not_system. }
  pose proof (foldl_add_column "param:" CStr (RunData.params (data r))
                (system_cells (info r)
                   ++ (column "metric:" CFloat <$> RunData.metrics (data r)))
                (md_parameters metadata) Hp) as Ep.
  destruct (foldl (add_column "param:" CStr) _ _) as [rd2 ps]. cbn [fst] in Ep.
  rewrite Ep; clear Ep.
  2:{ intros k _. rewrite keys_app, keys_system_cells, keys_column, elem_of_app.
      intros [Hin|Hin]; [by apply (param_not_system k)|].
      apply list_elem_of_fmap in Hin as (k' & Heq & _). discriminate. }
  pose proof (foldl_add_column "tag:" CStr (RunData.tags (data r))
                ((system_cells (info r)
                   ++ (column "metric:" CFloat <$> RunData.metrics (data r)))
                   ++ (column "param:" CStr <$> RunData.params (data r)))
                (md_tags metadata) Ht) as Et.
  destruct (foldl (add_column "tag:" CStr) _ _) as [rd3 ts]. cbn [fst] in Et.
  rewrite Et; clear Et.
  2:{ intros k _.
      rewrite !keys_app, keys_system_cells, !keys_column, !elem_of_app.
      intros [[Hin|Hin]|Hin]; [by apply (tag_not_system k)| |];
        apply list_elem_of_fmap in Hin as (k' & Heq & _); discriminate. }
  simpl. by rewrite <- !app_assoc.
Qed.

Lemma encode_page_rows (batch : list Run) :
  ∀ acc : list row * Metadata,
    ∃ rows : list row,
      (encode_page batch acc).1 = acc.1 ++ rows
      ∧ Forall2 (λ r run_data, ∃ m0, run_data = (encode_run r m0).1) batch rows.
Proof.
  induction batch as [|r batch IH]; intros acc.
  { exists []. simpl. by rewrite app_nil_r. }
  unfold encode_page in *. cbn [foldl].
  destruct (encode_run r acc.2) as [run_data metadata] eqn:Hrun.
  destruct (IH (acc.1 ++ [run_data], metadata)) as (rows & Hrows & Hall).
  exists (run_data :: rows). rewrite Hrows. simpl. rewrite <- app_assoc.
  split; [done|]. constructor; [|done]. exists acc.2. by rewrite Hrun.
Qed.

(** ** Filling a mapping entry by entry *)

Lemma foldl_store_from {V : Type} (l0 l : pydict V) :
  wf_dict (l0 ++ l) → foldl store (mapping l0) l = mapping (l0 ++ l).
Proof.
  unfold wf_dict, mapping, keys. revert l0.
  induction l as [|[k v] l IH]; intros l0 Hnd; simpl.
  { by rewrite app_nil_r. }
  replace (l0 ++ (k, v) :: l) with ((l0 ++ [(k, v)]) ++ l) in *
    by (by rewrite <- app_assoc).
  rewrite <- IH by done. f_equal. unfold store. simpl.
  rewrite list_to_map_snoc; [done|].
  rewrite !fmap_app in Hnd. apply NoDup_app in Hnd as [Hnd _].
  apply NoDup_app in Hnd as (_ & Hnd & _).
  intros Hin. apply (Hnd k Hin). simpl. left.
Qed.

Lemma foldl_store {V : Type} (l : pydict V) :
  wf_dict l → foldl store ∅ l = mapping l.
Proof. intros Hnd. by apply (foldl_store_from [] l). Qed.

Lemma wf_without_nan (d : pydict float) : wf_dict d → wf_dict (without_nan d).
Proof.
  unfold wf_dict, keys, without_nan. intros Hnd.
  eapply sublist_NoDup; [exact Hnd|].
  apply fmap_sublist, sublist_filter.
Qed.

Lemma without_nan_id (d : pydict float) : nan_free d → without_nan d = d.
Proof.
  unfold nan_free, without_nan. induction d as [|e d IH]; intros Hf; [done|].
  apply Forall_cons in Hf as [He Hd].
  rewrite filter_cons_True by done. by rewrite IH.
Qed.

(** ** The record decoder *)

Section DecoderFacts.
Context `{Builtins}.
Implicit Types (metadata : Metadata) (d : decoded).

Lemma extract_run_data_app metadata (r1 r2 : row) :
  extract_run_data (r1 ++ r2) metadata =
    foldl (extract_step metadata) (extract_run_data r1 metadata) r2.
Proof. unfold extract_run_data. by rewrite foldl_app. Qed.

Lemma skip_system_column metadata d (col : string) (v : cell) :
  col ∈ system_columns → extract_step metadata d (col, v) = d.
Proof.
  intros Hin. unfold extract_step.
  by rewrite (bool_decide_eq_true_2 _ Hin), orb_true_r.
Qed.

Lemma skip_missing metadata d (col : string) (v : cell) :
  isna v = true → extract_step metadata d (col, v) = d.
Proof. intros Hna. unfold extract_step. by rewrite Hna. Qed.

Lemma decode_system_cells metadata d (i : RunInfo.t) :
  foldl (extract_step metadata) d (system_cells i) = d.
Proof.
  unfold system_cells. cbn [foldl].
  rewrite !skip_system_column; [done|..];
    unfold system_columns; rewrite !elem_of_cons; tauto.
Qed.

Lemma decode_metric_column metadata d (k : string) (v : float) :
  extract_step metadata d (column "metric:" CFloat (k, v)) =
    if is_nan v then d else set_metric k v d.
Proof.
  unfold extract_step, column. cbn [fst snd isna].
  rewrite (bool_decide_eq_false_2 _ (metric_not_system k)), orb_false_r.
  destruct (is_nan v); [done|].
  change (startswith "param:" ("metric:" +:+ k)) with false.
  replace (startswith "metric:" ("metric:" +:+ k)) with true
    by (symmetry; apply (prefix_nil k)).
  reflexivity.
Qed.

Lemma decode_param_column metadata d (k v : string) :
  extract_step metadata d (column "param:" CStr (k, v)) = set_param k v d.
Proof.
  unfold extract_step, column. cbn [fst snd isna].
  rewrite (bool_decide_eq_false_2 _ (param_not_system k)). cbn [orb].
  replace (startswith "param:" ("param:" +:+ k)) with true
    by (symmetry; apply (prefix_nil k)).
  reflexivity.
Qed.

Lemma decode_tag_column metadata d (k v : string) :
  extract_step metadata d (column "tag:" CStr (k, v)) = set_tag k v d.
Proof.
  unfold extract_step, column. cbn [fst snd isna].
  rewrite (bool_decide_eq_false_2 _ (tag_not_system k)). cbn [orb].
  change (startswith "param:" ("tag:" +:+ k)) with false.
  change (startswith "metric:" ("tag:" +:+ k)) with false.
  replace (startswith "tag:" ("tag:" +:+ k)) with true
    by (symmetry; apply (prefix_nil k)).
  reflexivity.
Qed.

Lemma decode_metric_columns metadata d (es : pydict float) :
  foldl (extract_step metadata) d (column "metric:" CFloat <$> es) =
    {| params := params d;
       metrics := foldl store (metrics d) (without_nan es);
       tags := tags d; printed := printed d |}.
Proof.
  revert d. induction es as [|[k v] es IH]; intros d.
  { by destruct d. }
  rewrite fmap_cons. cbn [foldl]. rewrite decode_metric_column, IH.
  unfold without_nan. destruct (is_nan v) eqn:Hv.
  - rewrite filter_cons_False; [done|]. simpl. by rewrite Hv.
  - rewrite filter_cons_True by done. reflexivity.
Qed.

Lemma decode_param_columns metadata d (es : pydict string) :
  foldl (extract_step metadata) d (column "param:" CStr <$> es) =
    {| params := foldl store (params d) es; metrics := metrics d;
       tags := tags d; printed := printed d |}.
Proof.
  revert d. induction es as [|[k v] es IH]; intros d.
  { by destruct d. }
  rewrite fmap_cons. cbn [foldl]. by rewrite decode_param_column, IH.
Qed.

Lemma decode_tag_columns metadata d (es : pydict string) :
  foldl (extract_step metadata) d (column "tag:" CStr <$> es) =
    {| params := params d; metrics := metrics d;
       tags := foldl store (tags d) es; printed := printed d |}.
Proof.
  revert d. induction es as [|[k v] es IH]; intros d.
  { by destruct d. }
  rewrite fmap_cons. cbn [foldl]. by rewrite decode_tag_column, IH.
Qed.

(** Decoding an encoded row gives back the parameters and the tags, and
    the metrics whose value is a number; nothing is printed.  The ledger
    plays no part. *)
Lemma decode_encoded_row (r : Run) (m0 metadata : Metadata) :
  wf_run r →
  extract_run_data (encode_run r m0).1 metadata =
    {| params := mapping (RunData.params (data r));
       metrics := mapping (without_nan (RunData.metrics (data r)));
       tags := mapping (RunData.tags (data r));
       printed := [] |}.
Proof.
  intros Hwf. rewrite (encode_run_row r m0 Hwf).
  destruct Hwf as (Hm & Hp & Ht).
  unfold extract_run_data. rewrite !foldl_app.
  rewrite decode_system_cells, decode_metric_columns, decode_param_columns,
    decode_tag_columns.
  cbn [params metrics tags printed decoded_empty].
  by rewrite !foldl_store by first [done | by apply wf_without_nan].
Qed.

End DecoderFacts.

(** ** Round trips *)

(** The row that is decoded is the [run_data] dictionary that the encoder
    built; the text of the table file that lies between an export and an
    import is not part of these statements. *)

Ltac decide_wf :=
  unfold wf_run, wf_dict, keys; simpl; repeat split;
  match goal with |- NoDup ?l => exact (bool_decide_unpack (NoDup l) I) end.

Section RoundTrips.
Context `{Builtins}.

(** C1, for runs that logged no NaN: for every run with well-formed
    groups none of whose metric values is NaN, decoding the row that the
    encoder builds for it, with the ledger that an export has
    accumulated, gives exactly the original parameters, metrics and tags,
    and prints no warning. *)
Theorem roundtrip_with_ledger (batch : list Run) (r : Run) (m0 : Metadata) :
  wf_run r →
  nan_free (RunData.metrics (data r)) →
  extract_run_data (encode_run r m0).1 (export_ledger batch) = original r.
Proof.
  intros Hwf Hnan. rewrite (decode_encoded_row r m0 _ Hwf).
  unfold original. by rewrite (without_nan_id _ Hnan).
Qed.

(** The same for the rows of a whole export: the row at position [i]
    decodes to the run at position [i]. *)
Lemma exported_rows_roundtrip (batch : list Run) (i : nat) (r : Run)
    (run_data : row) (metadata : Metadata) :
  batch !! i = Some r →
  rows_of batch !! i = Some run_data →
  wf_run r →
  nan_free (RunData.metrics (data r)) →
  extract_run_data run_data metadata = original r.
Proof.
  intros Hr Hrow Hwf Hnan.
  destruct (encode_page_rows batch ([], empty_metadata)) as (rows & Hrows & Hall).
  unfold rows_of in Hrow. rewrite Hrows in Hrow. simpl in Hrow.
  destruct (Forall2_lookup_lr _ _ _ _ _ _ Hall Hr Hrow) as [m0 ->].
  rewrite (decode_encoded_row r m0 _ Hwf).
  unfold original. by rewrite (without_nan_id _ Hnan).
Qed.

End RoundTrips.

Lemma roundtrip_with_ledger_example :
  wf_run example_run ∧ nan_free (RunData.metrics (data example_run))
  ∧ @extract_run_data Decimal.builtins
      (encode_run example_run empty_metadata).1
      (export_ledger [example_run]) = original example_run.
Proof.
  assert (wf_run example_run) as Hwf.
  { decide_wf. }
  assert (nan_free (RunData.metrics (data example_run))) as Hnan.
  { repeat constructor. }
  exact (conj Hwf (conj Hnan
           (@roundtrip_with_ledger Decimal.builtins [example_run] example_run
              empty_metadata Hwf Hnan))).
Defined.

(** C1 as stated fails on a run that logged NaN: [pd.isna] makes the
    decoder skip the column, so the metric is missing afterwards. *)
Lemma nan_metric_breaks_roundtrip :
  wf_run diverged_run
  ∧ @extract_run_data Decimal.builtins
      (encode_run diverged_run empty_metadata).1
      (export_ledger [diverged_run]) ≠ original diverged_run.
Proof.
  split.
  { decide_wf. }
  intros Heq. apply (f_equal (λ d, metrics d !! "loss")) in Heq.
  vm_compute in Heq. discriminate.
Qed.

Section LedgerIndependence.
Context `{Builtins}.

Lemma step_ignores_ledger (m1 m2 : Metadata) (d : decoded) (entry : string * cell) :
  ledger_free entry → extract_step m1 d entry = extract_step m2 d entry.
Proof.
  destruct entry as [col v]. unfold ledger_free, prefixed, extract_step. simpl.
  intros [Hna|[Hsys|Hpre]].
  - by rewrite Hna.
  - by rewrite (bool_decide_eq_true_2 _ Hsys), !orb_true_r.
  - destruct (isna v || bool_decide (col ∈ system_columns)); [done|].
    destruct (startswith "param:" col); [done|].
    destruct (startswith "metric:" col); [done|].
    destruct (startswith "tag:" col); [done|]. discriminate.
Qed.

(** Prefix routing never consults the ledger: a row whose data columns
    all carry a group prefix decodes the same under any two ledgers. *)
Lemma prefix_routing_ignores_ledger (m1 m2 : Metadata) (run_data : row) :
  Forall ledger_free run_data →
  extract_run_data run_data m1 = extract_run_data run_data m2.
Proof.
  unfold extract_run_data. generalize decoded_empty.
  induction run_data as [|entry run_data IH]; intros d Hall; [done|].
  apply Forall_cons in Hall as [Hentry Hall]. cbn [foldl].
  rewrite (step_ignores_ledger m1 m2 d entry Hentry). by apply IH.
Qed.

(** C2, with NaN set apart: for every run with well-formed groups,
    decoding its encoded row with the empty ledger gives the same result
    as decoding it with any other ledger; and when no metric value is NaN
    that result is exactly the original parameters, metrics and tags. *)
Theorem roundtrip_without_ledger (r : Run) (m0 metadata : Metadata) :
  wf_run r →
  extract_run_data (encode_run r m0).1 empty_metadata
    = extract_run_data (encode_run r m0).1 metadata
  ∧ (nan_free (RunData.metrics (data r)) →
     extract_run_data (encode_run r m0).1 empty_metadata = original r).
Proof.
  intros Hwf. rewrite !(decode_encoded_row r m0 _ Hwf). split; [done|].
  intros Hnan. unfold original. by rewrite (without_nan_id _ Hnan).
Qed.

End LedgerIndependence.

Lemma roundtrip_without_ledger_example :
  wf_run example_run
  ∧ @extract_run_data Decimal.builtins
      (encode_run example_run empty_metadata).1 empty_metadata
    = @extract_run_data Decimal.builtins
        (encode_run example_run empty_metadata).1 (export_ledger [example_run])
  ∧ (nan_free (RunData.metrics (data example_run)) →
     @extract_run_data Decimal.builtins
       (encode_run example_run empty_metadata).1 empty_metadata
     = original example_run).
Proof.
  assert (wf_run example_run) as Hwf by decide_wf.
  exact (conj Hwf
           (@roundtrip_without_ledger Decimal.builtins example_run
              empty_metadata (export_ledger [example_run]) Hwf)).
Defined.

(** C2 as stated fails on the same kind of run: with the empty ledger,
    too, a NaN metric is skipped and not reproduced. *)
Lemma nan_metric_breaks_prefix_roundtrip :
  wf_run diverged_run
  ∧ @extract_run_data Decimal.builtins
      (encode_run diverged_run empty_metadata).1 empty_metadata
    ≠ original diverged_run.
Proof.
  split; [decide_wf|].
  intros Heq. apply (f_equal (λ d, metrics d !! "loss")) in Heq.
  vm_compute in Heq. discriminate.
Qed.

(** ** Shape inference *)

Lemma is_integer_truncation (f : float) (q : Q) :
  float_value f = Some q →
  is_integer f = true ↔ (inject_Z (Qtruncate q) == q)%Q.
Proof.
  destruct f as [s|s| |s m e]; simpl; try discriminate.
  { intros [= <-]. split; [intros _; reflexivity|done]. }
  intros [= <-]. unfold Qtruncate, Qeq. destruct (Z.leb_spec 0 e) as [He|He].
  { simpl. split; [intros _|done]. rewrite Z.quot_1_r. lia. }
  assert (0 < 2 ^ (- e)) as Hd by (apply Z.pow_pos_nonneg; lia).
  cbn [Qnum Qden inject_Z]. rewrite Z2Pos.id by done.
  generalize dependent (2 ^ (- e)). intros d Hd.
  rewrite Z.mul_1_r, Z.eqb_eq.
  assert (Z.rem (Z.pos m) d = Z.pos m mod d) as Hrem
    by (apply Z.rem_mod_nonneg; lia).
  destruct s.
  - pose proof (Z.quot_rem' (Z.neg m) d) as Hqr.
    assert (Z.rem (Z.neg m) d = - (Z.pos m mod d)) as Hneg.
    { change (Z.neg m) with (- Z.pos m). rewrite Z.rem_opp_l by lia. lia. }
    lia.
  - pose proof (Z.quot_rem' (Z.pos m) d) as Hqr. lia.
Qed.

Lemma abs_lt_value (f : float) (q : Q) (bound : Z) :
  float_value f = Some q →
  abs_lt f bound = true ↔ (Qabs q < inject_Z bound)%Q.
Proof.
  destruct f as [s|s| |s m e]; simpl; try discriminate.
  { intros [= <-]. unfold Qlt. simpl. rewrite Z.ltb_lt. lia. }
  intros [= <-]. unfold Qlt. destruct (Z.leb_spec 0 e) as [He|He].
  { simpl. rewrite Z.ltb_lt.
    assert (0 < 2 ^ e) by (apply Z.pow_pos_nonneg; lia).
    destruct s; [change (Z.neg m) with (- Z.pos m)|]; nia. }
  assert (0 < 2 ^ (- e)) as Hd by (apply Z.pow_pos_nonneg; lia).
  cbn [Qnum Qden inject_Z Qabs]. rewrite Z2Pos.id by done.
  rewrite Z.ltb_lt. destruct s; simpl; lia.
Qed.

(** The test of the source, [float_val.is_integer() and
    abs(float_val) < 1000], says what the specification says. *)
Lemma small_integer_test (f : float) :
  is_integer f && abs_lt f 1000 = true ↔ small_integer 1000 f.
Proof.
  unfold small_integer. rewrite andb_true_iff. split.
  - intros [Hint Hlt]. destruct (float_value f) as [q|] eqn:Hq.
    + exists q. split; [done|]. split.
      * by apply (is_integer_truncation f q Hq).
      * by apply (abs_lt_value f q 1000 Hq).
    + destruct f; simpl in *; discriminate.
  - intros (q & Hq & Htrunc & Habs). split.
    + by apply (is_integer_truncation f q Hq).
    + by apply (abs_lt_value f q 1000 Hq).
Qed.

Section Inference.
Context `{Builtins}.
Implicit Types (metadata : Metadata) (d : decoded).

Lemma inference_step metadata d (col : string) (v : cell) :
  reaches_inference metadata col v →
  extract_step metadata d (col, v) = infer col v d.
Proof.
  unfold reaches_inference, prefixed, extract_step.
  intros (Hna & Hsys & Hpre & Hp & Hm & Ht).
  apply orb_false_iff in Hpre as [Hpre Htag].
  apply orb_false_iff in Hpre as [Hparam Hmetric].
  rewrite Hna, Hparam, Hmetric, Htag.
  by rewrite !bool_decide_eq_false_2 by done.
Qed.

(** What each of the three outcomes of the inference prints. *)
Lemma inference_prints (col : string) (v : cell) d :
  printed (infer col v d) =
    match py_float v with
    | Some f =>
        if is_integer f && abs_lt f 1000 then printed d
        else printed d ++ [warn_infer_metric col]
    | None => printed d ++ [warn_infer_param col]
    end.
Proof.
  unfold infer. destruct (py_float v) as [f|]; [|done].
  by destruct (is_integer f && abs_lt f 1000).
Qed.

(** C9: a column that reaches the inference with a value that converts
    to the float [f] is classified by the threshold 1000.  When [f]
    equals its integer truncation and [|f| < 1000], the parameters
    afterwards hold the text of the value under the name of the column,
    and the metrics and the output are as before.  In every other case
    the metrics afterwards hold [f] under the name of the column, the
    parameters are as before, and the warning is printed.  So a column
    that was in neither dictionary is afterwards among the parameters
    exactly when [f] is such a small integer, and among the metrics
    exactly when it is not. *)
Theorem inference_threshold metadata d (col : string) (v : cell) (f : float) :
  reaches_inference metadata col v →
  py_float v = Some f →
  let d' := extract_step metadata d (col, v) in
  tags d' = tags d
  ∧ (small_integer 1000 f →
     params d' = <[col := py_str v]> (params d)
     ∧ metrics d' = metrics d
     ∧ printed d' = printed d)
  ∧ (¬ small_integer 1000 f →
     params d' = params d
     ∧ metrics d' = <[col := f]> (metrics d)
     ∧ printed d' = printed d ++ [warn_infer_metric col])
  ∧ (params d !! col = None →
     (is_Some (params d' !! col) ↔ small_integer 1000 f))
  ∧ (metrics d !! col = None →
     (is_Some (metrics d' !! col) ↔ ¬ small_integer 1000 f)).
Proof.
  intros Hreach Hf. cbv zeta. rewrite (inference_step _ _ _ _ Hreach).
  unfold infer. rewrite Hf.
  destruct (is_integer f && abs_lt f 1000) eqn:Htest.
  - assert (small_integer 1000 f) as Hsmall by (by apply small_integer_test).
    cbn [set_param params metrics tags printed].
    split; [done|]. split; [done|]. split; [done|]. split; intros Hfresh.
    + rewrite lookup_insert_eq. split; [done|]. by eexists.
    + rewrite Hfresh. split; [by intros [? ?]|done].
  - assert (¬ small_integer 1000 f) as Hlarge.
    { intros Hsmall%small_integer_test. congruence. }
    cbn [print_line set_metric params metrics tags printed].
    split; [done|]. split; [done|]. split; [done|]. split; intros Hfresh.
    + rewrite Hfresh. split; [by intros [? ?]|done].
    + rewrite lookup_insert_eq. split; [done|]. by eexists.
Qed.

End Inference.

(** The threshold is 1000 and the comparison is strict. *)
Lemma threshold_is_strict :
  small_integer 1000 (float_of_Z 999) ∧ ¬ small_integer 1000 (float_of_Z 1000)
  ∧ small_integer 1000 (float_of_Z (-999))
  ∧ ¬ small_integer 1000 (float_of_Z (-1000)).
Proof.
  rewrite <- !small_integer_test. repeat split; try done.
  all: vm_compute; discriminate.
Qed.

Ltac decide_reaches :=
  unfold reaches_inference; repeat split; try reflexivity;
  match goal with
  | |- ?x ∉ ?l => exact (bool_decide_unpack (x ∉ l) I)
  end.

Lemma inference_threshold_example :
  let d' :=
    @extract_step Decimal.builtins empty_metadata decoded_empty
      ("epochs", CInt 10) in
  reaches_inference empty_metadata "epochs" (CInt 10)
  ∧ @py_float Decimal.builtins (CInt 10) = Some (float_of_Z 10)
  ∧ tags d' = tags decoded_empty
  ∧ (small_integer 1000 (float_of_Z 10) →
     params d'
     = <["epochs" := @py_str Decimal.builtins (CInt 10)]> (params decoded_empty)
     ∧ metrics d' = metrics decoded_empty
     ∧ printed d' = printed decoded_empty)
  ∧ (¬ small_integer 1000 (float_of_Z 10) →
     params d' = params decoded_empty
     ∧ metrics d' = <["epochs" := float_of_Z 10]> (metrics decoded_empty)
     ∧ printed d' = printed decoded_empty ++ [warn_infer_metric "epochs"])
  ∧ (params decoded_empty !! "epochs" = None →
     (is_Some (params d' !! "epochs") ↔ small_integer 1000 (float_of_Z 10)))
  ∧ (metrics decoded_empty !! "epochs" = None →
     (is_Some (metrics d' !! "epochs") ↔ ¬ small_integer 1000 (float_of_Z 10))).
Proof.
  assert (reaches_inference empty_metadata "epochs" (CInt 10)) as Hreach
    by decide_reaches.
  exact (conj Hreach (conj eq_refl
           (@inference_threshold Decimal.builtins empty_metadata decoded_empty
              "epochs" (CInt 10) (float_of_Z 10) Hreach eq_refl))).
Defined.

(** C3 fails on the code: a bare column [epochs = 10] reaches the
    inference, becomes a parameter, and nothing is printed. *)
Theorem small_integer_inferred_silently `{Builtins} :
  reaches_inference empty_metadata "epochs" (CInt 10)
  ∧ extract_run_data [("epochs", CInt 10)] empty_metadata
    = {| params := {["epochs" := "10"]}; metrics := ∅; tags := ∅;
         printed := [] |}.
Proof. split; [decide_reaches|]. vm_compute. reflexivity. Qed.

(** ** Metric values that are not numbers *)

Lemma startswith_app (p s : string) :
  startswith p s = true → ∃ rest, s = p +:+ rest.
Proof.
  unfold startswith. revert s. induction p as [|a p IH]; intros s.
  { intros _. by exists s. }
  destruct s as [|b s]; cbn [String.prefix]; [done|].
  destruct (ascii_dec a b) as [->|]; [|done].
  intros Hpre. destruct (IH s Hpre) as [rest ->]. by exists rest.
Qed.

Lemma metric_prefix_excludes (col : string) :
  startswith "metric:" col = true →
  (col ∉ system_columns) ∧ startswith "param:" col = false.
Proof.
  intros Hpre. apply startswith_app in Hpre as [rest ->].
  split; [apply metric_not_system|reflexivity].
Qed.

Section UnparsableMetrics.
Context `{Builtins}.
Implicit Types (metadata : Metadata) (d : decoded).

(** The step taken on a metric column whose value is not a number: one
    warning, and the three mappings as they were. *)
Lemma unparsable_metric_step metadata d (col name : string) (v : cell) :
  routed_to_metrics metadata col name →
  isna v = false →
  py_float v = None →
  extract_step metadata d (col, v) = print_line (warn_convert name v) d.
Proof.
  intros Hroute Hna Hfloat. unfold extract_step. rewrite Hna. simpl.
  destruct Hroute as [Hmetric|Hsys Hpre Hp Hm].
  - destruct (metric_prefix_excludes col Hmetric) as [Hsys Hparam].
    rewrite (bool_decide_eq_false_2 _ Hsys), Hparam, Hmetric.
    unfold store_metric. by rewrite Hfloat.
  - unfold prefixed in Hpre.
    apply orb_false_iff in Hpre as [Hpre Htag].
    apply orb_false_iff in Hpre as [Hparam Hmetric].
    rewrite (bool_decide_eq_false_2 _ Hsys), Hparam, Hmetric, Htag.
    rewrite (bool_decide_eq_false_2 _ Hp), (bool_decide_eq_true_2 _ Hm).
    unfold store_metric. by rewrite Hfloat.
Qed.

Lemma step_same_mappings metadata d1 d2 (entry : string * cell) :
  same_mappings d1 d2 →
  same_mappings (extract_step metadata d1 entry) (extract_step metadata d2 entry).
Proof.
  destruct d1, d2, entry as [col v]. unfold same_mappings. simpl.
  intros (-> & -> & ->).
  unfold extract_step, store_metric, infer.
  repeat case_match; simpl; done.
Qed.

Lemma foldl_same_mappings metadata (run_data : row) d1 d2 :
  same_mappings d1 d2 →
  same_mappings (foldl (extract_step metadata) d1 run_data)
                (foldl (extract_step metadata) d2 run_data).
Proof.
  revert d1 d2. induction run_data as [|entry run_data IH]; intros d1 d2 Hsame;
    [done|].
  cbn [foldl]. by apply IH, step_same_mappings.
Qed.

Lemma step_keeps_printed metadata d (entry : string * cell) (line : string) :
  line ∈ printed d → line ∈ printed (extract_step metadata d entry).
Proof.
  destruct entry as [col v]. intros Hin.
  unfold extract_step, store_metric, infer.
  repeat case_match; simpl; try done; rewrite elem_of_app; by left.
Qed.

Lemma foldl_keeps_printed metadata (run_data : row) d (line : string) :
  line ∈ printed d → line ∈ printed (foldl (extract_step metadata) d run_data).
Proof.
  revert d. induction run_data as [|entry run_data IH]; intros d Hin; [done|].
  cbn [foldl]. by apply IH, step_keeps_printed.
Qed.

(** C6: a column routed to the metrics group, by its prefix or by the
    ledger, whose value does not convert to a float, is decoded as if it
    were not in the row, except for one warning that names it; the rest
    of the row is decoded as usual. *)
Theorem unparsable_metric_dropped metadata (before after : row)
    (col name : string) (v : cell) :
  routed_to_metrics metadata col name →
  isna v = false →
  py_float v = None →
  same_mappings (extract_run_data (before ++ (col, v) :: after) metadata)
                (extract_run_data (before ++ after) metadata)
  ∧ warn_convert name v
      ∈ printed (extract_run_data (before ++ (col, v) :: after) metadata).
Proof.
  intros Hroute Hna Hfloat. rewrite !extract_run_data_app. cbn [foldl].
  rewrite (unparsable_metric_step _ _ _ _ _ Hroute Hna Hfloat). split.
  - by apply foldl_same_mappings.
  - apply foldl_keeps_printed. simpl. rewrite elem_of_app. right. left.
Qed.

End UnparsableMetrics.

Lemma unparsable_metric_dropped_example :
  routed_to_metrics empty_metadata "metric:loss" "loss"
  ∧ isna (CStr "diverged") = false
  ∧ @py_float Decimal.builtins (CStr "diverged") = None
  ∧ same_mappings
      (@extract_run_data Decimal.builtins
         ([("param:lr", CStr "0.01")] ++ ("metric:loss", CStr "diverged")
            :: [("tag:owner", CStr "alice")]) empty_metadata)
      (@extract_run_data Decimal.builtins
         ([("param:lr", CStr "0.01")] ++ [("tag:owner", CStr "alice")])
         empty_metadata)
  ∧ @warn_convert Decimal.builtins "loss" (CStr "diverged")
      ∈ printed
          (@extract_run_data Decimal.builtins
             ([("param:lr", CStr "0.01")] ++ ("metric:loss", CStr "diverged")
                :: [("tag:owner", CStr "alice")]) empty_metadata).
Proof.
  assert (routed_to_metrics empty_metadata "metric:loss" "loss") as Hroute
    by exact (by_prefix empty_metadata "metric:loss" eq_refl).
  exact (conj Hroute (conj eq_refl (conj eq_refl
           (@unparsable_metric_dropped Decimal.builtins empty_metadata
              [("param:lr", CStr "0.01")] [("tag:owner", CStr "alice")]
              "metric:loss" "loss" (CStr "diverged") Hroute eq_refl eq_refl)))).
Defined.

(** ** Pagination *)

Lemma encode_page_app (p1 p2 : list Run) (acc : list row * Metadata) :
  encode_page (p1 ++ p2) acc = encode_page p2 (encode_page p1 acc).
Proof. unfold encode_page. by rewrite foldl_app. Qed.

Lemma encode_page_length (batch : list Run) (acc : list row * Metadata) :
  length (encode_page batch acc).1 = (length acc.1 + length batch)%nat.
Proof.
  revert acc. induction batch as [|r batch IH]; intros acc; simpl.
  { lia. }
  unfold encode_page in *. rewrite IH.
  destruct (encode_run r acc.2) as [run_data metadata]. simpl.
  rewrite length_app. simpl. lia.
Qed.

Section Pager.
Context `{Service}.

(** The loop collects the pages that the service serves, in order, and
    stops after the page that comes without a token. *)
Lemma fetch_runs_serves {L} (experiment_id : string) (pages : list (list Run))
    (w w' : world) (tok : option token) :
  serves experiment_id w tok pages w' →
  ∀ (fuel : nat) (detailed : list row) (metadata : Metadata) (total : nat)
    (out : list string) (l : L),
    (length pages ≤ fuel)%nat →
    fetch_runs fuel experiment_id tok detailed metadata total (Env w out l)
    = (Ok (Some ((encode_page (concat pages) (detailed, metadata)).1,
                 (encode_page (concat pages) (detailed, metadata)).2,
                 (total + length (concat pages))%nat)),
       Env w' (out ++ progress total pages) l).
Proof.
  induction 1 as [w tok page w' Hpage|w tok page next w' pages w'' Hpage _ IH];
    intros fuel detailed metadata total out l Hfuel.
  - destruct fuel as [|fuel]; [simpl in Hfuel; lia|].
    cbn [fetch_runs]. unfold mbind, M_bind, call, print. cbn [env_world stdout locals].
    rewrite Hpage. cbn [fst snd concat progress]. rewrite app_nil_r.
    by destruct (encode_page page (detailed, metadata)).
  - destruct fuel as [|fuel]; [simpl in Hfuel; lia|].
    cbn [fetch_runs]. unfold mbind, M_bind, call, print. cbn [env_world stdout locals].
    rewrite Hpage. cbn [fst snd concat progress].
    rewrite encode_page_app.
    destruct (encode_page page (detailed, metadata)) as [detailed' metadata'].
    fold (@fetch_runs H L).
    rewrite (IH fuel) by (simpl in Hfuel; lia).
    rewrite length_app, <- app_assoc, Nat.add_assoc. reflexivity.
Qed.

End Pager.

(** *** The reference service, page by page *)

Lemma healthy_search (w : Sim.state) (l : list Run) (cap : nat) (short : bool)
    (ids : list string) (max_results : Z) (tok : option nat) :
  healthy w l cap short →
  @search_runs Sim.service ids max_results tok w
  = (Ok (Sim.page_of max_results tok w),
     Sim.record_request (Sim.SearchRuns max_results tok) w).
Proof.
  intros (_ & _ & _ & Hfaulty). simpl. unfold Sim.serve.
  cbn [Sim.faulty Sim.record_request]. by rewrite Hfaulty.
Qed.

Lemma healthy_server (l : list Run) (cap : nat) (short : bool) :
  healthy (Sim.server l cap short) l cap short.
Proof. by repeat split. Qed.

Lemma sim_serves (l : list Run) (cap : nat) (short : bool) :
  (0 < cap)%nat →
  ∀ (n : nat) (w : Sim.state) (tok : option nat),
    healthy w l cap short →
    (length l - default 0%nat tok ≤ n)%nat →
    ∃ (pages : list (list Run)) (w' : Sim.state),
      @serves Sim.service "1" w tok pages w'
      ∧ concat pages = drop (default 0%nat tok) l
      ∧ Forall (λ page, (length page ≤ Nat.min 5000 cap)%nat) pages
      ∧ (length pages ≤ n + 1)%nat
      ∧ length (Sim.requests w')
        = (length (Sim.requests w) + length pages)%nat.
Proof.
  intros Hcap. induction n as [|n IH]; intros w tok Hw Hrest.
  all: pose proof (healthy_search w l cap short ["1"] max_results_per_page tok Hw)
         as Hsearch.
  all: destruct Hw as (Hruns & Hpcap & Hshort & Hfaulty).
  all: unfold Sim.page_of in Hsearch; cbv zeta in Hsearch;
    rewrite Hruns, Hpcap, Hshort in Hsearch.
  all: set (offset := default 0%nat tok) in *.
  all: set (size := Nat.min (Z.to_nat max_results_per_page) cap) in *.
  all: assert (0 < size)%nat as Hsize by (unfold size, max_results_per_page; lia).
  all: assert (size ≤ Nat.min 5000 cap)%nat as Hbound
         by (unfold size, max_results_per_page; lia).
  all: set (page := take size (drop offset l)) in *.
  all: assert (length page = Nat.min size (length l - offset))%nat as Hlen
         by (unfold page; by rewrite length_take, length_drop).
  all: assert (healthy (Sim.record_request
                          (Sim.SearchRuns max_results_per_page tok) w) l cap short)
         as Hw' by (by repeat split).
  all: set (w1 := Sim.record_request (Sim.SearchRuns max_results_per_page tok) w)
         in *.
  all: assert (length (Sim.requests w1) = S (length (Sim.requests w))) as Hreq
         by (unfold w1; simpl; rewrite length_app; simpl; lia).
  - (* nothing is left: the page is empty and carries no token *)
    assert (page = []) as Hnil by (apply length_zero_iff_nil; lia).
    rewrite Hnil in Hsearch. simpl in Hsearch.
    assert ((if short then bool_decide (0%nat = size)
             else bool_decide (offset + 0 < length l)%nat) = false) as Hmore.
    { destruct short; apply bool_decide_eq_false; lia. }
    rewrite Hmore in Hsearch.
    exists [[]], w1. split; [by apply serves_last|].
    split; [simpl; symmetry; apply drop_ge; lia|].
    split; [repeat constructor; simpl; lia|].
    split; [simpl; lia|]. rewrite ?Hreqs, Hreq. cbn [length]. lia.
  - destruct (if short then bool_decide (length page = size)
              else bool_decide (offset + length page < length l)%nat) eqn:Hmore;
      rewrite ?Hmore in Hsearch.
    + (* a full page with a token: the rest is served from the new offset *)
      assert (length page = size ∧ size ≤ length l - offset)%nat as [Hfull Hmany].
      { destruct short; apply bool_decide_eq_true in Hmore; lia. }
      destruct (IH w1 (Some (offset + length page)%nat) Hw') as
        (pages & w' & Hserves & Hconcat & Hall & Hcount & Hreqs).
      { simpl. lia. }
      exists (page :: pages), w'. split; [by eapply serves_more|].
      split.
      { simpl. rewrite Hconcat. simpl. rewrite Hfull. unfold page.
        rewrite <- drop_drop. apply take_drop. }
      split; [constructor; [lia|done]|].
      split; [simpl; lia|]. rewrite ?Hreqs, Hreq. cbn [length]. lia.
    + (* the last page *)
      assert (length l - offset ≤ size)%nat as Hfew.
      { destruct short; apply bool_decide_eq_false in Hmore; lia. }
      exists [page], w1. split; [by apply serves_last|].
      split.
      { simpl. rewrite app_nil_r. unfold page. apply take_ge.
        rewrite length_drop. lia. }
      split; [repeat constructor; lia|].
      split; [simpl; lia|]. rewrite ?Hreqs, Hreq. cbn [length]. lia.
Qed.

(** C7: whatever the number of runs and the page size of the server, the
    pagination loop ends, and it has then encoded exactly the runs of the
    experiment, each once and in order.  It asked for one page after the
    other, each with the token of the page before, and the last page it
    asked for is the first one that came without a token. *)
Theorem pagination_complete (l : list Run) (cap : nat) (short : bool)
    (fuel : nat) (out : list string) :
  (0 < cap)%nat →
  (length l + 1 ≤ fuel)%nat →
  ∃ (pages : list (list Run)) (w' : Sim.state),
    @serves Sim.service "1" (Sim.server l cap short) None pages w'
    ∧ concat pages = l
    ∧ Forall (λ page, (length page ≤ Nat.min 5000 cap)%nat) pages
    ∧ length (Sim.requests w') = length pages
    ∧ length (rows_of l) = length l
    ∧ @fetch_runs Sim.service unit fuel "1" None [] empty_metadata 0
        (@Env Sim.service unit (Sim.server l cap short) out tt)
      = (Ok (Some (rows_of l, export_ledger l, length l)),
         @Env Sim.service unit w' (out ++ progress 0 pages) tt).
Proof.
  intros Hcap Hfuel.
  destruct (sim_serves l cap short Hcap (length l) (Sim.server l cap short) None
              (healthy_server l cap short))
    as (pages & w' & Hserves & Hconcat & Hall & Hcount & Hreqs).
  { simpl. lia. }
  simpl in Hconcat. exists pages, w'.
  split; [done|]. split; [done|]. split; [done|]. split; [done|].
  split; [apply (encode_page_length l ([], empty_metadata))|].
  rewrite (fetch_runs_serves "1" pages _ _ _ Hserves) by lia.
  by rewrite Hconcat.
Qed.

Lemma pagination_complete_example :
  (0 < 5)%nat ∧ (length (numbered_runs 12) + 1 ≤ 13)%nat
  ∧ ∃ (pages : list (list Run)) (w' : Sim.state),
      @serves Sim.service "1" (Sim.server (numbered_runs 12) 5 true) None pages w'
      ∧ concat pages = numbered_runs 12
      ∧ Forall (λ page, (length page ≤ Nat.min 5000 5)%nat) pages
      ∧ length (Sim.requests w') = length pages
      ∧ length (rows_of (numbered_runs 12)) = length (numbered_runs 12)
      ∧ @fetch_runs Sim.service unit 13 "1" None [] empty_metadata 0
          (@Env Sim.service unit (Sim.server (numbered_runs 12) 5 true) [] tt)
        = (Ok (Some (rows_of (numbered_runs 12), export_ledger (numbered_runs 12),
                     length (numbered_runs 12))),
           @Env Sim.service unit w' ([] ++ progress 0 pages) tt).
Proof.
  refine (conj _ (conj _ (pagination_complete (numbered_runs 12) 5 true 13 [] _ _)));
    vm_compute; lia.
Defined.

(** Twelve runs behind a server whose pages hold five: three requests,
    for pages of five, five and two runs. *)
Example twelve_runs_in_pages_of_five :
  let result :=
    @fetch_runs Sim.service unit 13 "1" None [] empty_metadata 0
      (@Env Sim.service unit (Sim.server (numbered_runs 12) 5 false) [] tt) in
  Sim.requests (env_world result.2)
  = [Sim.SearchRuns 5000 None; Sim.SearchRuns 5000 (Some 5%nat);
     Sim.SearchRuns 5000 (Some 10%nat)]
  ∧ stdout result.2
    = ["Retrieved 5 runs. Total so far: 5"; "Retrieved 5 runs. Total so far: 10";
       "Retrieved 2 runs. Total so far: 12"].
Proof. vm_compute. done. Qed.

(** Ten runs behind a server that omits the token only after a short
    page: a fourth, empty page ends the loop. *)
Example ten_runs_and_an_empty_page :
  let result :=
    @fetch_runs Sim.service unit 11 "1" None [] empty_metadata 0
      (@Env Sim.service unit (Sim.server (numbered_runs 10) 5 true) [] tt) in
  match result.1 with
  | Ok (Some (_, _, total_runs)) => total_runs = 10%nat
  | _ => False
  end
  ∧ stdout result.2
    = ["Retrieved 5 runs. Total so far: 5"; "Retrieved 5 runs. Total so far: 10";
       "Retrieved 0 runs. Total so far: 10"].
Proof. vm_compute. done. Qed.

(** ** The monad *)

Section MonadFacts.
Context `{Service}.

Lemma bind_ok {L A B} (m : M L A) (k : A → M L B) (s s' : env L) (a : A) :
  m s = (Ok a, s') → (m ≫= k) s = k a s'.
Proof. intros Hm. unfold mbind, M_bind. by rewrite Hm. Qed.

Lemma for_each_cons {L X} (x : X) (xs : list X) (body : X → M L unit) :
  for_each (x :: xs) body = (body x ;; for_each xs body).
Proof. reflexivity. Qed.

End MonadFacts.

(** ** Deleting the runs of an experiment *)

Lemma filter_other_ids (i : string) (l : list Run) :
  i ∉ run_ids l → filter (λ r, RunInfo.run_id (info r) ≠ i) l = l.
Proof.
  unfold run_ids. induction l as [|r l IH]; [done|].
  rewrite fmap_cons, not_elem_of_cons. intros [Hne Hnotin].
  rewrite filter_cons_True by (by intros <-). by rewrite IH.
Qed.

Lemma sim_serve_ok {A : Type} (r : Sim.request)
    (answer : Sim.state → A * Sim.state) (w : Sim.state) :
  (∀ r, Sim.faulty w r = false) →
  Sim.serve r answer w
  = (Ok (answer (Sim.record_request r w)).1, (answer (Sim.record_request r w)).2).
Proof.
  intros Hfaulty. unfold Sim.serve. cbn [Sim.faulty Sim.record_request].
  rewrite Hfaulty. by destruct (answer _).
Qed.

Lemma delete_one_ok (run : Run) (w : Sim.state) (out : list string) :
  (∀ r, Sim.faulty w r = false) →
  @delete_one Sim.service unit run (sim_env w out tt)
  = (Ok tt,
     sim_env
       (Sim.with_runs
          (filter (λ r, RunInfo.run_id (info r) ≠ RunInfo.run_id (info run))
                  (Sim.runs w))
          (Sim.record_request (Sim.DeleteRun (RunInfo.run_id (info run))) w))
       (out ++ ["Deleted run: " +:+ RunInfo.run_id (info run)]) tt).
Proof.
  intros Hfaulty. unfold delete_one, mbind, M_bind, call, print.
  cbn [env_world stdout locals delete_run Sim.service].
  by rewrite (sim_serve_ok _ _ _ Hfaulty).
Qed.

(** On a server that fails no request and whose runs have distinct
    identifiers, the loop deletes the runs it is given and no other. *)
Lemma delete_loop (batch : list Run) :
  ∀ (w : Sim.state) (out : list string) (rest : list Run),
    (∀ r, Sim.faulty w r = false) →
    Sim.runs w = batch ++ rest →
    NoDup (run_ids (batch ++ rest)) →
    ∃ w' : Sim.state,
      @for_each Sim.service unit Run batch delete_one (sim_env w out tt)
      = (Ok tt,
         sim_env w' (out ++ ((λ i, "Deleted run: " +:+ i) <$> run_ids batch)) tt)
      ∧ Sim.runs w' = rest
      ∧ Sim.requests w' = Sim.requests w ++ (Sim.DeleteRun <$> run_ids batch)
      ∧ (∀ r, Sim.faulty w' r = false).
Proof.
  induction batch as [|run batch IH]; intros w out rest Hfaulty Hruns Hnd.
  { exists w. simpl. by rewrite !app_nil_r. }
  simpl in Hnd. apply NoDup_cons in Hnd as [Hfresh Hnd].
  rewrite for_each_cons, (bind_ok _ _ _ _ _ (delete_one_ok run w out Hfaulty)).
  rewrite Hruns. simpl filter.
  rewrite filter_cons_False by (by intros Hne; apply Hne).
  rewrite (filter_other_ids _ _ Hfresh).
  set (w1 := Sim.with_runs (batch ++ rest)
               (Sim.record_request (Sim.DeleteRun (RunInfo.run_id (info run))) w)).
  destruct (IH w1 (out ++ ["Deleted run: " +:+ RunInfo.run_id (info run)]) rest)
    as (w' & Hloop & Hrest & Hreqs & Hfaulty'); [done|done|exact Hnd|].
  exists w'. split; [|split; [done|split; [|done]]].
  - rewrite Hloop. simpl. by rewrite <- app_assoc.
  - rewrite Hreqs. simpl. by rewrite <- app_assoc.
Qed.

(** C10: on a server that returns as many runs as it is asked for, the
    tool makes one search, for at most 50000 runs and without a token,
    and deletes the runs of that page and no other: the runs after the
    first 50000 are still there at the end. *)
Theorem delete_capped (l : list Run) (cap : nat) (short : bool)
    (out : list string) :
  (search_limit ≤ cap)%nat →
  NoDup (run_ids l) →
  ∃ (w' : Sim.state) (out' : list string),
    @delete_all_runs_in_experiment Sim.service unit "demo" None
      (sim_env (Sim.server l cap short) out tt)
    = (Ok tt, sim_env w' out' tt)
    ∧ Sim.runs w' = drop search_limit l
    ∧ Sim.requests w'
      = [Sim.GetExperimentByName "demo"; Sim.SearchRuns 50000 None]
        ++ (Sim.DeleteRun <$> run_ids (take search_limit l))
    ∧ ((length l ≤ search_limit)%nat → Sim.runs w' = [])
    ∧ ((search_limit < length l)%nat → Sim.runs w' ≠ []).
Proof.
  intros Hcap Hnd.
  unfold delete_all_runs_in_experiment, select_tracking_uri, try_except,
    mbind, M_bind, call, ask, print.
  cbn -[for_each Z.to_nat Sim.serve].
  rewrite sim_serve_ok by done.
  cbn -[for_each Z.to_nat Sim.serve].
  rewrite bool_decide_eq_true_2 by done.
  rewrite sim_serve_ok by done.
  unfold Sim.page_of.
  cbn -[for_each Z.to_nat Nat.min].
  replace (Z.to_nat 50000 `min` cap)%nat with search_limit
    by (unfold search_limit in *; lia).
  change (drop 0 l) with l.
  destruct (delete_loop (take search_limit l)
              (Sim.record_request (Sim.SearchRuns 50000 None)
                 (Sim.record_request (Sim.GetExperimentByName "demo")
                    (Sim.server l cap short)))
              (out ++ ["Using default MLflow tracking URI: " +:+
                       "http://localhost:5000"])
              (drop search_limit l))
    as (w' & Hloop & Hrest & Hreqs & _).
  { done. }
  { simpl. by rewrite take_drop. }
  { by rewrite take_drop. }
  rewrite Hloop. eexists w', _. split; [reflexivity|]. split; [done|].
  split; [by rewrite Hreqs|]. rewrite Hrest. split; intros Hlen.
  - by apply drop_ge.
  - intros Hnil. apply (f_equal length) in Hnil.
    rewrite length_drop in Hnil. simpl in Hnil. lia.
Qed.

Lemma delete_capped_example :
  (search_limit ≤ search_limit)%nat ∧ NoDup (run_ids (numbered_runs 3))
  ∧ ∃ (w' : Sim.state) (out' : list string),
      @delete_all_runs_in_experiment Sim.service unit "demo" None
        (sim_env (Sim.server (numbered_runs 3) search_limit false) [] tt)
      = (Ok tt, sim_env w' out' tt)
      ∧ Sim.runs w' = drop search_limit (numbered_runs 3)
      ∧ Sim.requests w'
        = [Sim.GetExperimentByName "demo"; Sim.SearchRuns 50000 None]
          ++ (Sim.DeleteRun <$> run_ids (take search_limit (numbered_runs 3)))
      ∧ ((length (numbered_runs 3) ≤ search_limit)%nat → Sim.runs w' = [])
      ∧ ((search_limit < length (numbered_runs 3))%nat → Sim.runs w' ≠ []).
Proof.
  assert (NoDup (run_ids (numbered_runs 3))) as Hnd
    by exact (bool_decide_unpack (NoDup (run_ids (numbered_runs 3))) I).
  exact (conj (le_n search_limit) (conj Hnd
           (delete_capped (numbered_runs 3) search_limit false []
              (le_n search_limit) Hnd))).
Defined.


(** ** The import driver *)

Section Frames.
Context `{Service}.

Lemma frames_ret {L A} (a : A) : frames (mret a : M L A).
Proof. by intros s. Qed.

Lemma frames_call {L A} (op : world → res A * world) : frames (call op : M L A).
Proof. intros s. unfold call. by destruct (op (env_world s)). Qed.

Lemma frames_ask {L A} (f : world → A) : frames (ask f : M L A).
Proof. by intros s. Qed.

Lemma frames_print {L} (line : string) : frames (print line : M L unit).
Proof. by intros s. Qed.

Lemma frames_bind {L A B} (m : M L A) (k : A → M L B) :
  frames m → (∀ a, frames (k a)) → frames (m ≫= k).
Proof.
  intros Hm Hk s. unfold mbind, M_bind. specialize (Hm s).
  destruct (m s) as [[a|e] s1]; simpl in *; [|done].
  by rewrite Hk.
Qed.

Lemma frames_try {L A} (m : M L A) (handler : exn → M L A) :
  frames m → (∀ e, frames (handler e)) → frames (try_except m handler).
Proof.
  intros Hm Hh s. unfold try_except. specialize (Hm s).
  destruct (m s) as [[a|e] s1]; simpl in *; [done|].
  by rewrite Hh.
Qed.

Lemma frames_for_each {L X} (xs : list X) (body : X → M L unit) :
  (∀ x, frames (body x)) → frames (for_each xs body).
Proof.
  intros Hbody. induction xs as [|x xs IH]; [apply frames_ret|].
  rewrite for_each_cons. apply frames_bind; [apply Hbody|done].
Qed.

Lemma frames_log_file {L} (path root : string) (n : nat) (file : string) :
  frames (log_file path root n file : M L nat).
Proof.
  unfold log_file. apply frames_try.
  - apply frames_bind; [apply frames_call|]. intros _. apply frames_ret.
  - intros e. apply frames_bind; [apply frames_print|]. intros _. apply frames_ret.
Qed.

Lemma frames_log_files {L} (path root : string) (files : list string) (n : nat) :
  frames (log_files path root files n : M L nat).
Proof.
  revert n. induction files as [|file files IH]; intros n; [apply frames_ret|].
  cbn [log_files]. apply frames_bind; [apply frames_log_file|done].
Qed.

Lemma frames_log_tree {L} (path : string) (walked : list (string * list string))
    (n : nat) :
  frames (log_tree path walked n : M L nat).
Proof.
  revert n. induction walked as [|[root files] walked IH]; intros n;
    [apply frames_ret|].
  cbn [log_tree]. apply frames_bind; [apply frames_log_files|done].
Qed.

End Frames.

Section ImportFacts.
Context `{Builtins} `{Service}.
Variables (experiment_id : string) (artifacts_dir : option string)
  (import_artifacts : bool) (metadata : Metadata) (count : nat).

Lemma frames_import_run_artifacts {L} (run_data : row) :
  frames (import_run_artifacts import_artifacts artifacts_dir run_data : M L unit).
Proof.
  unfold import_run_artifacts.
  destruct import_artifacts; [|apply frames_ret].
  destruct (truthy artifacts_dir) as [dir|]; [|apply frames_ret].
  case_bool_decide; [apply frames_ret|].
  apply frames_bind; [apply frames_ask|]. intros [|].
  - apply frames_bind; [apply frames_print|]. intros _.
    apply frames_bind; [apply frames_ask|]. intros walked.
    apply frames_bind; [apply frames_log_tree|]. intros n. apply frames_print.
  - apply frames_print.
Qed.

Lemma frames_log_run_data {L} (d : decoded) : frames (log_run_data d : M L unit).
Proof.
  unfold log_run_data. repeat (apply frames_bind; [|intros _]).
  all: case_bool_decide; [apply frames_ret|].
  all: apply frames_bind; [apply frames_call|intros _; apply frames_print].
Qed.

(** What the [try] block of a row does to the two lists: it never
    touches [failed_runs]; it appends one run to [imported_runs] when it
    ends normally, and at most one when it raises. *)
Lemma import_row_effect (index : nat) (run_data : row) (s s' : env import_locals)
    (r : res unit) :
  import_row experiment_id artifacts_dir import_artifacts metadata count
    index run_data s = (r, s') →
  failed_runs (locals s') = failed_runs (locals s)
  ∧ match r with
    | Ok _ =>
        ∃ run_id, imported_runs (locals s') = imported_runs (locals s) ++ [run_id]
    | Raise _ =>
        imported_runs (locals s') = imported_runs (locals s)
        ∨ ∃ run_id, imported_runs (locals s')
                    = imported_runs (locals s) ++ [run_id]
    end.
Proof.
  unfold import_row. cbv zeta.
  set (d := extract_run_data run_data metadata).
  unfold mbind at 1 2, M_bind at 1 2, print at 1. cbn [env_world stdout locals].
  pose proof (frames_for_each (printed d) print (@frames_print _ import_locals)
                (Env (env_world s)
                     (stdout s ++ ["Importing run " +:+ pretty (index + 1)%nat
                                     +:+ "/" +:+ pretty count])
                     (locals s))) as Hwarn.
  destruct (for_each (printed d) print _) as [[[]|e] s1]; simpl in Hwarn;
    [|by intros [= <- <-]; rewrite Hwarn; auto].
  unfold with_run, mbind at 1, M_bind at 1.
  pose proof (frames_call (L := import_locals) (start_run experiment_id) s1)
    as Hstart.
  destruct (call (start_run experiment_id) s1) as [[active_run|e] s2];
    simpl in Hstart; [|by intros [= <- <-]; rewrite Hstart, Hwarn; auto].
  unfold leave_run, mbind at 1, M_bind at 1.
  pose proof (frames_log_run_data (L := import_locals) d s2) as Hlog.
  destruct (log_run_data d s2) as [[[]|e] s3]; simpl in Hlog.
  2:{ pose proof (frames_call (L := import_locals) (end_run "FAILED") s3) as Hend.
      unfold mbind, M_bind.
      destruct (call (end_run "FAILED") s3) as [[[]|e'] s4]; simpl in *;
        intros [= <- <-]; rewrite Hend, Hlog, Hstart, Hwarn; auto. }
  unfold mbind at 1, M_bind at 1.
  pose proof (frames_import_run_artifacts (L := import_locals) run_data s3) as Hart.
  destruct (import_run_artifacts import_artifacts artifacts_dir run_data s3)
    as [[[]|e] s4]; simpl in Hart.
  2:{ pose proof (frames_call (L := import_locals) (end_run "FAILED") s4) as Hend.
      unfold mbind, M_bind.
      destruct (call (end_run "FAILED") s4) as [[[]|e'] s5]; simpl in *;
        intros [= <- <-]; rewrite Hend, Hart, Hlog, Hstart, Hwarn; auto. }
  unfold mbind at 1 2, M_bind at 1 2, modify_locals, print.
  cbn [env_world stdout locals].
  pose proof (frames_call (L := import_locals) (end_run "FINISHED")
                (Env (env_world s4)
                     (stdout s4 ++ ["Successfully imported run to " +:+ active_run])
                     (append_imported active_run (locals s4)))) as Hend.
  unfold mbind, M_bind.
  destruct (call (end_run "FINISHED") _) as [[[]|e'] s6]; simpl in *;
    intros [= <- <-]; rewrite Hend, Hart, Hlog, Hstart, Hwarn; simpl; eauto.
Qed.

Abbreviation step :=
  (import_step experiment_id artifacts_dir import_artifacts metadata count).
Abbreviation raised :=
  (row_raised experiment_id artifacts_dir import_artifacts metadata count).
Abbreviation result_of :=
  (row_result experiment_id artifacts_dir import_artifacts metadata count).
Abbreviation before :=
  (state_before experiment_id artifacts_dir import_artifacts metadata count).

(** One iteration never raises: a row that raised is printed and recorded
    in [failed_runs], and the loop goes on. *)
Lemma import_step_effect (entry : nat * row) (s : env import_locals) :
  ∃ s' : env import_locals,
    step entry s = (Ok tt, s')
    ∧ match (import_row experiment_id artifacts_dir import_artifacts metadata
               count entry.1 entry.2 s).1 with
      | Ok _ =>
          failed_runs (locals s') = failed_runs (locals s)
          ∧ ∃ run_id, imported_runs (locals s')
                      = imported_runs (locals s) ++ [run_id]
      | Raise e =>
          failed_runs (locals s') = failed_runs (locals s) ++ [entry.1]
          ∧ ("Failed to import run " +:+ pretty entry.1 +:+ ": " +:+ e)
              ∈ stdout s'
          ∧ (imported_runs (locals s') = imported_runs (locals s)
             ∨ ∃ run_id, imported_runs (locals s')
                         = imported_runs (locals s) ++ [run_id])
      end.
Proof.
  unfold import_step, try_except.
  destruct (import_row _ _ _ _ _ entry.1 entry.2 s) as [[[]|e] s1] eqn:Hrow;
    apply import_row_effect in Hrow as [Hfailed Himported]; cbn [fst].
  - by exists s1.
  - eexists. split; [reflexivity|]. simpl. rewrite Hfailed.
    split; [done|]. split; [|done]. rewrite elem_of_app. right. left.
Qed.

Lemma before_zero (entries : list (nat * row)) (s : env import_locals) :
  before entries s 0 = s.
Proof. unfold state_before. by rewrite take_0. Qed.

Lemma before_succ (entry : nat * row) (entries : list (nat * row))
    (s s1 : env import_locals) (i : nat) :
  step entry s = (Ok tt, s1) →
  before (entry :: entries) s (S i) = before entries s1 i.
Proof.
  intros Hstep. unfold state_before. rewrite firstn_cons, for_each_cons.
  by rewrite (bind_ok _ _ _ _ _ Hstep).
Qed.

Lemma raised_succ (entry : nat * row) (entries : list (nat * row))
    (s s1 : env import_locals) (i : nat) :
  step entry s = (Ok tt, s1) →
  raised (entry :: entries) s (S i) = raised entries s1 i.
Proof.
  intros Hstep. unfold row_raised, row_result.
  by rewrite (before_succ _ _ _ _ _ Hstep).
Qed.

(** The loop over any list of indexed rows: it ends normally, it has
    appended to [failed_runs] the indices of the rows that raised, in
    order, and to [imported_runs] one run for each row that did not
    raise and at most one for each row that did. *)
Lemma import_loop (entries : list (nat * row)) :
  ∀ s : env import_locals,
    ∃ (s' : env import_locals) (extra : list nat),
      for_each entries step s = (Ok tt, s')
      ∧ failed_runs (locals s') = failed_runs (locals s) ++ extra
      ∧ extra `sublist_of` entries.*1
      ∧ (∀ i, i ∈ extra ↔
              ∃ pos entry, entries !! pos = Some entry ∧ entry.1 = i
                           ∧ raised entries s pos = true)
      ∧ (length (imported_runs (locals s)) + length entries
         ≤ length (imported_runs (locals s')) + length extra)%nat
      ∧ (length (imported_runs (locals s'))
         ≤ length (imported_runs (locals s)) + length entries)%nat.
Proof.
  induction entries as [|entry entries IH]; intros s.
  { exists s, []. simpl. rewrite app_nil_r.
    repeat split; try done; try lia.
    - by intros ?%elem_of_nil.
    - by intros (pos & e & ? & _). }
  destruct (import_step_effect entry s) as (s1 & Hstep & Heffect).
  destruct (IH s1) as (s' & extra & Hloop & Hfailed & Hsub & Hmem & Hlow & Hhigh).
  rewrite for_each_cons, (bind_ok _ _ _ _ _ Hstep), Hloop.
  assert (raised (entry :: entries) s 0
          = match (import_row experiment_id artifacts_dir import_artifacts
                     metadata count entry.1 entry.2 s).1 with
            | Raise _ => true
            | Ok _ => false
            end) as Hzero.
  { unfold row_raised, row_result. simpl. by rewrite before_zero. }
  destruct (import_row _ _ _ _ _ entry.1 entry.2 s).1 as [[]|e].
  - destruct Heffect as (Hf1 & run_id & Hi1).
    exists s', extra. rewrite Hfailed, Hf1. split; [done|]. split; [done|].
    split; [by apply sublist_cons|]. split.
    + intros i. rewrite Hmem. split.
      * intros (pos & e & Hpos & Hidx & Hraised).
        exists (S pos), e. by rewrite (raised_succ _ _ _ _ _ Hstep).
      * intros ([|pos] & e & Hpos & Hidx & Hraised).
        { congruence. }
        exists pos, e. by rewrite <- (raised_succ _ _ _ _ _ Hstep).
    + rewrite Hi1, length_app in Hlow, Hhigh. simpl in *. lia.
  - destruct Heffect as (Hf1 & _ & Hi1).
    exists s', (entry.1 :: extra). rewrite Hfailed, Hf1, <- app_assoc.
    split; [done|]. split; [done|].
    split; [by apply sublist_skip|]. split.
    + intros i. rewrite elem_of_cons, Hmem. split.
      * intros [->|(pos & e' & Hpos & Hidx & Hraised)].
        { by exists 0%nat, entry. }
        exists (S pos), e'. by rewrite (raised_succ _ _ _ _ _ Hstep).
      * intros ([|pos] & e' & Hpos & Hidx & Hraised).
        { left. simpl in Hpos. congruence. }
        right. exists pos, e'. by rewrite <- (raised_succ _ _ _ _ _ Hstep).
    + destruct Hi1 as [Hi1|[run_id Hi1]];
        rewrite Hi1, ?length_app in Hlow, Hhigh; simpl in *; lia.
Qed.

End ImportFacts.

Lemma enumerate_fst {X : Type} (l : list X) : (enumerate l).*1 = seq 0 (length l).
Proof. unfold enumerate. apply fst_zip. by rewrite length_seq. Qed.

Lemma enumerate_lookup {X : Type} (l : list X) (pos : nat) (entry : nat * X) :
  enumerate l !! pos = Some entry → entry.1 = pos ∧ (pos < length l)%nat.
Proof.
  intros Hlookup.
  assert ((enumerate l).*1 !! pos = Some entry.1) as Hfst
    by (by rewrite list_lookup_fmap, Hlookup).
  rewrite enumerate_fst in Hfst. apply lookup_seq in Hfst. simpl in Hfst. lia.
Qed.

Lemma enumerate_length {X : Type} (l : list X) : length (enumerate l) = length l.
Proof.
  rewrite <- (length_fmap fst), enumerate_fst. apply length_seq.
Qed.

Section ImportReport.
Context `{Builtins} `{Service}.
Variables (csv_path experiment_name experiment_id : string)
  (artifacts_dir : option string) (import_artifacts : bool)
  (metadata : Metadata).

(** The loop over the rows of a table, started with two empty lists: it
    ends normally whatever the rows do; [failed_runs] then names, once
    each, exactly the rows whose [try] block raised; and the two counts
    together cover the rows. *)
Lemma import_rows_report (rows : list row) (s : env import_locals) :
  locals s = no_locals →
  ∃ s' : env import_locals,
    import_rows experiment_id artifacts_dir import_artifacts metadata rows s
    = (Ok tt, s')
    ∧ NoDup (failed_runs (locals s'))
    ∧ (∀ i, i ∈ failed_runs (locals s') ↔
            (i < length rows)%nat
            ∧ row_raised experiment_id artifacts_dir import_artifacts metadata
                (length rows) (enumerate rows) s i = true)
    ∧ (length rows
       ≤ length (imported_runs (locals s')) + length (failed_runs (locals s')))%nat
    ∧ (length (imported_runs (locals s')) ≤ length rows)%nat.
Proof.
  intros Hlocals. unfold import_rows.
  destruct (import_loop experiment_id artifacts_dir import_artifacts metadata
              (length rows) (enumerate rows) s)
    as (s' & extra & Hloop & Hfailed & Hsub & Hmem & Hlow & Hhigh).
  rewrite Hlocals in Hfailed, Hlow, Hhigh. simpl in Hfailed, Hlow, Hhigh.
  rewrite enumerate_length in Hlow, Hhigh.
  exists s'. rewrite Hfailed. split; [done|]. split; [|split; [|done]].
  - eapply sublist_NoDup; [|exact Hsub]. rewrite enumerate_fst. apply NoDup_seq.
  - intros i. rewrite Hmem. split.
    + intros (pos & entry & Hpos & Hidx & Hraised).
      destruct (enumerate_lookup _ _ _ Hpos) as [Heq Hlt]. by subst.
    + intros [Hlt Hraised].
      destruct (lookup_lt_is_Some_2 (enumerate rows) i) as [entry Hentry].
      { by rewrite enumerate_length. }
      exists i, entry. split; [done|]. split; [|done].
      by destruct (enumerate_lookup _ _ _ Hentry).
Qed.

(** Once the loop has ended, the summary is built from the two lists and
    emitted. *)
Lemma import_loaded_emits (rows : list row) (s s1 : env import_locals) :
  import_rows experiment_id artifacts_dir import_artifacts metadata rows
    (Env (env_world s) (stdout s) no_locals) = (Ok tt, s1) →
  import_loaded csv_path experiment_name experiment_id artifacts_dir
    import_artifacts metadata rows s
  = emit_summary csv_path experiment_name
      (make_summary experiment_name experiment_id
         (get_tracking_uri (env_world s1)) (length rows) (locals s1)) s1.
Proof.
  intros Hloop. unfold import_loaded.
  unfold mbind at 1, M_bind at 1, modify_locals.
  by rewrite (bind_ok _ _ _ _ _ Hloop).
Qed.

End ImportReport.

Lemma singleton_by_membership (l : list nat) (k : nat) :
  NoDup l → (∀ i, i ∈ l ↔ i = k) → l = [k].
Proof.
  intros Hnd Hmem. destruct l as [|a l].
  { exfalso. apply (not_elem_of_nil k). by apply Hmem. }
  assert (a = k) as -> by (apply Hmem; left).
  destruct l as [|b l]; [done|].
  assert (b = k) as -> by (apply Hmem; right; left).
  apply NoDup_cons in Hnd as [Hnotin _]. exfalso. apply Hnotin. left.
Qed.

Section PartialFailure.
Context `{Builtins} `{Service}.
Variables (csv_path experiment_name experiment_id : string)
  (artifacts_dir : option string) (import_artifacts : bool)
  (metadata : Metadata).

(** C4, for a row that raises: when the [try] block of exactly one row,
    the row [k], raises, every other row is imported, and the import ends
    by emitting a summary that counts all rows as attempted and reports
    [k], and nothing else, as failed. *)
Theorem one_failing_row (rows : list row) (k : nat) (s : env import_locals) :
  (k < length rows)%nat →
  (∀ i, (i < length rows)%nat →
        row_raised experiment_id artifacts_dir import_artifacts metadata
          (length rows) (enumerate rows)
          (Env (env_world s) (stdout s) no_locals) i = true
        ↔ i = k) →
  ∃ (s1 : env import_locals) (summary : ImportSummary.t),
    import_loaded csv_path experiment_name experiment_id artifacts_dir
      import_artifacts metadata rows s
    = emit_summary csv_path experiment_name summary s1
    ∧ ImportSummary.failed_run_indices summary = [k]
    ∧ ImportSummary.failed_imports summary = 1%nat
    ∧ ImportSummary.total_runs_attempted summary = length rows
    ∧ (length rows - 1 ≤ ImportSummary.successful_imports summary)%nat
    ∧ ∀ i, (i < length rows)%nat → i ≠ k →
           row_result experiment_id artifacts_dir import_artifacts metadata
             (length rows) (enumerate rows)
             (Env (env_world s) (stdout s) no_locals) i = Some (Ok tt).
Proof.
  intros Hk Honly.
  destruct (import_rows_report experiment_id artifacts_dir import_artifacts
              metadata rows (Env (env_world s) (stdout s) no_locals) eq_refl)
    as (s1 & Hloop & Hnd & Hmem & Hlow & Hhigh).
  assert (failed_runs (locals s1) = [k]) as Hfailed.
  { apply singleton_by_membership; [done|]. intros i. rewrite Hmem. split.
    - intros [Hlt Hraised]. by apply Honly.
    - intros ->. split; [done|]. by apply Honly. }
  exists s1, (make_summary experiment_name experiment_id
                (get_tracking_uri (env_world s1)) (length rows) (locals s1)).
  split; [by apply import_loaded_emits|].
  simpl. rewrite Hfailed in *. simpl in *.
  split; [done|]. split; [done|]. split; [done|]. split; [lia|].
  intros i Hlt Hne.
  assert (row_raised experiment_id artifacts_dir import_artifacts metadata
            (length rows) (enumerate rows)
            (Env (env_world s) (stdout s) no_locals) i ≠ true) as Hok
    by (by rewrite (Honly i Hlt)).
  unfold row_raised in Hok.
  destruct (lookup_lt_is_Some_2 (enumerate rows) i) as [entry Hentry].
  { by rewrite enumerate_length. }
  unfold row_result in *. rewrite Hentry in *.
  by destruct (import_row _ _ _ _ _ _ _ _).1 as [[]|e].
Qed.

End PartialFailure.

Lemma one_failing_row_example :
  (1 < length three_rows)%nat
  ∧ (∀ i, (i < length three_rows)%nat →
          @row_raised Decimal.builtins Sim.service "1" None true empty_metadata
            (length three_rows) (enumerate three_rows)
            (import_env (import_server three_rows [] [] rejects_second) []
               no_locals) i = true
          ↔ i = 1%nat)
  ∧ ∃ (s1 : @env Sim.service import_locals) (summary : ImportSummary.t),
      @import_loaded Decimal.builtins Sim.service "out/demo_runs.csv" "demo" "1"
        None true empty_metadata three_rows
        (import_env (import_server three_rows [] [] rejects_second) [] no_locals)
      = emit_summary "out/demo_runs.csv" "demo" summary s1
      ∧ ImportSummary.failed_run_indices summary = [1%nat]
      ∧ ImportSummary.failed_imports summary = 1%nat
      ∧ ImportSummary.total_runs_attempted summary = length three_rows
      ∧ (length three_rows - 1 ≤ ImportSummary.successful_imports summary)%nat
      ∧ ∀ i, (i < length three_rows)%nat → i ≠ 1%nat →
             @row_result Decimal.builtins Sim.service "1" None true
               empty_metadata (length three_rows) (enumerate three_rows)
               (import_env (import_server three_rows [] [] rejects_second) []
                  no_locals) i = Some (Ok tt).
Proof.
  assert (1 < length three_rows)%nat as Hk by (vm_compute; lia).
  assert (∀ i, (i < length three_rows)%nat →
               @row_raised Decimal.builtins Sim.service "1" None true
                 empty_metadata (length three_rows) (enumerate three_rows)
                 (import_env (import_server three_rows [] [] rejects_second) []
                    no_locals) i = true
               ↔ i = 1%nat) as Honly.
  { intros [|[|[|i]]] Hi; [vm_compute; split; discriminate
                          |vm_compute; split; reflexivity
                          |vm_compute; split; discriminate
                          |simpl in Hi; lia]. }
  exact (conj Hk (conj Honly
           (@one_failing_row Decimal.builtins Sim.service "out/demo_runs.csv"
              "demo" "1" None true empty_metadata three_rows 1
              (import_env (import_server three_rows [] [] rejects_second) []
                 no_locals) Hk Honly))).
Defined.

(** C4 as stated fails on a row whose metric is not a number: the
    decoder drops the metric with a warning, the row is imported like the
    others, and the summary reports no failed row. *)
Lemma unparsable_metric_row_is_imported :
  @py_float Decimal.builtins (CStr "diverged") = None
  ∧ ∃ (summary : ImportSummary.t) (s' : @env Sim.service import_locals),
      @import_runs Decimal.builtins Sim.service "out/demo_runs.csv" "demo" None
        true true None None
        (import_env (import_server three_rows [] [] (λ _, false)) [] no_locals)
      = (Ok (Some summary), s')
      ∧ ImportSummary.successful_imports summary = 3%nat
      ∧ ImportSummary.failed_run_indices summary = []
      ∧ ImportSummary.failed_run_indices summary ≠ [1%nat].
Proof.
  split; [reflexivity|]. vm_compute. eexists _, _.
  split; [reflexivity|]. by repeat split.
Qed.

(** C5 fails on the code when the service cannot close a run that was
    imported: the run is already in [imported_runs] when leaving the
    [with] block raises, so the only row counts as imported and as
    failed. *)
Theorem closing_failure_counts_twice :
  ∃ (summary : ImportSummary.t) (s' : @env Sim.service import_locals),
    @import_runs Decimal.builtins Sim.service "out/demo_runs.csv" "demo" None
      true true None None
      (import_env (import_server (take 1 three_rows) [] [] closing_fails) []
         no_locals)
    = (Ok (Some summary), s')
    ∧ ImportSummary.total_runs_attempted summary = 1%nat
    ∧ ImportSummary.successful_imports summary = 1%nat
    ∧ ImportSummary.failed_imports summary = 1%nat
    ∧ ImportSummary.failed_run_indices summary = [0%nat].
Proof.
  vm_compute. eexists _, _. split; [reflexivity|]. by repeat split.
Qed.

(** ** The artifact mirror *)

Lemma record_all_cons (r : Sim.request) (rs : list Sim.request) (w : Sim.state) :
  record_all (r :: rs) w = record_all rs (Sim.record_request r w).
Proof. reflexivity. Qed.

Lemma record_all_app (rs1 rs2 : list Sim.request) (w : Sim.state) :
  record_all (rs1 ++ rs2) w = record_all rs2 (record_all rs1 w).
Proof. unfold record_all. by rewrite foldl_app. Qed.

Lemma record_all_requests (rs : list Sim.request) (w : Sim.state) :
  Sim.requests (record_all rs w) = Sim.requests w ++ rs.
Proof.
  revert w. induction rs as [|r rs IH]; intros w; simpl.
  { by rewrite app_nil_r. }
  rewrite IH. simpl. by rewrite <- app_assoc.
Qed.

Lemma record_all_faulty (rs : list Sim.request) (w : Sim.state) :
  Sim.faulty (record_all rs w) = Sim.faulty w.
Proof. revert w. induction rs as [|r rs IH]; intros w; simpl; [done|]. by rewrite IH. Qed.

(** A request that changes nothing but the record of requests. *)
Lemma sim_serve_const {A : Type} (r : Sim.request) (a : Sim.state → A)
    (w : Sim.state) :
  Sim.serve r (λ w, (a w, w)) w
  = (if Sim.faulty w r then Raise "service failure"
     else Ok (a (Sim.record_request r w)),
     Sim.record_request r w).
Proof. unfold Sim.serve. simpl. by destruct (Sim.faulty w r). Qed.

(** *** Import: every file is attempted *)

Lemma log_file_sim (path root : string) (n : nat) (file : string)
    (w : Sim.state) (out : list string) :
  let u := (path_join root file, Sim.strip_prefix path (path_join root file)) in
  @log_file Sim.service unit path root n file (sim_env w out tt)
  = if Sim.faulty w (upload_request u)
    then (Ok n, sim_env (Sim.record_request (upload_request u) w)
                  (out ++ [upload_error u]) tt)
    else (Ok (S n), sim_env (Sim.record_request (upload_request u) w) out tt).
Proof.
  intros u. unfold log_file, try_except, mbind, M_bind, call, print.
  cbn [env_world stdout locals log_artifact relpath Sim.service].
  rewrite sim_serve_const. fold u. unfold upload_request. cbn [fst snd].
  by destruct (Sim.faulty w _).
Qed.

Lemma log_files_sim (path root : string) (files : list string)
    (f : Sim.request → bool) :
  ∀ (n : nat) (w : Sim.state) (out : list string),
    Sim.faulty w = f →
    @log_files Sim.service unit path root files n (sim_env w out tt)
    = (Ok (n + length (filter (λ u, f (upload_request u) = false)
                         (uploads path [(root, files)])))%nat,
       sim_env (record_all (upload_request <$> uploads path [(root, files)]) w)
         (out ++ (upload_error
                    <$> filter (λ u, f (upload_request u) = true)
                          (uploads path [(root, files)])))
         tt).
Proof.
  unfold uploads. simpl. rewrite !app_nil_r.
  induction files as [|file files IH]; intros n w out Hf.
  { simpl. by rewrite Nat.add_0_r, app_nil_r. }
  cbn [log_files]. unfold mbind, M_bind. rewrite log_file_sim. cbv zeta.
  rewrite Hf, fmap_cons.
  set (u := (path_join root file, Sim.strip_prefix path (path_join root file))).
  destruct (f (upload_request u)) eqn:Hu.
  - rewrite (IH n (Sim.record_request (upload_request u) w)
               (out ++ [upload_error u])) by done.
    rewrite filter_cons_False by (by rewrite Hu).
    rewrite filter_cons_True by done.
    by rewrite fmap_cons, <- app_assoc.
  - rewrite (IH (S n) (Sim.record_request (upload_request u) w) out) by done.
    rewrite filter_cons_True by done.
    rewrite filter_cons_False by (by rewrite Hu).
    simpl. by rewrite Nat.add_succ_r.
Qed.

Lemma uploads_cons (path root : string) (files : list string)
    (walked : list (string * list string)) :
  uploads path ((root, files) :: walked)
  = uploads path [(root, files)] ++ uploads path walked.
Proof. unfold uploads. simpl. by rewrite app_nil_r. Qed.

(** The upload of a tree: whichever uploads fail, the loop ends
    normally, it has sent one request for every file of the tree, in the
    order of the walk, it has printed one line for every upload that
    failed, and it has counted the others. *)
Lemma log_tree_sim (path : string) (walked : list (string * list string))
    (f : Sim.request → bool) :
  ∀ (n : nat) (w : Sim.state) (out : list string),
    Sim.faulty w = f →
    @log_tree Sim.service unit path walked n (sim_env w out tt)
    = (Ok (n + length (filter (λ u, f (upload_request u) = false)
                         (uploads path walked)))%nat,
       sim_env (record_all (upload_request <$> uploads path walked) w)
         (out ++ (upload_error
                    <$> filter (λ u, f (upload_request u) = true)
                          (uploads path walked)))
         tt).
Proof.
  induction walked as [|[root files] walked IH]; intros n w out Hf.
  { simpl. by rewrite Nat.add_0_r, app_nil_r. }
  cbn [log_tree]. unfold mbind, M_bind.
  rewrite (log_files_sim path root files f n w out Hf).
  rewrite IH by (by rewrite record_all_faulty).
  rewrite (uploads_cons path root files walked).
  rewrite !filter_app, !fmap_app, length_app, record_all_app.
  by rewrite Nat.add_assoc, <- app_assoc.
Qed.

(** *** Export: the first failure ends the mirroring of the run *)

Lemma download_artifact_sim (run_id dir : string) (artifact : FileInfo.t)
    (w : Sim.state) (out : list string) :
  let rs := download_requests run_id dir artifact in
  @download_artifact Sim.service unit run_id dir artifact (sim_env w out tt)
  = (if existsb (Sim.faulty w) rs then Raise "service failure" else Ok tt,
     sim_env (record_all (until_faulty (Sim.faulty w) rs) w) out tt).
Proof.
  unfold download_artifact, download_requests.
  destruct (FileInfo.is_dir artifact); cbv zeta.
  - unfold call. cbn [env_world stdout locals download_artifacts Sim.service].
    rewrite sim_serve_const. simpl.
    by destruct (Sim.faulty w _).
  - unfold mbind, M_bind, call.
    cbn [env_world stdout locals download_artifacts makedirs Sim.service].
    rewrite !sim_serve_const. simpl.
    destruct (Sim.faulty w (Sim.MakeDirs _)); [done|].
    by destruct (Sim.faulty w (Sim.DownloadArtifacts _ _ _)).
Qed.

Lemma until_faulty_app (f : Sim.request → bool) (rs1 rs2 : list Sim.request) :
  until_faulty f (rs1 ++ rs2)
  = if existsb f rs1 then until_faulty f rs1
    else rs1 ++ until_faulty f rs2.
Proof.
  induction rs1 as [|r rs1 IH]; simpl; [done|].
  destruct (f r); simpl; [done|]. rewrite IH. by destruct (existsb f rs1).
Qed.

Lemma until_faulty_clean (f : Sim.request → bool) (rs : list Sim.request) :
  existsb f rs = false → until_faulty f rs = rs.
Proof.
  induction rs as [|r rs IH]; simpl; [done|].
  destruct (f r); simpl; [done|]. intros Hrs. by rewrite IH.
Qed.

Lemma download_artifacts_sim (run_id dir : string) (artifacts : list FileInfo.t)
    (f : Sim.request → bool) :
  ∀ (w : Sim.state) (out : list string),
    Sim.faulty w = f →
    let rs := concat (download_requests run_id dir <$> artifacts) in
    @for_each Sim.service unit FileInfo.t artifacts
      (download_artifact run_id dir) (sim_env w out tt)
    = (if existsb f rs then Raise "service failure" else Ok tt,
       sim_env (record_all (until_faulty f rs) w) out tt).
Proof.
  induction artifacts as [|artifact artifacts IH]; intros w out Hf; [done|].
  cbv zeta. rewrite for_each_cons. unfold mbind, M_bind.
  rewrite download_artifact_sim. cbv zeta. rewrite Hf.
  rewrite fmap_cons. cbn [concat]. rewrite existsb_app, until_faulty_app.
  destruct (existsb f (download_requests run_id dir artifact)) eqn:Hhere; [done|].
  rewrite (until_faulty_clean _ _ Hhere).
  rewrite IH by (by rewrite record_all_faulty).
  cbv zeta. by rewrite record_all_app.
Qed.

(** The two directions on the reference service, each as the code has
    it.  Import: whichever uploads fail, the upload of a run's artifact
    tree ends normally, one request was sent for every file of the tree,
    every failed upload was printed and every other one counted.
    Export: whichever requests fail, mirroring the artifacts of a run
    ends normally; the requests were sent up to the first one that
    failed, that failure was printed, and the artifacts after it were
    not requested. *)
Lemma artifact_failures_stay_local (w : Sim.state) (out : list string)
    (run_artifacts_path : string) (walked : list (string * list string))
    (n : nat) (run_id run_artifacts_dir : string) :
  @log_tree Sim.service unit run_artifacts_path walked n (sim_env w out tt)
  = (Ok (n + length (filter (λ u, Sim.faulty w (upload_request u) = false)
                       (uploads run_artifacts_path walked)))%nat,
     sim_env
       (record_all (upload_request <$> uploads run_artifacts_path walked) w)
       (out ++ (upload_error
                  <$> filter (λ u, Sim.faulty w (upload_request u) = true)
                        (uploads run_artifacts_path walked)))
       tt)
  ∧ @download_run_artifacts Sim.service unit run_id run_artifacts_dir
      (sim_env w out tt)
    = (Ok tt,
       sim_env
         (record_all
            (until_faulty (Sim.faulty w)
               (mirror_requests run_id run_artifacts_dir w)) w)
         (out ++ if existsb (Sim.faulty w)
                      (mirror_requests run_id run_artifacts_dir w)
                 then ["Error downloading artifacts for run " +:+ run_id
                         +:+ ": service failure"]
                 else [])
         tt).
Proof.
  split; [by apply log_tree_sim|].
  unfold download_run_artifacts, try_except, mirror_requests.
  unfold mbind at 1, M_bind at 1, call.
  cbn [env_world stdout locals list_artifacts Sim.service].
  rewrite sim_serve_const. cbn [existsb until_faulty].
  destruct (Sim.faulty w (Sim.ListArtifacts run_id)) eqn:Hlist; [done|].
  cbn [orb Sim.artifacts Sim.record_request].
  rewrite (download_artifacts_sim run_id run_artifacts_dir (Sim.artifacts w)
             (Sim.faulty w)) by done.
  cbv zeta. rewrite record_all_cons.
  destruct (existsb _ _); [done|]. by rewrite app_nil_r.
Qed.

(** C8 fails on the code in the export direction.  The importer guards
    every upload with a [try] of its own, so that a failed upload skips
    one file; the exporter has one [try] around the listing and all
    downloads of a run.  When the download of the first of two artifacts
    fails, the failure is printed and the second artifact is never
    requested. *)
Theorem failed_download_ends_the_run :
  let files :=
    [ {| FileInfo.path := "model.pkl"; FileInfo.is_dir := false |};
      {| FileInfo.path := "notes.txt"; FileInfo.is_dir := false |} ] in
  let result :=
    @download_run_artifacts Sim.service unit "r1" "out/artifacts/r1"
      (sim_env (artifact_server files model_fails) [] tt) in
  result.1 = Ok tt
  ∧ stdout result.2 = ["Error downloading artifacts for run r1: service failure"]
  ∧ Sim.requests (env_world result.2)
    = [Sim.ListArtifacts "r1"; Sim.MakeDirs "out/artifacts/r1/";
       Sim.DownloadArtifacts "r1" "model.pkl" "out/artifacts/r1/"]
  ∧ ¬ ∃ dst, Sim.DownloadArtifacts "r1" "notes.txt" dst
             ∈ Sim.requests (env_world result.2).
Proof.
  intros files result.
  assert (Sim.requests (env_world result.2)
          = [Sim.ListArtifacts "r1"; Sim.MakeDirs "out/artifacts/r1/";
             Sim.DownloadArtifacts "r1" "model.pkl" "out/artifacts/r1/"])
    as Hrequests by (by vm_compute).
  split; [by vm_compute|]. split; [by vm_compute|]. split; [done|].
  rewrite Hrequests. intros [dst Hin].
  rewrite !elem_of_cons, elem_of_nil in Hin.
  by destruct Hin as [?|[?|[?|[]]]].
Qed.

(** The same failure on the way in: the upload of [model.pkl] fails, is
    printed, and [notes.txt] is uploaded all the same. *)
Example failed_upload_is_skipped :
  let faulty r :=
    match r with Sim.LogArtifact "in/model.pkl" _ => true | _ => false end in
  let result :=
    @log_tree Sim.service unit "in" [("in", ["model.pkl"; "notes.txt"])] 0
      (sim_env (artifact_server [] faulty) [] tt) in
  result.1 = Ok 1%nat
  ∧ stdout result.2 = ["Error logging artifact model.pkl: service failure"]
  ∧ Sim.requests (env_world result.2)
    = [Sim.LogArtifact "in/model.pkl" None; Sim.LogArtifact "in/notes.txt" None].
Proof. vm_compute. done. Qed.

(** * Further properties *)

(** ** The ledger of an export *)

Lemma elem_of_observe (name x : string) (l : list string) :
  x ∈ observe name l ↔ x ∈ l ∨ x = name.
Proof.
  unfold observe. case_bool_decide as Hin.
  - split; [by left|]. by intros [?| ->].
  - rewrite elem_of_app, list_elem_of_singleton. done.
Qed.

Lemma NoDup_observe (name : string) (l : list string) :
  NoDup l → NoDup (observe name l).
Proof.
  intros Hnd. unfold observe. case_bool_decide as Hin; [done|].
  apply NoDup_app. split; [done|]. split; [|apply NoDup_singleton].
  intros x Hx ->%list_elem_of_singleton. done.
Qed.

Lemma prefix_observe (name : string) (l : list string) :
  l `prefix_of` observe name l.
Proof.
  unfold observe. case_bool_decide; [done|]. by apply prefix_app_r.
Qed.

Lemma add_column_observed {V : Type} (p : string) (c : V → cell)
    (es : pydict V) (rd : row) (l : list string) :
  (foldl (add_column p c) (rd, l) es).2 = observed p l es.
Proof.
  unfold observed. revert rd l.
  induction es as [|e es IH]; intros rd l; [done|]. simpl. apply IH.
Qed.

Lemma elem_of_observed {V : Type} (p x : string) (l : list string)
    (es : pydict V) :
  x ∈ observed p l es ↔ x ∈ l ∨ ∃ k, k ∈ keys es ∧ x = p +:+ k.
Proof.
  unfold observed, keys. revert l.
  induction es as [|[k v] es IH]; intros l; simpl.
  { split; [by left|]. intros [?|(k & Hk & _)]; [done|]. by apply elem_of_nil in Hk. }
  rewrite IH, elem_of_observe. split.
  - intros [[?| ->]|(k' & Hk' & ->)]; [by left| |].
    + right. exists k. split; [left|done].
    + right. exists k'. split; [by right|done].
  - intros [?|(k' & Hk' & ->)]; [by left; left|].
    apply elem_of_cons in Hk' as [->|Hk'].
    + left. by right.
    + right. by exists k'.
Qed.

Lemma NoDup_observed {V : Type} (p : string) (l : list string) (es : pydict V) :
  NoDup l → NoDup (observed p l es).
Proof.
  unfold observed. revert l. induction es as [|e es IH]; intros l Hnd; [done|].
  simpl. by apply IH, NoDup_observe.
Qed.

Lemma prefix_observed {V : Type} (p : string) (l : list string) (es : pydict V) :
  l `prefix_of` observed p l es.
Proof.
  unfold observed. revert l. induction es as [|e es IH]; intros l; [done|].
  simpl. etrans; [apply prefix_observe|apply IH].
Qed.

(** The ledger that [encode_run] returns, list by list. *)
Lemma encode_run_ledger (r : Run) (metadata : Metadata) :
  (encode_run r metadata).2
  = {| md_parameters :=
         observed "param:" (md_parameters metadata) (RunData.params (data r));
       md_metrics :=
         observed "metric:" (md_metrics metadata) (RunData.metrics (data r));
       md_tags := observed "tag:" (md_tags metadata) (RunData.tags (data r)) |}.
Proof.
  unfold encode_run.
  pose proof (add_column_observed "metric:" CFloat (RunData.metrics (data r))
                (system_cells (info r)) (md_metrics metadata)) as Hm.
  destruct (foldl (add_column "metric:" CFloat) _ _) as [rd1 ms].
  pose proof (add_column_observed "param:" CStr (RunData.params (data r))
                rd1 (md_parameters metadata)) as Hp.
  destruct (foldl (add_column "param:" CStr) _ _) as [rd2 ps].
  pose proof (add_column_observed "tag:" CStr (RunData.tags (data r))
                rd2 (md_tags metadata)) as Ht.
  destruct (foldl (add_column "tag:" CStr) _ _) as [rd3 ts].
  simpl in *. by subst.
Qed.

Lemma encode_page_ledger (batch : list Run) (acc : list row * Metadata) :
  (encode_page batch acc).2 = ledger_after batch acc.2.
Proof.
  unfold encode_page, ledger_after. revert acc.
  induction batch as [|r batch IH]; intros acc; [done|]. simpl.
  rewrite IH. by destruct (encode_run r acc.2).
Qed.

Lemma export_ledger_after (batch : list Run) :
  export_ledger batch = ledger_after batch empty_metadata.
Proof. apply encode_page_ledger. Qed.

Lemma ledger_after_snoc (batch : list Run) (r : Run) (metadata : Metadata) :
  ledger_after (batch ++ [r]) metadata
  = (encode_run r (ledger_after batch metadata)).2.
Proof. unfold ledger_after. by rewrite foldl_app. Qed.

Lemma ledger_after_app (b1 b2 : list Run) (metadata : Metadata) :
  ledger_after (b1 ++ b2) metadata = ledger_after b2 (ledger_after b1 metadata).
Proof. unfold ledger_after. by rewrite foldl_app. Qed.

(** X2.  The ledger of an export lists, in each group and once each,
    exactly the prefixed names of the entries that the runs have in that
    group. *)
Theorem export_ledger_complete (batch : list Run) :
  let ledger := export_ledger batch in
  (NoDup (md_parameters ledger) ∧ NoDup (md_metrics ledger)
   ∧ NoDup (md_tags ledger))
  ∧ ∀ c : string,
      (c ∈ md_parameters ledger ↔
         ∃ r k, r ∈ batch ∧ k ∈ keys (RunData.params (data r))
                ∧ c = "param:" +:+ k)
      ∧ (c ∈ md_metrics ledger ↔
           ∃ r k, r ∈ batch ∧ k ∈ keys (RunData.metrics (data r))
                  ∧ c = "metric:" +:+ k)
      ∧ (c ∈ md_tags ledger ↔
           ∃ r k, r ∈ batch ∧ k ∈ keys (RunData.tags (data r))
                  ∧ c = "tag:" +:+ k).
Proof.
  cbv zeta. rewrite export_ledger_after.
  induction batch as [|r batch IH] using rev_ind.
  { simpl. split; [repeat split; apply NoDup_nil_2|].
    intros c. repeat split; try (by intros ?%elem_of_nil);
      by intros (r & k & ?%elem_of_nil & _). }
  destruct IH as [(Hp & Hm & Ht) Hmem].
  rewrite ledger_after_snoc, encode_run_ledger. simpl. split.
  { repeat split; by apply NoDup_observed. }
  intros c. destruct (Hmem c) as (Hcp & Hcm & Hct).
  rewrite !elem_of_observed, Hcp, Hcm, Hct.
  repeat split.
  all: try (intros [(r' & k & Hr' & Hk & ->)|(k & Hk & ->)];
            [exists r', k; by rewrite elem_of_app; auto
            |exists r, k; rewrite elem_of_app, list_elem_of_singleton; auto]).
  all: intros (r' & k & Hr' & Hk & ->);
    apply elem_of_app in Hr' as [Hr'| ->%list_elem_of_singleton];
    [left; by exists r', k|right; by exists k].
Qed.

(** X3.  The ledger is only ever appended to: what an export has listed
    after some runs stays, in the same order, at the head of what it
    lists after more runs. *)
Theorem export_ledger_grows (b1 b2 : list Run) :
  md_parameters (export_ledger b1) `prefix_of` md_parameters (export_ledger (b1 ++ b2))
  ∧ md_metrics (export_ledger b1) `prefix_of` md_metrics (export_ledger (b1 ++ b2))
  ∧ md_tags (export_ledger b1) `prefix_of` md_tags (export_ledger (b1 ++ b2)).
Proof.
  rewrite !export_ledger_after, ledger_after_app.
  generalize (ledger_after b1 empty_metadata). intros metadata.
  induction b2 as [|r b2 IH] using rev_ind; [done|].
  rewrite ledger_after_snoc, encode_run_ledger. simpl.
  destruct IH as (Hp & Hm & Ht).
  repeat split; (etrans; [eassumption|apply prefix_observed]).
Qed.

Lemma prefixed_param (k : string) : prefixed ("param:" +:+ k) = true.
Proof. by destruct k. Qed.

Lemma prefixed_metric (k : string) : prefixed ("metric:" +:+ k) = true.
Proof. by destruct k. Qed.

Lemma prefixed_tag (k : string) : prefixed ("tag:" +:+ k) = true.
Proof. by destruct k. Qed.

Lemma observed_prefixed {V : Type} (p : string) (l : list string)
    (es : pydict V) :
  (∀ k, prefixed (p +:+ k) = true) →
  Forall (λ c, prefixed c = true) l →
  Forall (λ c, prefixed c = true) (observed p l es).
Proof.
  intros Hp Hl. rewrite Forall_forall in *.
  intros c [Hc|(k & _ & ->)]%elem_of_observed; auto.
Qed.

Lemma export_ledger_prefixed (batch : list Run) :
  prefixed_ledger (export_ledger batch).
Proof.
  rewrite export_ledger_after.
  induction batch as [|r batch IH] using rev_ind.
  { by repeat split. }
  destruct IH as (Hp & Hm & Ht).
  rewrite ledger_after_snoc, encode_run_ledger. unfold prefixed_ledger. simpl.
  repeat split; apply observed_prefixed;
    auto using prefixed_param, prefixed_metric, prefixed_tag.
Qed.

Section LedgerUse.
Context `{Builtins}.

Lemma step_prefixed_ledger (metadata : Metadata) (d : decoded)
    (entry : string * cell) :
  prefixed_ledger metadata →
  extract_step metadata d entry = extract_step empty_metadata d entry.
Proof.
  intros (Hp & Hm & Ht). destruct entry as [col v]. unfold extract_step.
  destruct (isna v || bool_decide (col ∈ system_columns)); [done|].
  destruct (startswith "param:" col) eqn:Hparam; [done|].
  destruct (startswith "metric:" col) eqn:Hmetric; [done|].
  destruct (startswith "tag:" col) eqn:Htag; [done|].
  assert (prefixed col = false) as Hcol
    by (unfold prefixed; by rewrite Hparam, Hmetric, Htag).
  rewrite Forall_forall in Hp, Hm, Ht.
  rewrite !bool_decide_eq_false_2; [done|..];
    try (by intros ?%elem_of_nil); intros Hin.
  - apply Ht in Hin. congruence.
  - apply Hm in Hin. congruence.
  - apply Hp in Hin. congruence.
Qed.

(** X1.  The ledger that the exporter writes never changes what the
    importer decodes: its names all carry a prefix, and the decoder looks
    a column up in the ledger only when the column has none.  Whatever the
    row, decoding with the ledger of an export is decoding with the empty
    ledger. *)
Theorem exported_ledger_is_never_used (batch : list Run) (run_data : row) :
  extract_run_data run_data (export_ledger batch)
  = extract_run_data run_data empty_metadata.
Proof.
  unfold extract_run_data. generalize decoded_empty.
  induction run_data as [|entry run_data IH]; intros d; [done|].
  cbn [foldl].
  rewrite (step_prefixed_ledger _ d entry (export_ledger_prefixed batch)).
  apply IH.
Qed.

End LedgerUse.

(** ** The encoded row *)

Lemma getitem_setitem_ne {V : Type} (k k' : string) (v : V) (d : pydict V) :
  k' ≠ k → getitem k' (setitem k v d) = getitem k' d.
Proof.
  intros Hne. induction d as [|[k0 v0] d IH]; simpl.
  { by rewrite bool_decide_eq_false_2. }
  case_bool_decide as Hk0; simpl.
  - subst k0. by rewrite !bool_decide_eq_false_2 by done.
  - case_bool_decide; [done|apply IH].
Qed.

Lemma elem_of_keys_setitem {V : Type} (k x : string) (v : V) (d : pydict V) :
  x ∈ keys (setitem k v d) ↔ x ∈ keys d ∨ x = k.
Proof.
  unfold keys. induction d as [|[k0 v0] d IH]; simpl.
  { rewrite list_elem_of_singleton. split; [by right|]. by intros [?%elem_of_nil|]. }
  case_bool_decide as Hk0; simpl.
  - subst k0. rewrite !elem_of_cons. tauto.
  - rewrite !elem_of_cons, IH. tauto.
Qed.

Lemma NoDup_keys_setitem {V : Type} (k : string) (v : V) (d : pydict V) :
  NoDup (keys d) → NoDup (keys (setitem k v d)).
Proof.
  unfold keys. induction d as [|[k0 v0] d IH]; simpl; intros Hnd.
  { apply NoDup_singleton. }
  apply NoDup_cons in Hnd as [Hk0 Hnd]. case_bool_decide as Heq; simpl.
  - subst k0. by apply NoDup_cons.
  - apply NoDup_cons. split; [|by apply IH].
    intros Hin. apply (elem_of_keys_setitem k k0 v d) in Hin as [Hin| ->]; done.
Qed.

Lemma add_column_keys_unique {V : Type} (p : string) (c : V → cell)
    (es : pydict V) (rd : row) (l : list string) :
  NoDup (keys rd) → NoDup (keys (foldl (add_column p c) (rd, l) es).1).
Proof.
  revert rd l. induction es as [|e es IH]; intros rd l Hnd; [done|].
  simpl. apply IH. by apply NoDup_keys_setitem.
Qed.

Lemma add_column_keeps {V : Type} (p : string) (c : V → cell) (es : pydict V)
    (rd : row) (l : list string) (col : string) :
  (∀ k, col ≠ p +:+ k) →
  getitem col (foldl (add_column p c) (rd, l) es).1 = getitem col rd.
Proof.
  intros Hcol. revert rd l. induction es as [|e es IH]; intros rd l; [done|].
  simpl. etrans; [apply IH|]. by apply getitem_setitem_ne.
Qed.

(** A system column keeps the cell that [system_cells] gave it. *)
Lemma encode_run_keeps (r : Run) (metadata : Metadata) (col : string) :
  prefixed col = false →
  getitem col (encode_run r metadata).1 = getitem col (system_cells (info r)).
Proof.
  intros Hcol.
  assert (∀ k, col ≠ "param:" +:+ k) as Hp
    by (intros k ->; by rewrite prefixed_param in Hcol).
  assert (∀ k, col ≠ "metric:" +:+ k) as Hm
    by (intros k ->; by rewrite prefixed_metric in Hcol).
  assert (∀ k, col ≠ "tag:" +:+ k) as Ht
    by (intros k ->; by rewrite prefixed_tag in Hcol).
  unfold encode_run.
  pose proof (add_column_keeps "metric:" CFloat (RunData.metrics (data r))
                (system_cells (info r)) (md_metrics metadata) col Hm) as Em.
  destruct (foldl (add_column "metric:" CFloat) _ _) as [rd1 ms].
  pose proof (add_column_keeps "param:" CStr (RunData.params (data r))
                rd1 (md_parameters metadata) col Hp) as Ep.
  destruct (foldl (add_column "param:" CStr) _ _) as [rd2 ps].
  pose proof (add_column_keeps "tag:" CStr (RunData.tags (data r))
                rd2 (md_tags metadata) col Ht) as Et.
  destruct (foldl (add_column "tag:" CStr) _ _) as [rd3 ts].
  simpl in *. congruence.
Qed.

(** X4.  Whatever names a run uses for its parameters, metrics and tags,
    also repeated or equal to the name of a system column, the encoded
    row has no column twice and its seven system columns hold the
    identity, owner, times and status of the run. *)
Theorem encoded_row_system_columns (r : Run) (metadata : Metadata) :
  let run_data := (encode_run r metadata).1 in
  NoDup (keys run_data)
  ∧ getitem "run_id" run_data = Some (CStr (RunInfo.run_id (info r)))
  ∧ getitem "experiment_id" run_data
    = Some (CStr (RunInfo.experiment_id (info r)))
  ∧ getitem "user_id" run_data = Some (CStr (RunInfo.user_id (info r)))
  ∧ getitem "start_time" run_data = Some (opt_int (RunInfo.start_time (info r)))
  ∧ getitem "end_time" run_data = Some (opt_int (RunInfo.end_time (info r)))
  ∧ getitem "status" run_data = Some (CStr (RunInfo.status (info r)))
  ∧ getitem "lifecycle_stage" run_data
    = Some (CStr (RunInfo.lifecycle_stage (info r))).
Proof.
  cbv zeta. split.
  - unfold encode_run.
    pose proof (add_column_keys_unique "metric:" CFloat
                  (RunData.metrics (data r)) (system_cells (info r))
                  (md_metrics metadata)) as Em.
    destruct (foldl (add_column "metric:" CFloat) _ _) as [rd1 ms].
    pose proof (add_column_keys_unique "param:" CStr (RunData.params (data r))
                  rd1 (md_parameters metadata)) as Ep.
    destruct (foldl (add_column "param:" CStr) _ _) as [rd2 ps].
    pose proof (add_column_keys_unique "tag:" CStr (RunData.tags (data r))
                  rd2 (md_tags metadata)) as Et.
    destruct (foldl (add_column "tag:" CStr) _ _) as [rd3 ts].
    simpl in *. apply Et, Ep, Em.
    exact (bool_decide_unpack (NoDup system_columns) I).
  - by rewrite !encode_run_keeps.
Qed.

Lemma getitem_app {V : Type} (k : string) (d1 d2 : pydict V) :
  getitem k (d1 ++ d2)
  = match getitem k d1 with Some v => Some v | None => getitem k d2 end.
Proof.
  induction d1 as [|[k0 v0] d1 IH]; simpl; [done|]. by case_bool_decide.
Qed.

Lemma getitem_column {V : Type} (p k : string) (c : V → cell) (es : pydict V) :
  getitem (p +:+ k) (column p c <$> es) = c <$> getitem k es.
Proof.
  induction es as [|[k0 v0] es IH]; simpl; [done|].
  unfold column at 1. simpl. case_bool_decide as Heq.
  - apply string_app_inj in Heq. subst k0. by rewrite bool_decide_eq_true_2.
  - rewrite bool_decide_eq_false_2 by (by intros ->). apply IH.
Qed.

Lemma getitem_other_column {V : Type} (col p : string) (c : V → cell)
    (es : pydict V) :
  (∀ k, col ≠ p +:+ k) → getitem col (column p c <$> es) = None.
Proof.
  intros Hcol. induction es as [|[k0 v0] es IH]; simpl; [done|].
  unfold column at 1. simpl.
  rewrite bool_decide_eq_false_2 by (intros Heq; by apply (Hcol k0)). apply IH.
Qed.

Lemma getitem_not_key {V : Type} (k : string) (d : pydict V) :
  k ∉ keys d → getitem k d = None.
Proof.
  unfold keys. induction d as [|[k0 v0] d IH]; simpl; [done|].
  rewrite not_elem_of_cons. intros [Hne Hnotin].
  rewrite bool_decide_eq_false_2 by done. by apply IH.
Qed.

(** X5.  The three groups do not collide in the row: for a run with
    well-formed groups, the column [<prefix>:<name>] holds what the
    group of that prefix has under [name], and is absent when the group
    has no such entry, whatever the other two groups hold under the same
    name. *)
Theorem encoded_row_lookup (r : Run) (metadata : Metadata) (name : string) :
  wf_run r →
  let run_data := (encode_run r metadata).1 in
  getitem ("param:" +:+ name) run_data
  = CStr <$> getitem name (RunData.params (data r))
  ∧ getitem ("metric:" +:+ name) run_data
    = CFloat <$> getitem name (RunData.metrics (data r))
  ∧ getitem ("tag:" +:+ name) run_data
    = CStr <$> getitem name (RunData.tags (data r)).
Proof.
  intros Hwf. cbv zeta. rewrite (encode_run_row r metadata Hwf).
  rewrite !getitem_app.
  rewrite (getitem_not_key ("param:" +:+ name) (system_cells (info r)))
    by apply param_not_system.
  rewrite (getitem_not_key ("metric:" +:+ name) (system_cells (info r)))
    by apply metric_not_system.
  rewrite (getitem_not_key ("tag:" +:+ name) (system_cells (info r)))
    by apply tag_not_system.
  rewrite !getitem_column.
  rewrite (getitem_other_column ("param:" +:+ name) "metric:") by done.
  rewrite (getitem_other_column ("tag:" +:+ name) "metric:") by done.
  rewrite (getitem_other_column ("tag:" +:+ name) "param:") by done.
  rewrite (getitem_other_column ("param:" +:+ name) "tag:") by done.
  rewrite (getitem_other_column ("metric:" +:+ name) "param:") by done.
  rewrite (getitem_other_column ("metric:" +:+ name) "tag:") by done.
  repeat split.
  - by destruct (CStr <$> getitem name (RunData.params (data r))).
  - by destruct (CFloat <$> getitem name (RunData.metrics (data r))).
Qed.

Lemma encoded_row_lookup_example :
  wf_run example_run
  ∧ getitem ("param:" +:+ "lr") (encode_run example_run empty_metadata).1
    = CStr <$> getitem "lr" (RunData.params (data example_run))
  ∧ getitem ("metric:" +:+ "lr") (encode_run example_run empty_metadata).1
    = CFloat <$> getitem "lr" (RunData.metrics (data example_run))
  ∧ getitem ("tag:" +:+ "lr") (encode_run example_run empty_metadata).1
    = CStr <$> getitem "lr" (RunData.tags (data example_run)).
Proof.
  assert (wf_run example_run) as Hwf by decide_wf.
  exact (conj Hwf (encoded_row_lookup example_run empty_metadata "lr" Hwf)).
Defined.

(** ** What the decoder reads *)

Lemma startswith_slice (p s : string) :
  startswith p s = true → s = p +:+ slice_from (String.length p) s.
Proof.
  unfold startswith. revert s. induction p as [|a p IH]; intros s; [done|].
  destruct s as [|b s]; cbn [String.prefix]; [done|].
  destruct (ascii_dec a b) as [->|]; [|done].
  intros Hpre. change (String b s = String b (p +:+ slice_from (String.length p) s)).
  f_equal. by apply IH.
Qed.

Section DecoderReads.
Context `{Builtins}.

Lemma skip_blank_cell metadata d (entry : string * cell) :
  ¬ data_cell entry → extract_step metadata d entry = d.
Proof.
  destruct entry as [col v]. unfold data_cell. cbn [fst snd]. intros Hblank.
  destruct (isna v) eqn:Ev; [by apply skip_missing|].
  apply skip_system_column. destruct (decide (col ∈ system_columns)); [done|].
  by destruct Hblank.
Qed.

(** X6.  Missing cells and system columns do not take part in the
    decoding: wherever they stand in the row, the decoder returns what
    it returns for the row without them. *)
Theorem decoder_skips_blank_cells (run_data : row) (metadata : Metadata) :
  extract_run_data run_data metadata
  = extract_run_data (filter data_cell run_data) metadata.
Proof.
  unfold extract_run_data. generalize decoded_empty.
  induction run_data as [|entry run_data IH]; intros d; [done|].
  rewrite filter_cons. destruct (decide (data_cell entry)) as [Hdata|Hblank].
  - simpl. apply IH.
  - simpl. rewrite (skip_blank_cell metadata d entry Hblank). apply IH.
Qed.

Lemma sourced_set_param (run_data : row) d (name : string)
    (entry : string * cell) :
  sourced run_data d →
  entry ∈ run_data → data_cell entry →
  entry.1 = "param:" +:+ name ∨ entry.1 = name →
  sourced run_data (set_param name (py_str entry.2) d).
Proof.
  intros (Hp & Hm & Ht) Hin Hdata Hcol. repeat split; [|done|done].
  intros k v. simpl. rewrite lookup_insert_Some.
  intros [[<- <-]|[_ Hk]]; [|by apply Hp]. by exists entry.
Qed.

Lemma sourced_set_tag (run_data : row) d (name : string)
    (entry : string * cell) :
  sourced run_data d →
  entry ∈ run_data → data_cell entry →
  entry.1 = "tag:" +:+ name ∨ entry.1 = name →
  sourced run_data (set_tag name (py_str entry.2) d).
Proof.
  intros (Hp & Hm & Ht) Hin Hdata Hcol. repeat split; [done|done|].
  intros k v. simpl. rewrite lookup_insert_Some.
  intros [[<- <-]|[_ Hk]]; [|by apply Ht]. by exists entry.
Qed.

Lemma sourced_print (run_data : row) d (line : string) :
  sourced run_data d → sourced run_data (print_line line d).
Proof. done. Qed.

Lemma sourced_set_metric (run_data : row) d (name : string)
    (entry : string * cell) (x : float) :
  sourced run_data d →
  entry ∈ run_data → data_cell entry →
  entry.1 = "metric:" +:+ name ∨ entry.1 = name →
  py_float entry.2 = Some x →
  sourced run_data (set_metric name x d).
Proof.
  intros (Hp & Hm & Ht) Hin Hdata Hcol Hx. repeat split; [done| |done].
  intros k v. simpl. rewrite lookup_insert_Some.
  intros [[<- <-]|[_ Hk]]; [|by apply Hm]. by exists entry.
Qed.

Lemma sourced_store_metric (run_data : row) d (name : string)
    (entry : string * cell) :
  sourced run_data d →
  entry ∈ run_data → data_cell entry →
  entry.1 = "metric:" +:+ name ∨ entry.1 = name →
  sourced run_data (store_metric name entry.2 d).
Proof.
  intros Hd Hin Hdata Hcol. unfold store_metric.
  destruct (py_float entry.2) as [x|] eqn:Ex.
  - by apply (sourced_set_metric run_data d name entry x).
  - by apply sourced_print.
Qed.

Lemma sourced_step (run_data : row) metadata d (entry : string * cell) :
  sourced run_data d → entry ∈ run_data →
  sourced run_data (extract_step metadata d entry).
Proof.
  intros Hd Hin. destruct (decide (data_cell entry)) as [Hdata|Hblank];
    [|by rewrite skip_blank_cell].
  pose proof Hdata as [Hna Hsys].
  destruct entry as [col v]. simpl in Hna, Hsys. unfold extract_step.
  rewrite Hna, bool_decide_eq_false_2 by done. simpl.
  destruct (startswith "param:" col) eqn:Ep.
  { apply (sourced_set_param run_data d _ (col, v)); [done..|].
    left. exact (startswith_slice "param:" col Ep). }
  destruct (startswith "metric:" col) eqn:Em.
  { apply (sourced_store_metric run_data d _ (col, v)); [done..|].
    left. exact (startswith_slice "metric:" col Em). }
  destruct (startswith "tag:" col) eqn:Et.
  { apply (sourced_set_tag run_data d _ (col, v)); [done..|].
    left. exact (startswith_slice "tag:" col Et). }
  case_bool_decide.
  { apply (sourced_set_param run_data d _ (col, v)); [done..|by right]. }
  case_bool_decide.
  { apply (sourced_store_metric run_data d _ (col, v)); [done..|by right]. }
  case_bool_decide.
  { apply (sourced_set_tag run_data d _ (col, v)); [done..|by right]. }
  unfold infer. destruct (py_float v) as [x|] eqn:Ex.
  - destruct (is_integer x && abs_lt x 1000).
    + apply (sourced_set_param run_data d _ (col, v)); [done..|by right].
    + apply sourced_print.
      apply (sourced_set_metric run_data d _ (col, v)); [done..|by right|done].
  - apply sourced_print.
    apply (sourced_set_param run_data d _ (col, v)); [done..|by right].
Qed.

Lemma sourced_foldl (run_data : row) metadata (cells : row) d :
  sourced run_data d → cells ⊆ run_data →
  sourced run_data (foldl (extract_step metadata) d cells).
Proof.
  revert d. induction cells as [|entry cells IH]; intros d Hd Hsub; [done|].
  simpl. apply IH.
  - apply sourced_step; [done|]. apply Hsub. by left.
  - intros e He. apply Hsub. by right.
Qed.

(** X7.  The decoder invents nothing: whatever the ledger says, every
    parameter and tag it returns is the text of a present cell of the
    row, every metric is the number read from one, and the column of
    that cell is no system column and is the decoded name, with or
    without the prefix of its group. *)
Theorem decoded_values_come_from_cells (run_data : row) (metadata : Metadata) :
  sourced run_data (extract_run_data run_data metadata).
Proof.
  apply sourced_foldl; [|done].
  repeat split; intros k v Hk; simpl in Hk; by rewrite lookup_empty in Hk.
Qed.

End DecoderReads.

(** ** The importer, for every tracking service *)

Section ImportInvariants.
Context `{Builtins} `{Service}.

(** X8.  Whatever the rows hold and whatever the service does, the loop
    of the importer ends and the summary is emitted with: as many
    attempted runs as the table has rows; the failed indices in
    ascending order, without repetition and within the table; their
    number as the count of failures; at most one success per row; and
    the two counts together covering the rows, not necessarily exactly. *)
Theorem import_summary_consistent (csv_path experiment_name experiment_id : string)
    (artifacts_dir : option string) (import_artifacts : bool)
    (metadata : Metadata) (rows : list row) (s : env import_locals) :
  ∃ (s1 : env import_locals) (summary : ImportSummary.t),
    import_loaded csv_path experiment_name experiment_id artifacts_dir
      import_artifacts metadata rows s
    = emit_summary csv_path experiment_name summary s1
    ∧ ImportSummary.total_runs_attempted summary = length rows
    ∧ ImportSummary.failed_run_indices summary `sublist_of` seq 0 (length rows)
    ∧ ImportSummary.failed_imports summary
      = length (ImportSummary.failed_run_indices summary)
    ∧ (ImportSummary.successful_imports summary ≤ length rows)%nat
    ∧ (length rows ≤ ImportSummary.successful_imports summary
                     + ImportSummary.failed_imports summary)%nat
    ∧ ImportSummary.destination_experiment summary = experiment_name
    ∧ ImportSummary.destination_experiment_id summary = experiment_id.
Proof.
  destruct (import_loop experiment_id artifacts_dir import_artifacts metadata
              (length rows) (enumerate rows)
              (Env (env_world s) (stdout s) no_locals))
    as (s1 & extra & Hloop & Hfailed & Hsub & _ & Hlow & Hhigh).
  simpl in Hfailed, Hlow, Hhigh. rewrite enumerate_length in Hlow, Hhigh.
  rewrite enumerate_fst in Hsub.
  exists s1. eexists. split.
  { by apply import_loaded_emits. }
  simpl. rewrite Hfailed. repeat split; try done; lia.
Qed.

(** The upload of one file ends normally: the file is counted, or its
    failure is reported. *)
Lemma log_file_caught {L} (path root : string) (n : nat) (file : string)
    (s : env L) :
  ∃ (k : nat) (s' : env L),
    log_file path root n file s = (Ok k, s')
    ∧ (k + length (stdout s') = n + length (stdout s) + 1)%nat
    ∧ (n ≤ k)%nat ∧ locals s' = locals s.
Proof.
  unfold log_file, try_except, mbind, M_bind, call, print, mret, M_ret.
  destruct (log_artifact _ _ (env_world s)) as [[[]|e] w]; simpl;
    eexists _, _; (split; [reflexivity|]); simpl;
    rewrite ?length_app; simpl; repeat split; lia.
Qed.

Lemma log_files_caught {L} (path root : string) (files : list string) :
  ∀ (n : nat) (s : env L),
    ∃ (k : nat) (s' : env L),
      log_files path root files n s = (Ok k, s')
      ∧ (k + length (stdout s') = n + length (stdout s) + length files)%nat
      ∧ (n ≤ k)%nat ∧ locals s' = locals s.
Proof.
  induction files as [|file files IH]; intros n s.
  { exists n, s. simpl. repeat split; try done; lia. }
  destruct (log_file_caught path root n file s)
    as (k1 & s1 & Hfile & Hk1 & Hn1 & Hl1).
  destruct (IH k1 s1) as (k & s' & Hfiles & Hk & Hn & Hl).
  exists k, s'. cbn [log_files]. rewrite (bind_ok _ _ _ _ _ Hfile), Hfiles.
  split; [done|]. split; [simpl; lia|]. split; [lia|congruence].
Qed.

(** X9.  The upload loop of the importer cannot fail, whatever the
    service does: it ends normally, and every file found below the
    artifact directory of the run is either counted as imported or
    reported with one line of output, never both and never neither. *)
Theorem every_file_counted_or_reported {L} (run_artifacts_path : string)
    (walked : list (string * list string)) (artifact_count : nat) (s : env L) :
  ∃ (k : nat) (s' : env L),
    log_tree run_artifacts_path walked artifact_count s = (Ok k, s')
    ∧ (k + length (stdout s')
       = artifact_count + length (stdout s) + length (concat walked.*2))%nat
    ∧ (artifact_count ≤ k)%nat ∧ locals s' = locals s.
Proof.
  revert artifact_count s.
  induction walked as [|[root files] walked IH]; intros n s.
  { exists n, s. simpl. repeat split; try done; lia. }
  destruct (log_files_caught run_artifacts_path root files n s)
    as (k1 & s1 & Hfiles & Hk1 & Hn1 & Hl1).
  destruct (IH k1 s1) as (k & s' & Htree & Hk & Hn & Hl).
  exists k, s'. cbn [log_tree]. rewrite (bind_ok _ _ _ _ _ Hfiles), Htree.
  split; [done|]. split; [|split; [lia|congruence]].
  rewrite fmap_cons. cbn [snd concat]. rewrite length_app. lia.
Qed.

Lemma log_file_ends {L} (path root : string) (n : nat) (file : string)
    (s : env L) :
  ∃ (k : nat) (s' : env L), log_file path root n file s = (Ok k, s').
Proof.
  destruct (log_file_caught path root n file s) as (k & s' & ? & _).
  by exists k, s'.
Qed.

Lemma log_tree_ends {L} (path : string) (walked : list (string * list string)) :
  ∀ (n : nat) (s : env L),
    ∃ (k : nat) (s' : env L), log_tree path walked n s = (Ok k, s').
Proof.
  induction walked as [|[root files] walked IH]; intros n s; [by exists n, s|].
  destruct (log_files_caught path root files n s) as (k1 & s1 & Hfiles & _).
  destruct (IH k1 s1) as (k & s' & Htree).
  exists k, s'. cbn [log_tree]. by rewrite (bind_ok _ _ _ _ _ Hfiles).
Qed.

(** X10.  No artifact can make the import of a run fail: for every
    service and every row the artifact block ends normally and leaves
    the lists of imported and failed runs as they are; without the
    option or without a directory it does nothing at all. *)
Theorem artifact_import_never_raises {L} (import_artifacts : bool)
    (artifacts_dir : option string) (run_data : row) (s : env L) :
  ∃ s' : env L,
    import_run_artifacts import_artifacts artifacts_dir run_data s = (Ok tt, s')
    ∧ locals s' = locals s
    ∧ (import_artifacts = false ∨ truthy artifacts_dir = None → s' = s).
Proof.
  unfold import_run_artifacts.
  destruct import_artifacts.
  2: { exists s. by repeat split. }
  destruct (truthy artifacts_dir) as [dir|].
  2: { exists s. by repeat split. }
  case_bool_decide.
  { exists s. by repeat split. }
  match goal with
  | |- context [path_join (path_join dir "artifacts") ?i] =>
      generalize (path_join (path_join dir "artifacts") i)
  end.
  intros path. unfold mbind at 1, M_bind at 1, ask at 1. cbn match.
  destruct (path_exists path (env_world s)).
  - unfold mbind at 1, M_bind at 1, print at 1. cbn match.
    unfold mbind at 1, M_bind at 1, ask at 1. cbn match.
    cbn [env_world].
    match goal with
    | |- context [(log_tree path ?walked 0%nat ≫= ?k) ?s0] =>
        destruct (log_tree_ends path walked 0%nat s0) as (k1 & s1 & Htree);
        pose proof (frames_log_tree path walked 0%nat s0) as Hframe;
        rewrite (bind_ok _ _ _ _ _ Htree)
    end.
    rewrite Htree in Hframe. eexists. split; [reflexivity|].
    split; [exact Hframe|]. by intros [|].
  - eexists. split; [reflexivity|]. split; [done|]. by intros [|].
Qed.

End ImportInvariants.

(** ** The early returns of the importer *)

Section EarlyReturns.
Context `{Builtins} `{Service}.
Variables (csv_path experiment_name : string) (artifacts_dir : option string)
  (import_artifacts : bool) (metadata_path tracking_uri : option string).

(** X11.  Without [create_experiment], an import into an experiment
    that the service does not know returns nothing right after the
    lookup: the world is the one that the lookup left, so that nothing
    was created, read, started or written, and one line is printed. *)
Theorem import_needs_experiment (s s1 : env import_locals) (w2 : world) :
  select_tracking_uri tracking_uri s = (Ok tt, s1) →
  get_experiment_by_name experiment_name (env_world s1) = (Ok None, w2) →
  import_runs csv_path experiment_name artifacts_dir import_artifacts false
    metadata_path tracking_uri s
  = (Ok None,
     Env w2
       (stdout s1
          ++ ["Error setting up experiment: Experiment '" +:+ experiment_name
                +:+ "' does not exist, you may want to specify --tracking-uri"])
       (locals s1)).
Proof.
  intros Hselect Hlookup. unfold import_runs.
  rewrite (bind_ok _ _ _ _ _ Hselect).
  unfold setup_experiment, try_except, mbind, M_bind, call.
  by rewrite Hlookup.
Qed.

(** X12.  With [create_experiment], the experiment is created before
    the table is read: when reading the table fails, the import returns
    nothing, and the world is the one in which the experiment was
    created and the read was attempted; no run is started and no summary
    is written. *)
Theorem unreadable_table_after_creation (s s1 : env import_locals)
    (w2 w3 w4 : world) (experiment_id : string) (e : exn) :
  select_tracking_uri tracking_uri s = (Ok tt, s1) →
  get_experiment_by_name experiment_name (env_world s1) = (Ok None, w2) →
  create_experiment experiment_name w2 = (Ok experiment_id, w3) →
  read_csv csv_path w3 = (Raise e, w4) →
  import_runs csv_path experiment_name artifacts_dir import_artifacts true
    metadata_path tracking_uri s
  = (Ok None,
     Env w4
       (stdout s1
          ++ ["Created new experiment: " +:+ experiment_name +:+ " (ID: "
                +:+ experiment_id +:+ ")"]
          ++ ["Error reading CSV file: " +:+ e])
       (locals s1)).
Proof.
  intros Hselect Hlookup Hcreate Hread. unfold import_runs.
  rewrite (bind_ok _ _ _ _ _ Hselect).
  unfold setup_experiment, load_rows, try_except, mbind, M_bind, call, print.
  rewrite Hlookup. cbn [env_world stdout locals]. rewrite Hcreate.
  cbn [env_world stdout locals mret M_ret]. rewrite Hread.
  cbn [env_world stdout locals]. by rewrite <- app_assoc.
Qed.

End EarlyReturns.

(** The service knows [demo] only. *)
Lemma import_needs_experiment_example :
  let s := import_env (import_server three_rows [] [] (λ _, false)) []
             no_locals in
  ∃ (s1 : @env Sim.service import_locals) (w2 : Sim.state),
    @select_tracking_uri Sim.service import_locals None s = (Ok tt, s1)
    ∧ @get_experiment_by_name Sim.service "other" (env_world s1) = (Ok None, w2)
    ∧ @import_runs Decimal.builtins Sim.service "out/demo_runs.csv" "other" None
        true false None None s
      = (Ok None,
         import_env w2
           (stdout s1
              ++ ["Error setting up experiment: Experiment '" +:+ "other"
                    +:+ "' does not exist, you may want to specify --tracking-uri"])
           (locals s1)).
Proof.
  cbv zeta. eexists _, _.
  split; [reflexivity|]. split; [reflexivity|].
  apply (@import_needs_experiment Decimal.builtins Sim.service
           "out/demo_runs.csv" "other" None true None None); reflexivity.
Defined.

Lemma unreadable_table_after_creation_example :
  let s := import_env (import_server three_rows [] [] unreadable) []
             no_locals in
  ∃ (s1 : @env Sim.service import_locals) (w2 w3 w4 : Sim.state),
    @select_tracking_uri Sim.service import_locals None s = (Ok tt, s1)
    ∧ @get_experiment_by_name Sim.service "other" (env_world s1) = (Ok None, w2)
    ∧ @create_experiment Sim.service "other" w2 = (Ok "created", w3)
    ∧ @read_csv Sim.service "out/demo_runs.csv" w3 = (Raise "service failure", w4)
    ∧ @import_runs Decimal.builtins Sim.service "out/demo_runs.csv" "other" None
        true true None None s
      = (Ok None,
         import_env w4
           (stdout s1
              ++ ["Created new experiment: " +:+ "other" +:+ " (ID: "
                    +:+ "created" +:+ ")"]
              ++ ["Error reading CSV file: " +:+ "service failure"])
           (locals s1)).
Proof.
  cbv zeta. eexists _, _, _, _.
  split; [reflexivity|]. split; [reflexivity|]. split; [reflexivity|].
  split; [reflexivity|].
  eapply (@unreadable_table_after_creation Decimal.builtins Sim.service
           "out/demo_runs.csv" "other" None true None None); reflexivity.
Defined.

(** ** The exporter, for every tracking service *)

Section ExportOutcomes.
Context `{Service}.

Lemma bind_raise {L A B} (m : M L A) (k : A → M L B) (s s' : env L) (e : exn) :
  m s = (Raise e, s') → (m ≫= k) s = (Raise e, s').
Proof. intros Hm. unfold mbind, M_bind. by rewrite Hm. Qed.

Lemma for_each_print {L X} (xs : list X) (line : X → string) (s : env L) :
  for_each xs (λ x, print (line x)) s
  = (Ok tt, Env (env_world s) (stdout s ++ (line <$> xs)) (locals s)).
Proof.
  revert s. induction xs as [|x xs IH]; intros s.
  { cbn [for_each]. rewrite fmap_nil, app_nil_r. by destruct s. }
  rewrite for_each_cons. unfold mbind, M_bind, print at 1.
  rewrite IH. simpl. by rewrite <- app_assoc.
Qed.

(** X13.  An experiment that is found neither by name nor by
    identifier is not exported: whatever makes the lookup by identifier
    raise, the tool prints that the experiment was not found, lists the
    experiments of the service, and ends normally in the world that the
    listing left; no page of runs is asked for, for no [fuel] at all,
    and nothing is written. *)
Theorem unknown_experiment_exports_nothing {L} (fuel : nat)
    (experiment_name : string) (output_dir : option string)
    (include_artifacts : bool) (tracking_uri : option string)
    (s s1 : env L) (w2 w3 w4 w5 : world) (e : exn)
    (experiments : list Experiment.t) :
  select_tracking_uri tracking_uri s = (Ok tt, s1) →
  makedirs (default (experiment_name +:+ "_runs_export") (truthy output_dir))
    (env_world s1) = (Ok tt, w2) →
  get_experiment_by_name experiment_name w2 = (Ok None, w3) →
  get_experiment experiment_name w3 = (Raise e, w4) →
  search_experiments w4 = (Ok experiments, w5) →
  export_runs_detailed fuel experiment_name output_dir include_artifacts
    tracking_uri s
  = (Ok (Some tt),
     Env w5
       (stdout s1
          ++ ["Experiment '" +:+ experiment_name
                +:+ "' not found as name or ID. You may want to specify --tracking-uri or check the experiment name."]
          ++ available experiments)
       (locals s1)).
Proof.
  intros Hselect Hdir Hname Hid Hlist. unfold export_runs_detailed.
  rewrite (bind_ok _ _ _ _ _ Hselect).
  unfold mbind at 1, M_bind at 1, call at 1. rewrite Hdir.
  unfold try_except at 1, find_experiment.
  unfold mbind at 1, M_bind at 1. unfold mbind at 1, M_bind at 1, call at 1.
  cbn [env_world stdout locals]. rewrite Hname.
  unfold try_except at 1. unfold mbind at 1, M_bind at 1, call at 1.
  cbn [env_world stdout locals]. rewrite Hid.
  unfold mbind at 1, M_bind at 1, print at 1.
  unfold mbind at 1, M_bind at 1, call at 1.
  cbn [env_world stdout locals]. rewrite Hlist.
  unfold mbind at 1, M_bind at 1.
  destruct experiments as [|exp experiments].
  { simpl. by rewrite ?app_nil_r. }
  unfold mbind at 1, M_bind at 1, print at 1.
  rewrite for_each_print. cbn [env_world stdout locals mret M_ret available].
  by rewrite <- !app_assoc.
Qed.

Lemma fetch_runs_breaks {L} (experiment_id : string) (pages : list (list Run))
    (w w' : world) (tok : option token) (e : exn) :
  breaks experiment_id w tok pages e w' →
  ∀ (fuel : nat) (detailed : list row) (metadata : Metadata) (total : nat)
    (out : list string) (l : L),
    (length pages < fuel)%nat →
    fetch_runs fuel experiment_id tok detailed metadata total (Env w out l)
    = (Raise e, Env w' (out ++ progress total pages) l).
Proof.
  induction 1 as [w tok e w' Hpage|w tok page next w' pages e w'' Hpage _ IH];
    intros fuel detailed metadata total out l Hfuel.
  - destruct fuel as [|fuel]; [simpl in Hfuel; lia|].
    cbn [fetch_runs]. unfold mbind, M_bind, call. cbn [env_world stdout locals].
    rewrite Hpage. cbn [progress]. by rewrite app_nil_r.
  - destruct fuel as [|fuel]; [simpl in Hfuel; lia|].
    cbn [fetch_runs]. unfold mbind, M_bind, call, print.
    cbn [env_world stdout locals]. rewrite Hpage. cbn [fst snd progress].
    destruct (encode_page page (detailed, metadata)) as [detailed' metadata'].
    fold (@fetch_runs H L).
    rewrite (IH fuel) by (simpl in Hfuel; lia).
    by rewrite <- app_assoc.
Qed.

(** X14.  An export is all or nothing: when a request for a page of runs
    raises, also after pages that were served, the tool prints the error
    and ends normally in the world that the failed request left, so that
    the runs already fetched are written nowhere. *)
Theorem failed_page_discards_export {L} (fuel : nat)
    (experiment_name : string) (output_dir : option string)
    (include_artifacts : bool) (tracking_uri : option string)
    (s s1 s2 : env L) (w2 w' : world) (experiment : Experiment.t)
    (pages : list (list Run)) (e : exn) :
  select_tracking_uri tracking_uri s = (Ok tt, s1) →
  makedirs (default (experiment_name +:+ "_runs_export") (truthy output_dir))
    (env_world s1) = (Ok tt, w2) →
  find_experiment experiment_name (Env w2 (stdout s1) (locals s1))
    = (Ok (Some experiment), s2) →
  breaks (Experiment.experiment_id experiment) (env_world s2) None pages e w' →
  (length pages < fuel)%nat →
  export_runs_detailed fuel experiment_name output_dir include_artifacts
    tracking_uri s
  = (Ok (Some tt),
     Env w'
       (stdout s2
          ++ ["Found experiment: " +:+ Experiment.name experiment +:+ " (ID: "
                +:+ Experiment.experiment_id experiment +:+ ")"]
          ++ progress 0 pages
          ++ ["Error exporting runs: " +:+ e])
       (locals s2)).
Proof.
  intros Hselect Hdir Hfind Hbreaks Hfuel. unfold export_runs_detailed.
  rewrite (bind_ok _ _ _ _ _ Hselect).
  unfold mbind at 1, M_bind at 1, call at 1. rewrite Hdir. cbv beta iota.
  unfold try_except at 1. rewrite (bind_ok _ _ _ _ _ Hfind).
  unfold mbind at 1, M_bind at 1, print at 1.
  destruct s2 as [w out2 l2]. cbn [env_world stdout locals] in *.
  rewrite (bind_raise _ _ _ _ _
             (fetch_runs_breaks _ pages w w' None e Hbreaks fuel [] empty_metadata
                0%nat _ l2 Hfuel)).
  unfold mbind, M_bind, print. cbn [env_world stdout locals mret M_ret].
  by rewrite <- !app_assoc.
Qed.

End ExportOutcomes.

Lemma unknown_experiment_exports_nothing_example :
  let s := sim_env (Sim.server (numbered_runs 3) 5 true) [] tt in
  ∃ (s1 : @env Sim.service unit) (w2 w3 w4 w5 : Sim.state),
    @select_tracking_uri Sim.service unit None s = (Ok tt, s1)
    ∧ @makedirs Sim.service
        (default ("other" +:+ "_runs_export") (truthy None)) (env_world s1)
      = (Ok tt, w2)
    ∧ @get_experiment_by_name Sim.service "other" w2 = (Ok None, w3)
    ∧ @get_experiment Sim.service "other" w3
      = (Raise "RESOURCE_DOES_NOT_EXIST", w4)
    ∧ @search_experiments Sim.service w4
      = (Ok [{| Experiment.name := "demo"; Experiment.experiment_id := "1" |}],
         w5)
    ∧ @export_runs_detailed Sim.service unit 0 "other" None true None s
      = (Ok (Some tt),
         sim_env w5
           (stdout s1
              ++ ["Experiment '" +:+ "other"
                    +:+ "' not found as name or ID. You may want to specify --tracking-uri or check the experiment name."]
              ++ available
                   [{| Experiment.name := "demo";
                       Experiment.experiment_id := "1" |}])
           (locals s1)).
Proof.
  cbv zeta. eexists _, _, _, _, _.
  split; [reflexivity|]. split; [reflexivity|]. split; [reflexivity|].
  split; [reflexivity|]. split; [reflexivity|].
  eapply (@unknown_experiment_exports_nothing Sim.service unit 0 "other" None
            true None); reflexivity.
Defined.

Lemma failed_page_discards_export_example :
  let s := sim_env (failing_server (numbered_runs 12) 5 true (fails_at 5)) []
             tt in
  ∃ (s1 s2 : @env Sim.service unit) (w2 w' : Sim.state),
    @select_tracking_uri Sim.service unit None s = (Ok tt, s1)
    ∧ @makedirs Sim.service
        (default ("demo" +:+ "_runs_export") (truthy None)) (env_world s1)
      = (Ok tt, w2)
    ∧ @find_experiment Sim.service unit "demo"
        (sim_env w2 (stdout s1) (locals s1))
      = (Ok (Some {| Experiment.name := "demo";
                     Experiment.experiment_id := "1" |}), s2)
    ∧ @breaks Sim.service "1" (env_world s2) None [take 5 (numbered_runs 12)]
        "service failure" w'
    ∧ (length [take 5 (numbered_runs 12)] < 13)%nat
    ∧ @export_runs_detailed Sim.service unit 13 "demo" None true None s
      = (Ok (Some tt),
         sim_env w'
           (stdout s2
              ++ ["Found experiment: " +:+ "demo" +:+ " (ID: " +:+ "1" +:+ ")"]
              ++ progress 0 [take 5 (numbered_runs 12)]
              ++ ["Error exporting runs: " +:+ "service failure"])
           (locals s2)).
Proof.
  cbv zeta. eexists _, _, _, _.
  split; [reflexivity|]. split; [reflexivity|]. split; [reflexivity|].
  assert (@breaks Sim.service "1"
            (Sim.record_request (Sim.GetExperimentByName "demo")
               (Sim.record_request (Sim.MakeDirs "demo_runs_export")
                  (failing_server (numbered_runs 12) 5 true (fails_at 5))))
            None [take 5 (numbered_runs 12)] "service failure"
            (Sim.record_request (Sim.SearchRuns 5000 (Some 5%nat))
               (Sim.record_request (Sim.SearchRuns 5000 None)
                  (Sim.record_request (Sim.GetExperimentByName "demo")
                     (Sim.record_request (Sim.MakeDirs "demo_runs_export")
                        (failing_server (numbered_runs 12) 5 true
                           (fails_at 5))))))) as Hbreaks.
  { eapply breaks_later; [reflexivity|]. apply breaks_now. reflexivity. }
  split; [exact Hbreaks|]. split; [simpl; lia|].
  eapply (@failed_page_discards_export Sim.service unit 13 "demo" None true
            None _ _ _ _ _
            {| Experiment.name := "demo"; Experiment.experiment_id := "1" |}
            [take 5 (numbered_runs 12)] "service failure");
    [reflexivity|reflexivity|reflexivity|exact Hbreaks|simpl; lia].
Defined.

(** ** The exporter on the reference service *)

Lemma status_of_encoded_row (status : string) (r : Run) (metadata : Metadata) :
  has_status status (encode_run r metadata).1
  = bool_decide (RunInfo.status (info r) = status).
Proof. unfold has_status. by rewrite encode_run_keeps. Qed.

(** The two counts of the summary are the numbers of exported runs with
    the status [FINISHED] and [FAILED]. *)
Lemma status_counts (status : string) (batch : list Run) :
  length (filter (λ run_data, has_status status run_data = true) (rows_of batch))
  = count_status status batch.
Proof.
  unfold rows_of, count_status.
  destruct (encode_page_rows batch ([], empty_metadata)) as (rows & -> & Hrows).
  simpl. induction Hrows as [|r run_data batch rows [m0 ->] _ IH]; [done|].
  rewrite !filter_cons, status_of_encoded_row.
  destruct (decide (RunInfo.status (info r) = status)) as [Heq|Hne].
  - rewrite bool_decide_eq_true_2 by done.
    rewrite decide_True by done. simpl. by rewrite IH.
  - rewrite bool_decide_eq_false_2 by done.
    rewrite decide_False by done. done.
Qed.

Lemma record_all_fields (rs : list Sim.request) (w : Sim.state) :
  record_all rs w
  = {| Sim.uri := Sim.uri w; Sim.experiment := Sim.experiment w;
       Sim.runs := Sim.runs w; Sim.page_cap := Sim.page_cap w;
       Sim.short_page_ends := Sim.short_page_ends w;
       Sim.started := Sim.started w; Sim.artifacts := Sim.artifacts w;
       Sim.existing := Sim.existing w; Sim.tree := Sim.tree w;
       Sim.table := Sim.table w; Sim.ledger := Sim.ledger w;
       Sim.faulty := Sim.faulty w; Sim.requests := Sim.requests w ++ rs |}.
Proof.
  revert w. induction rs as [|r rs IH]; intros w.
  { rewrite app_nil_r. by destruct w. }
  rewrite record_all_cons, IH. simpl. by rewrite <- app_assoc.
Qed.

Lemma search_under_faults (f : Sim.request → bool) (w : Sim.state)
    (max_results : Z) (tok : option nat) (ids : list string) :
  f (Sim.SearchRuns max_results tok) = false →
  @search_runs Sim.service ids max_results tok (with_faulty f w)
  = (Ok (Sim.page_of max_results tok w),
     with_faulty f (Sim.record_request (Sim.SearchRuns max_results tok) w)).
Proof.
  intros Hf. simpl. unfold Sim.serve. cbn [Sim.faulty Sim.record_request with_faulty].
  by rewrite Hf.
Qed.

(** Faults that spare the searches do not change the pages. *)
Lemma serves_under_faults (f : Sim.request → bool) (w w1 : Sim.state)
    (tok : option nat) (pages : list (list Run)) :
  (∀ tok, f (Sim.SearchRuns max_results_per_page tok) = false) →
  @serves Sim.service "1" (with_faulty (λ _, false) w) tok pages w1 →
  ∃ searches : list Sim.request,
    @serves Sim.service "1" (with_faulty f w) tok pages
      (with_faulty f (record_all searches w))
    ∧ Forall is_search searches ∧ length searches = length pages.
Proof.
  intros Hf Hserves. remember (with_faulty (λ _, false) w) as wc eqn:Hwc.
  revert w Hwc.
  induction Hserves as [wc tok page w' Hpage|wc tok page next w' pages w'' Hpage _ IH];
    intros w ->.
  - rewrite search_under_faults in Hpage by done.
    exists [Sim.SearchRuns max_results_per_page tok].
    split; [|split; [repeat constructor; by exists tok|done]].
    apply serves_last. rewrite search_under_faults by done.
    f_equal. congruence.
  - rewrite search_under_faults in Hpage by done.
    assert (Sim.page_of max_results_per_page tok w = (page, Some next)) as Hp
      by congruence.
    assert (w' = with_faulty (λ _, false)
                   (Sim.record_request
                      (Sim.SearchRuns max_results_per_page tok) w)) as ->
      by congruence.
    destruct (IH (Sim.record_request (Sim.SearchRuns max_results_per_page tok) w))
      as (searches & Hserves & Hsearches & Hlen); [done|].
    exists (Sim.SearchRuns max_results_per_page tok :: searches).
    split; [|split; [constructor; [by exists tok|done]|simpl; by rewrite Hlen]].
    eapply serves_more; [|exact Hserves].
    rewrite search_under_faults by done. by rewrite Hp.
Qed.

Lemma call_sim {A : Type} (r : Sim.request) (a : Sim.state → A)
    (w : Sim.state) (out : list string) :
  @call Sim.service unit A (Sim.serve r (λ w, (a w, w))) (sim_env w out tt)
  = (if Sim.faulty w r then Raise "service failure"
     else Ok (a (Sim.record_request r w)),
     sim_env (Sim.record_request r w) out tt).
Proof. unfold call. cbn [env_world stdout locals]. by rewrite sim_serve_const. Qed.

Lemma find_by_name (name : string) (w : Sim.state) (out : list string) :
  Sim.faulty w (Sim.GetExperimentByName name) = false →
  Experiment.name (Sim.experiment w) = name →
  @find_experiment Sim.service unit name (sim_env w out tt)
  = (Ok (Some (Sim.experiment w)),
     sim_env (record_all [Sim.GetExperimentByName name] w) out tt).
Proof.
  intros Hf Hname. unfold find_experiment. unfold mbind at 1, M_bind at 1.
  cbn [get_experiment_by_name Sim.service]. rewrite call_sim, Hf.
  cbn [Sim.experiment Sim.record_request]. by rewrite bool_decide_eq_true_2.
Qed.

Lemma find_by_id (name : string) (w : Sim.state) (out : list string) :
  Sim.faulty w (Sim.GetExperimentByName name) = false →
  Sim.faulty w (Sim.GetExperiment name) = false →
  Experiment.name (Sim.experiment w) ≠ name →
  Experiment.experiment_id (Sim.experiment w) = name →
  @find_experiment Sim.service unit name (sim_env w out tt)
  = (Ok (Some (Sim.experiment w)),
     sim_env
       (record_all [Sim.GetExperimentByName name; Sim.GetExperiment name] w)
       (out ++ ["Found experiment by ID: "
                  +:+ Experiment.name (Sim.experiment w)]) tt).
Proof.
  intros Hf1 Hf2 Hname Hid. unfold find_experiment.
  unfold mbind at 1, M_bind at 1.
  cbn [get_experiment_by_name Sim.service]. rewrite call_sim, Hf1.
  cbn [Sim.experiment Sim.record_request]. rewrite bool_decide_eq_false_2 by done.
  unfold try_except. unfold mbind at 1, M_bind at 1, call at 1.
  cbn [env_world stdout locals get_experiment Sim.service Sim.faulty
       Sim.record_request Sim.experiment].
  rewrite Hf2, bool_decide_eq_true_2 by done. done.
Qed.

Lemma download_run_artifacts_sim (run_id run_artifacts_dir : string)
    (w : Sim.state) (out : list string) :
  ∃ out' : list string,
    @download_run_artifacts Sim.service unit run_id run_artifacts_dir
      (sim_env w out tt)
    = (Ok tt,
       sim_env
         (record_all
            (until_faulty (Sim.faulty w)
               (mirror_requests run_id run_artifacts_dir w)) w)
         out' tt).
Proof.
  unfold download_run_artifacts, try_except, mirror_requests.
  unfold mbind at 1, M_bind at 1, call.
  cbn [env_world stdout locals list_artifacts Sim.service].
  rewrite sim_serve_const. cbn [existsb until_faulty].
  destruct (Sim.faulty w (Sim.ListArtifacts run_id)) eqn:Hlist; [by eexists|].
  cbn [orb Sim.artifacts Sim.record_request].
  rewrite (download_artifacts_sim run_id run_artifacts_dir (Sim.artifacts w)
             (Sim.faulty w)) by done.
  cbv zeta. rewrite record_all_cons.
  destruct (existsb _ _); by eexists.
Qed.

Lemma record_all_artifacts (rs : list Sim.request) (w : Sim.state) :
  Sim.artifacts (record_all rs w) = Sim.artifacts w.
Proof. by rewrite record_all_fields. Qed.

Lemma not_transfer (f : Sim.request → bool) (r : Sim.request) :
  (∀ r, f r = true → transfer r) → ¬ transfer r → f r = false.
Proof. intros Hf Hr. destruct (f r) eqn:E; [|done]. destruct Hr. by apply Hf. Qed.

Lemma export_run_artifacts_sim (artifacts_dir : string) (count i : nat)
    (r : Run) (m0 : Metadata) (w : Sim.state) (out : list string) :
  (∀ r, Sim.faulty w r = true → transfer r) →
  ∃ out' : list string,
    @export_run_artifacts Sim.service unit artifacts_dir count
      (i, (encode_run r m0).1) (sim_env w out tt)
    = (Ok tt,
       sim_env
         (record_all
            (run_mirror artifacts_dir (Sim.artifacts w) (Sim.faulty w) r) w)
         out' tt).
Proof.
  intros Hf. unfold export_run_artifacts, row_run_id. cbn [fst snd].
  rewrite encode_run_keeps by done.
  change (getitem "run_id" (system_cells (info r)))
    with (Some (CStr (RunInfo.run_id (info r)))).
  unfold mbind at 1, M_bind at 1, mret at 1, M_ret at 1.
  unfold mbind at 1, M_bind at 1, print at 1.
  unfold mbind at 1, M_bind at 1. cbn [makedirs Sim.service].
  rewrite call_sim, (not_transfer _ _ Hf) by (by intros []).
  destruct (download_run_artifacts_sim (RunInfo.run_id (info r))
              (path_join artifacts_dir (RunInfo.run_id (info r)))
              (Sim.record_request
                 (Sim.MakeDirs (path_join artifacts_dir (RunInfo.run_id (info r))))
                 w)
              (out ++ ["Downloading artifacts for run " +:+ pretty (i + 1)%nat
                         +:+ "/" +:+ pretty count +:+ ": "
                         +:+ RunInfo.run_id (info r)]))
    as (out' & Hrun).
  cbn [env_world stdout locals]. rewrite Hrun. exists out'.
  unfold run_mirror, mirror_requests. by rewrite record_all_cons.
Qed.

Lemma export_artifacts_sim (artifacts_dir : string) (count : nat)
    (batch : list Run) (entries : list (nat * row)) :
  Forall2 (λ r run_data, ∃ m0, run_data = (encode_run r m0).1) batch entries.*2 →
  ∀ (w : Sim.state) (out : list string),
    (∀ r, Sim.faulty w r = true → transfer r) →
    ∃ out' : list string,
      @for_each Sim.service unit _ entries
        (export_run_artifacts artifacts_dir count) (sim_env w out tt)
      = (Ok tt,
         sim_env
           (record_all
              (concat (run_mirror artifacts_dir (Sim.artifacts w) (Sim.faulty w)
                         <$> batch)) w)
           out' tt).
Proof.
  revert batch. induction entries as [|[i run_data] entries IH];
    intros batch Hrows w out Hf.
  { apply Forall2_nil_inv_r in Hrows as ->. by exists out. }
  rewrite fmap_cons in Hrows. cbn [snd] in Hrows.
  apply Forall2_cons_inv_r in Hrows as (r & batch' & [m0 ->] & Hrows & ->).
  destruct (export_run_artifacts_sim artifacts_dir count i r m0 w out Hf)
    as (out1 & Hrun).
  rewrite for_each_cons, (bind_ok _ _ _ _ _ Hrun).
  destruct (IH batch' Hrows
              (record_all
                 (run_mirror artifacts_dir (Sim.artifacts w) (Sim.faulty w) r) w)
              out1) as (out' & Hloop).
  { by rewrite record_all_faulty. }
  rewrite Hloop, record_all_artifacts, record_all_faulty. exists out'.
  rewrite fmap_cons. cbn [concat]. by rewrite record_all_app.
Qed.

Lemma enumerate_snd {X : Type} (l : list X) : (enumerate l).*2 = l.
Proof. unfold enumerate. apply snd_zip. by rewrite length_seq. Qed.

Lemma rows_of_encoded (batch : list Run) :
  Forall2 (λ r run_data, ∃ m0, run_data = (encode_run r m0).1) batch
    (rows_of batch).
Proof.
  unfold rows_of.
  by destruct (encode_page_rows batch ([], empty_metadata)) as (rows & -> & Hrows).
Qed.

Lemma record_all_uri (rs : list Sim.request) (w : Sim.state) :
  Sim.uri (record_all rs w) = Sim.uri w.
Proof. by rewrite record_all_fields. Qed.

Lemma write_bundle_sim (include_artifacts : bool) (dir : string)
    (batch : list Run) (w : Sim.state) (out : list string) :
  (∀ r, Sim.faulty w r = true → transfer r) →
  Sim.experiment w
    = {| Experiment.name := "demo"; Experiment.experiment_id := "1" |} →
  Sim.uri w = "http://localhost:5000" →
  ∃ out' : list string,
    @write_bundle Sim.service unit (Sim.experiment w) dir include_artifacts
      (rows_of batch) (export_ledger batch) (length batch) (sim_env w out tt)
    = (Ok tt,
       sim_env
         (record_all
            (bundle_data dir batch
               ++ artifact_stage include_artifacts dir (Sim.artifacts w)
                    (Sim.faulty w) batch
               ++ [bundle_summary dir batch]) w)
         out' tt).
Proof.
  intros Hf Hexp Huri. unfold write_bundle. rewrite Hexp.
  cbn [Experiment.name Experiment.experiment_id].
  unfold mbind at 1, M_bind at 1, print at 1.
  unfold mbind at 1, M_bind at 1. cbn [write_file Sim.service].
  rewrite call_sim, (not_transfer _ _ Hf) by (by intros []).
  unfold mbind at 1, M_bind at 1, print at 1.
  unfold mbind at 1, M_bind at 1. cbn [env_world stdout locals].
  rewrite call_sim. cbn [Sim.faulty Sim.record_request].
  rewrite (not_transfer _ _ Hf) by (by intros []).
  unfold mbind at 1, M_bind at 1, print at 1.
  cbn [env_world stdout locals].
  set (w2 := Sim.record_request _ (Sim.record_request _ w)).
  set (out2 := (_ ++ [_]) ++ [_]).
  assert (∃ out3 : list string,
            (if include_artifacts
             then call (makedirs (path_join dir "artifacts")) ;;
                  for_each (enumerate (rows_of batch))
                    (export_run_artifacts (path_join dir "artifacts")
                       (length (rows_of batch)))
             else mret tt) (sim_env w2 out2 tt)
            = (Ok tt,
               sim_env
                 (record_all
                    (artifact_stage include_artifacts dir (Sim.artifacts w)
                       (Sim.faulty w) batch) w2)
                 out3 tt)) as (out3 & Hstage).
  { unfold artifact_stage. destruct include_artifacts; [|by exists out2].
    unfold mbind at 1, M_bind at 1. cbn [makedirs Sim.service].
    rewrite call_sim. cbn [Sim.faulty Sim.record_request w2].
    rewrite (not_transfer _ _ Hf) by (by intros []).
    destruct (export_artifacts_sim (path_join dir "artifacts")
                (length (rows_of batch)) batch (enumerate (rows_of batch)))
      with (w := Sim.record_request (Sim.MakeDirs (path_join dir "artifacts")) w2)
           (out := out2) as (out3 & Hloop).
    { rewrite enumerate_snd. apply rows_of_encoded. }
    { done. }
    exists out3. rewrite Hloop. by rewrite record_all_cons. }
  rewrite (bind_ok _ _ _ _ _ Hstage).
  unfold mbind at 1, M_bind at 1, ask at 1.
  cbn [env_world stdout locals get_tracking_uri Sim.service].
  rewrite !status_counts.
  unfold mbind at 1, M_bind at 1.
  rewrite call_sim, record_all_faulty. cbn [Sim.faulty w2 Sim.record_request].
  rewrite (not_transfer _ _ Hf) by (by intros []).
  rewrite record_all_uri. cbn [Sim.uri w2 Sim.record_request]. rewrite Huri.
  eexists. unfold mbind, M_bind, print. cbn [env_world stdout locals].
  f_equal. f_equal. by rewrite !record_all_app.
Qed.

Lemma with_faulty_id (f : Sim.request → bool) (w : Sim.state) :
  Sim.faulty w = f → with_faulty f w = w.
Proof. intros <-. by destruct w. Qed.

(** X15.  The whole trace of an export from the reference service,
    found by its name or by its identifier, when only requests that
    list or fetch artifacts may fail: the output directory is made, the
    experiment is looked up, the pages are fetched, the table of all
    runs and the ledger are written, then, with [include_artifacts], the
    artifacts of every run are mirrored, each run up to its first
    failure, and the summary with the counts of the runs is written
    last; the tool ends normally. *)
Theorem export_trace (l : list Run) (cap : nat) (short : bool)
    (files : list FileInfo.t) (faulty : Sim.request → bool) (fuel : nat)
    (experiment_name : string) (output_dir : option string)
    (include_artifacts : bool) :
  (0 < cap)%nat →
  (length l + 1 ≤ fuel)%nat →
  experiment_name = "demo" ∨ experiment_name = "1" →
  (∀ r, faulty r = true → transfer r) →
  let dir := default (experiment_name +:+ "_runs_export") (truthy output_dir) in
  ∃ (searches : list Sim.request) (w' : Sim.state) (out' : list string),
    @export_runs_detailed Sim.service unit fuel experiment_name output_dir
      include_artifacts None
      (sim_env (mirror_server l cap short files faulty) [] tt)
    = (Ok (Some tt), sim_env w' out' tt)
    ∧ Forall is_search searches
    ∧ (length searches ≤ length l + 1)%nat
    ∧ Sim.requests w'
      = Sim.MakeDirs dir :: lookup_requests experiment_name ++ searches
          ++ bundle_data dir l
          ++ artifact_stage include_artifacts dir files faulty l
          ++ [bundle_summary dir l].
Proof.
  intros Hcap Hfuel Hname Hf dir.
  set (w0 := mirror_server l cap short files faulty).
  set (w1 := record_all (Sim.MakeDirs dir :: lookup_requests experiment_name) w0).
  assert (Sim.faulty w1 = faulty) as Hfaulty1
    by (unfold w1; by rewrite record_all_faulty).
  (* the pages *)
  destruct (sim_serves l cap short Hcap (length l)
              (with_faulty (λ _, false) w1) None) as
    (pages & wc & Hserves & Hconcat & _ & Hcount & _).
  { unfold w1. rewrite record_all_fields. by repeat split. }
  { simpl. lia. }
  destruct (serves_under_faults faulty w1 wc None pages) as
    (searches & Hpages & Hsearches & Hlen); [|done|].
  { intros tok. apply (not_transfer _ _ Hf). by intros []. }
  rewrite with_faulty_id in Hpages by done.
  rewrite with_faulty_id in Hpages by (by rewrite record_all_faulty).
  change (drop (default 0%nat None) l) with l in Hconcat.
  (* the lookup *)
  assert (∃ out1,
            @find_experiment Sim.service unit experiment_name
              (sim_env (Sim.record_request (Sim.MakeDirs dir) w0)
                 ["Using default MLflow tracking URI: " +:+ "http://localhost:5000"]
                 tt)
            = (Ok (Some {| Experiment.name := "demo";
                           Experiment.experiment_id := "1" |}),
               sim_env w1 out1 tt)) as (out1 & Hfind).
  { unfold w1, lookup_requests. rewrite record_all_cons.
    destruct Hname as [->| ->].
    - eexists. rewrite find_by_name; [reflexivity| |done].
      apply (not_transfer _ _ Hf). by intros [].
    - eexists. rewrite find_by_id; [reflexivity| | |done|done];
        apply (not_transfer _ _ Hf); by intros []. }
  (* the bundle *)
  destruct (write_bundle_sim include_artifacts dir l (record_all searches w1)
              ((out1 ++ ["Found experiment: " +:+ "demo" +:+ " (ID: " +:+ "1"
                           +:+ ")"])
                 ++ progress 0 pages)) as (out' & Hbundle).
  { by rewrite record_all_faulty, Hfaulty1. }
  { unfold w1. by rewrite !record_all_fields. }
  { unfold w1. by rewrite !record_all_fields. }
  exists searches. eexists _, out'.
  split; [|split; [done|split; [lia|]]].
  - unfold export_runs_detailed, select_tracking_uri. cbn [truthy].
    unfold mbind at 1, M_bind at 1. unfold mbind at 1, M_bind at 1, ask at 1.
    unfold print at 1. cbn [env_world stdout locals get_tracking_uri Sim.service].
    unfold mbind at 1, M_bind at 1. cbn [makedirs Sim.service].
    fold dir. rewrite call_sim. change (Sim.faulty w0) with faulty.
    rewrite (not_transfer _ (Sim.MakeDirs dir) Hf) by (by intros []).
    unfold try_except. cbn [Sim.uri mirror_server app].
    rewrite (bind_ok _ _ _ _ _ Hfind).
    unfold mbind at 1, M_bind at 1, print at 1. cbn [env_world stdout locals].
    cbn [Experiment.name Experiment.experiment_id].
    assert (length pages ≤ fuel)%nat as Hpfuel by lia.
    pose proof (@fetch_runs_serves Sim.service unit "1" pages w1 _ None Hpages
                  fuel [] empty_metadata 0%nat
                  (out1 ++ ["Found experiment: " +:+ "demo" +:+ " (ID: " +:+ "1"
                              +:+ ")"]) tt Hpfuel) as Hfetch.
    rewrite (bind_ok _ _ _ _ _ Hfetch).
    rewrite Hconcat. fold (rows_of l). fold (export_ledger l).
    change (0 + length l)%nat with (length l).
    assert (Sim.experiment (record_all searches w1)
            = {| Experiment.name := "demo"; Experiment.experiment_id := "1" |})
      as Hexp by (unfold w1; by rewrite !record_all_fields).
    rewrite <- Hexp at 1.
    rewrite (bind_ok _ _ _ _ _ Hbundle). reflexivity.
  - rewrite record_all_artifacts, record_all_faulty, Hfaulty1.
    unfold w1. rewrite record_all_artifacts, !record_all_requests.
    cbn [Sim.requests Sim.artifacts w0 mirror_server app].
    by rewrite <- !app_assoc.
Qed.

Lemma export_trace_example :
  let files :=
    [ {| FileInfo.path := "model.pkl"; FileInfo.is_dir := false |};
      {| FileInfo.path := "notes.txt"; FileInfo.is_dir := false |} ] in
  (0 < 2)%nat ∧ (length (numbered_runs 3) + 1 ≤ 4)%nat
  ∧ ("1" = "demo" ∨ "1" = "1")
  ∧ (∀ r, model_fails r = true → transfer r)
  ∧ ∃ (searches : list Sim.request) (w' : Sim.state) (out' : list string),
      @export_runs_detailed Sim.service unit 4 "1" None true None
        (sim_env (mirror_server (numbered_runs 3) 2 false files model_fails) []
           tt)
      = (Ok (Some tt), sim_env w' out' tt)
      ∧ Forall is_search searches
      ∧ (length searches ≤ length (numbered_runs 3) + 1)%nat
      ∧ Sim.requests w'
        = Sim.MakeDirs (default ("1" +:+ "_runs_export") (truthy None))
            :: lookup_requests "1" ++ searches
            ++ bundle_data (default ("1" +:+ "_runs_export") (truthy None))
                 (numbered_runs 3)
            ++ artifact_stage true
                 (default ("1" +:+ "_runs_export") (truthy None)) files
                 model_fails (numbered_runs 3)
            ++ [bundle_summary (default ("1" +:+ "_runs_export") (truthy None))
                  (numbered_runs 3)].
Proof.
  cbv zeta.
  assert (∀ r, model_fails r = true → transfer r) as Hf by (by intros []).
  split; [lia|]. split; [simpl; lia|]. split; [by right|]. split; [exact Hf|].
  apply export_trace; [lia|simpl; lia|by right|exact Hf].
Defined.

(** ** Clearing an experiment on a service that fails *)

Lemma delete_one_sim (run : Run) (w : Sim.state) (out : list string) :
  let request := Sim.DeleteRun (RunInfo.run_id (info run)) in
  @delete_one Sim.service unit run (sim_env w out tt)
  = if Sim.faulty w request
    then (Raise "service failure", sim_env (Sim.record_request request w) out tt)
    else (Ok tt,
          sim_env
            (Sim.with_runs
               (filter (λ r, RunInfo.run_id (info r) ≠ RunInfo.run_id (info run))
                       (Sim.runs w))
               (Sim.record_request request w))
            (out ++ ["Deleted run: " +:+ RunInfo.run_id (info run)]) tt).
Proof.
  cbv zeta. unfold delete_one, mbind, M_bind, call, print.
  cbn [env_world stdout locals delete_run Sim.service]. unfold Sim.serve.
  cbn [Sim.faulty Sim.record_request]. by destruct (Sim.faulty w _).
Qed.

(** The loop over the runs of the page: the runs are deleted in order
    up to the first request that fails, which raises. *)
Lemma delete_loop_sim (f : Sim.request → bool) (batch : list Run) :
  ∀ (w : Sim.state) (out : list string) (rest : list Run),
    Sim.faulty w = f →
    Sim.runs w = batch ++ rest →
    NoDup (run_ids (batch ++ rest)) →
    let attempted := until_faulty f (Sim.DeleteRun <$> run_ids batch) in
    ∃ (w' : Sim.state) (out' : list string),
      @for_each Sim.service unit Run batch delete_one (sim_env w out tt)
      = (if existsb f (Sim.DeleteRun <$> run_ids batch)
         then Raise "service failure" else Ok tt,
         sim_env w' out' tt)
      ∧ Sim.requests w' = Sim.requests w ++ attempted
      ∧ Sim.runs w'
        = drop (length (filter (λ r, f r = false) attempted)) (batch ++ rest)
      ∧ length out' = (length out
                       + length (filter (λ r, f r = false) attempted))%nat.
Proof.
  induction batch as [|run batch IH]; intros w out rest Hf Hruns Hnd; cbv zeta.
  { exists w, out. simpl. rewrite app_nil_r. repeat split; try done; lia. }
  simpl in Hnd. apply NoDup_cons in Hnd as [Hfresh Hnd].
  rewrite for_each_cons. unfold mbind, M_bind. rewrite delete_one_sim. cbv zeta.
  rewrite Hf. cbn [run_ids fmap list_fmap existsb until_faulty].
  fold (run_ids batch).
  destruct (f (Sim.DeleteRun (RunInfo.run_id (info run)))) eqn:Hrun.
  - eexists _, out. split; [reflexivity|]. cbn [orb]. repeat split.
    + rewrite filter_cons_False by (by rewrite Hrun). simpl. done.
    + rewrite filter_cons_False by (by rewrite Hrun). simpl. lia.
  - rewrite Hruns. simpl filter.
    rewrite filter_cons_False by (by intros Hne; apply Hne).
    rewrite (filter_other_ids _ _ Hfresh).
    destruct (IH (Sim.with_runs (batch ++ rest)
                    (Sim.record_request
                       (Sim.DeleteRun (RunInfo.run_id (info run))) w))
                (out ++ ["Deleted run: " +:+ RunInfo.run_id (info run)]) rest)
      as (w' & out' & Hloop & Hreqs & Hrest & Hout); [done|done|exact Hnd|].
    exists w', out'. rewrite Hloop. cbn [orb]. split; [done|].
    rewrite filter_cons_True by done. split; [|split].
    + rewrite Hreqs. simpl. by rewrite <- app_assoc.
    + by rewrite Hrest.
    + rewrite Hout, length_app. simpl. lia.
Qed.

(** X16.  Clearing stops at the first deletion that fails: on the
    reference service, when the lookup and the search succeed, the runs
    of the page are deleted in order up to the first failing request,
    every later run is left in place without a request for it, no total
    is printed, and the tool still ends normally. *)
Theorem delete_stops_at_first_failure (l : list Run) (cap : nat) (short : bool)
    (faulty : Sim.request → bool) :
  (search_limit ≤ cap)%nat →
  NoDup (run_ids l) →
  faulty (Sim.GetExperimentByName "demo") = false →
  faulty (Sim.SearchRuns 50000 None) = false →
  let attempted :=
    until_faulty faulty (Sim.DeleteRun <$> run_ids (take search_limit l)) in
  let deleted := length (filter (λ r, faulty r = false) attempted) in
  ∃ (w' : Sim.state) (out' : list string),
    @delete_all_runs_in_experiment Sim.service unit "demo" None
      (sim_env (failing_server l cap short faulty) [] tt)
    = (Ok tt, sim_env w' out' tt)
    ∧ Sim.requests w'
      = [Sim.GetExperimentByName "demo"; Sim.SearchRuns 50000 None] ++ attempted
    ∧ Sim.runs w' = drop deleted l
    ∧ last out'
      = Some (if existsb faulty (Sim.DeleteRun <$> run_ids (take search_limit l))
              then "Error deleting runs: service failure"
              else "Deleted " +:+ pretty (length (take search_limit l))
                     +:+ " runs in experiment: demo").
Proof.
  intros Hcap Hnd Hlookup Hsearch. cbv zeta.
  unfold delete_all_runs_in_experiment, select_tracking_uri. cbn [truthy].
  unfold mbind at 1, M_bind at 1. unfold mbind at 1, M_bind at 1, ask at 1.
  unfold print at 1. cbn [env_world stdout locals get_tracking_uri Sim.service].
  unfold try_except. unfold mbind at 1, M_bind at 1.
  cbn [get_experiment_by_name Sim.service]. rewrite call_sim.
  cbn [Sim.faulty failing_server]. rewrite Hlookup.
  cbn [Sim.experiment Sim.record_request failing_server Experiment.name].
  rewrite bool_decide_eq_true_2 by done.
  unfold mbind at 1, M_bind at 1. cbn [search_runs Sim.service Experiment.experiment_id].
  rewrite call_sim. cbn [Sim.faulty Sim.record_request failing_server].
  change (@None (@token Sim.service)) with (@None nat).
  rewrite Hsearch.
  unfold Sim.page_of.
  cbn [Sim.runs Sim.page_cap Sim.short_page_ends Sim.record_request default fst
       failing_server].
  replace (Z.to_nat 50000 `min` cap)%nat with search_limit
    by (unfold search_limit in *; lia).
  change (drop 0 l) with l.
  destruct (delete_loop_sim faulty (take search_limit l)
              (Sim.record_request (Sim.SearchRuns 50000 None)
                 (Sim.record_request (Sim.GetExperimentByName "demo")
                    (failing_server l cap short faulty)))
              ([] ++ ["Using default MLflow tracking URI: " +:+
                      "http://localhost:5000"])
              (drop search_limit l))
    as (w' & out' & Hloop & Hreqs & Hrest & Hout).
  { done. }
  { cbn [Sim.runs Sim.record_request]. by rewrite take_drop. }
  { by rewrite take_drop. }
  cbv zeta in Hloop, Hreqs, Hrest, Hout. rewrite take_drop in Hrest.
  cbn [Sim.uri failing_server].
  unfold mbind at 1, M_bind at 1.
  match goal with
  | |- context [@for_each Sim.service unit Run ?xs ?body ?s] =>
      change (@for_each Sim.service unit Run xs body s)
        with (@for_each Sim.service unit Run (take search_limit l) delete_one
                (sim_env
                   (Sim.record_request (Sim.SearchRuns 50000 None)
                      (Sim.record_request (Sim.GetExperimentByName "demo")
                         (failing_server l cap short faulty)))
                   ([] ++ ["Using default MLflow tracking URI: " +:+
                           "http://localhost:5000"]) tt))
  end.
  rewrite Hloop.
  destruct (existsb faulty _).
  - eexists w', _. split; [reflexivity|]. split; [by rewrite Hreqs|].
    split; [done|]. unfold print. cbn [stdout]. by rewrite last_snoc.
  - eexists w', _. split; [reflexivity|]. split; [by rewrite Hreqs|].
    split; [done|]. unfold print. cbn [stdout]. by rewrite last_snoc.
Qed.

Lemma delete_stops_at_first_failure_example :
  (search_limit ≤ search_limit)%nat ∧ NoDup (run_ids (numbered_runs 3))
  ∧ keeps_run1 (Sim.GetExperimentByName "demo") = false
  ∧ keeps_run1 (Sim.SearchRuns 50000 None) = false
  ∧ ∃ (w' : Sim.state) (out' : list string),
      @delete_all_runs_in_experiment Sim.service unit "demo" None
        (sim_env (failing_server (numbered_runs 3) search_limit false keeps_run1)
           [] tt)
      = (Ok tt, sim_env w' out' tt)
      ∧ Sim.requests w'
        = [Sim.GetExperimentByName "demo"; Sim.SearchRuns 50000 None]
          ++ until_faulty keeps_run1
               (Sim.DeleteRun <$> run_ids (take search_limit (numbered_runs 3)))
      ∧ Sim.runs w'
        = drop (length
                  (filter (λ r, keeps_run1 r = false)
                     (until_faulty keeps_run1
                        (Sim.DeleteRun
                           <$> run_ids (take search_limit (numbered_runs 3))))))
            (numbered_runs 3)
      ∧ last out'
        = Some (if existsb keeps_run1
                     (Sim.DeleteRun
                        <$> run_ids (take search_limit (numbered_runs 3)))
                then "Error deleting runs: service failure"
                else "Deleted "
                       +:+ pretty (length (take search_limit (numbered_runs 3)))
                       +:+ " runs in experiment: demo").
Proof.
  assert (NoDup (run_ids (numbered_runs 3))) as Hnd
    by exact (bool_decide_unpack (NoDup (run_ids (numbered_runs 3))) I).
  exact (conj (le_n search_limit) (conj Hnd (conj eq_refl (conj eq_refl
           (delete_stops_at_first_failure (numbered_runs 3) search_limit false
              keeps_run1 (le_n search_limit) Hnd eq_refl eq_refl))))).
Defined.

(** The second of three runs cannot be deleted: the first one is
    deleted, the second and the third stay. *)
Example second_delete_fails :
  let result :=
    @delete_all_runs_in_experiment Sim.service unit "demo" None
      (sim_env (failing_server (numbered_runs 3) 5000 false keeps_run1) [] tt) in
  result.1 = Ok tt
  ∧ Sim.requests (env_world result.2)
    = [Sim.GetExperimentByName "demo"; Sim.SearchRuns 50000 None;
       Sim.DeleteRun "run0"; Sim.DeleteRun "run1"]
  ∧ run_ids (Sim.runs (env_world result.2)) = ["run1"; "run2"]
  ∧ stdout result.2
    = ["Using default MLflow tracking URI: http://localhost:5000";
       "Deleted run: run0"; "Error deleting runs: service failure"].
Proof. vm_compute. done. Qed.

(** ** The experiment tools *)

(** X17.  [restore_exp.py] picks, for a name, the first experiment of
    the listing that has this name and is deleted: active experiments of
    the name and deleted ones of other names before it are passed over,
    and nothing is picked exactly when the listing has no deleted
    experiment of the name. *)
Theorem first_deleted_match (all_experiments : list StoredExperiment.t)
    (experiment_name : string) :
  match find_deleted all_experiments experiment_name with
  | Some e =>
      ∃ before after,
        all_experiments = before ++ e :: after
        ∧ deleted_as experiment_name e
        ∧ Forall (λ e', ¬ deleted_as experiment_name e') before
  | None => Forall (λ e', ¬ deleted_as experiment_name e') all_experiments
  end.
Proof.
  unfold find_deleted. fold (deleted_as experiment_name).
  induction all_experiments as [|e all IH]; [by constructor|].
  rewrite filter_cons. destruct (decide (deleted_as experiment_name e)) as [He|He].
  - simpl. exists [], all. split; [done|]. split; [done|constructor].
  - destruct (head (filter (deleted_as experiment_name) all)) as [e1|].
    + destruct IH as (before & after & -> & He1 & Hbefore).
      exists (e :: before), after. split; [done|]. split; [done|].
      by constructor.
    + by constructor.
Qed.

Lemma reg_call {A : Type} (r : Reg.request) (a : Reg.state → A * Reg.state)
    (w : Reg.state) (out : list string) :
  @call Reg.service unit A (Reg.serve r a) (reg_env w out tt)
  = (if Reg.faulty w r then Raise "registry failure"
     else Ok (a (Reg.record_request r w)).1,
     reg_env (if Reg.faulty w r then Reg.record_request r w
              else (a (Reg.record_request r w)).2) out tt).
Proof.
  unfold call, Reg.serve. cbn [env_world stdout locals Reg.faulty Reg.record_request].
  destruct (Reg.faulty w r); [done|]. by destruct (a _).
Qed.

Lemma restore_loop (all_experiments : list StoredExperiment.t)
    (f : Reg.request → bool) (experiment_names : list string) :
  ∀ (w : Reg.state) (out : list string),
    Reg.faulty w = f →
    let targets := restore_targets all_experiments experiment_names in
    let attempted := up_to_failure (λ i, f (Reg.Restore i)) targets in
    ∃ (w' : Reg.state) (out' : list string),
      @for_each Reg.service unit _ experiment_names
        (@restore_one Reg.service Reg.registry unit all_experiments)
        (reg_env w out tt)
      = (if existsb (λ i, f (Reg.Restore i)) targets
         then Raise "registry failure" else Ok tt,
         reg_env w' out' tt)
      ∧ Reg.requests w' = Reg.requests w ++ (Reg.Restore <$> attempted)
      ∧ Reg.stored w'
        = restore_all (filter (λ i, f (Reg.Restore i) = false) attempted)
            (Reg.stored w)
      ∧ Reg.base w' = Reg.base w.
Proof.
  induction experiment_names as [|name names IH]; intros w out Hf; cbv zeta.
  { exists w, out. simpl. by rewrite app_nil_r. }
  rewrite for_each_cons. unfold restore_targets. cbn [omap list_omap].
  fold (restore_targets all_experiments names).
  unfold mbind at 1, M_bind at 1. unfold restore_one at 1.
  destruct (find_deleted all_experiments name) as [e|]; cbn [fmap option_fmap option_map].
  - unfold mbind at 1, M_bind at 1.
    change (@restore_experiment Reg.service Reg.registry
              (StoredExperiment.experiment_id e))
      with (Reg.serve (Reg.Restore (StoredExperiment.experiment_id e))
              (λ w, (tt, Reg.with_stored
                           (Reg.set_stage (StoredExperiment.experiment_id e)
                              "active" <$> Reg.stored w) w))).
    rewrite reg_call, Hf. cbn [existsb up_to_failure].
    destruct (f (Reg.Restore (StoredExperiment.experiment_id e))) eqn:He.
    + eexists _, out. split; [reflexivity|]. cbn [orb fmap list_fmap].
      rewrite filter_cons_False by (by rewrite He). by repeat split.
    + cbn [fst snd orb]. unfold print at 1. cbn [env_world stdout locals].
      match goal with
      | |- context [for_each names _ (reg_env ?w1 ?out1 tt)] =>
          destruct (IH w1 out1) as (w' & out' & Hloop & Hreqs & Hstored & Hbase)
      end; [done|].
      exists w', out'. rewrite Hloop. split; [done|].
      rewrite filter_cons_True by done. split; [|split; [|done]].
      * rewrite Hreqs. simpl. by rewrite <- app_assoc.
      * by rewrite Hstored.
  - unfold print at 1. cbn [env_world stdout locals].
    match goal with
    | |- context [for_each names _ (reg_env ?w1 ?out1 tt)] =>
        destruct (IH w1 out1) as (w' & out' & Hloop & Hreqs & Hstored & Hbase)
    end; [done|].
    exists w', out'. by rewrite Hloop.
Qed.

(** X18.  [restore_exp.py] lists the experiments once and works from
    that listing: on the reference registry its requests are the search
    followed, for the names in order, by one request to restore the
    first deleted experiment of each name that has one, up to the first
    request that fails; names after a failure are not processed, the
    reference service itself receives no request, and the tool ends
    normally.  A name that is given twice is asked to be restored
    twice. *)
Theorem restore_trace (l : list StoredExperiment.t) (faulty : Reg.request → bool)
    (experiment_names : list string) :
  let targets := restore_targets l experiment_names in
  let attempted :=
    if faulty Reg.SearchAll then []
    else up_to_failure (λ i, faulty (Reg.Restore i)) targets in
  ∃ (w' : Reg.state) (out' : list string),
    @restore_experiments Reg.service Reg.registry unit experiment_names None
      (reg_env (Reg.server l faulty) [] tt)
    = (Ok tt, reg_env w' out' tt)
    ∧ Reg.requests w' = Reg.SearchAll :: (Reg.Restore <$> attempted)
    ∧ Reg.stored w'
      = restore_all (filter (λ i, faulty (Reg.Restore i) = false) attempted) l
    ∧ Sim.requests (Reg.base w') = [].
Proof.
  cbv zeta. unfold restore_experiments, select_tracking_uri. cbn [truthy].
  unfold mbind at 1, M_bind at 1. unfold mbind at 1, M_bind at 1, ask at 1.
  unfold print at 1. cbn [env_world stdout locals].
  unfold try_except. unfold mbind at 1, M_bind at 1.
  change (@search_all_experiments Reg.service Reg.registry)
    with (Reg.serve Reg.SearchAll (λ w, (Reg.stored w, w))).
  rewrite reg_call. cbn [Reg.faulty Reg.server].
  destruct (faulty Reg.SearchAll) eqn:Hsearch.
  { eexists _, _. split; [reflexivity|]. by repeat split. }
  cbn [fst snd Reg.stored Reg.record_request Reg.server].
  match goal with
  | |- context [for_each _ _ (reg_env ?w1 ?out1 tt)] =>
      destruct (restore_loop l faulty experiment_names w1 out1)
        as (w' & out' & Hloop & Hreqs & Hstored & Hbase)
  end; [done|].
  cbv zeta in Hloop. rewrite Hloop.
  destruct (existsb _ _); eexists w', _; (split; [reflexivity|]);
    by rewrite Hreqs, Hstored, Hbase.
Qed.

(** Two deleted experiments and an active one; the names [a], [a], [c]
    and [b] are to be restored, and no request fails: [a] is asked to be
    restored twice, [c] is not deleted, and [b] is restored. *)
Example a_name_given_twice :
  let l :=
    [ {| StoredExperiment.name := "a"; StoredExperiment.experiment_id := "1";
         StoredExperiment.lifecycle_stage := "deleted" |};
      {| StoredExperiment.name := "b"; StoredExperiment.experiment_id := "2";
         StoredExperiment.lifecycle_stage := "deleted" |};
      {| StoredExperiment.name := "c"; StoredExperiment.experiment_id := "3";
         StoredExperiment.lifecycle_stage := "active" |} ] in
  let result :=
    @restore_experiments Reg.service Reg.registry unit ["a"; "a"; "c"; "b"] None
      (reg_env (Reg.server l (λ _, false)) [] tt) in
  Reg.requests (env_world result.2)
  = [Reg.SearchAll; Reg.Restore "1"; Reg.Restore "1"; Reg.Restore "2"]
  ∧ stdout result.2
    = ["Using default MLflow tracking URI: http://localhost:5000";
       "Experiment 'a' restored successfully.";
       "Experiment 'a' restored successfully.";
       "Deleted experiment 'c' not found.";
       "Experiment 'b' restored successfully."].
Proof. vm_compute. done. Qed.

(** X19.  [delete_exp.py] asks for at most one deletion: on the
    reference registry it looks the name up once and, when the name is
    known, asks to delete the experiment of that name and no other;
    for an unknown name the registry receives no request and keeps its
    experiments; whether or not the deletion fails, the tool ends
    normally. *)
Theorem delete_experiment_trace (l : list StoredExperiment.t)
    (faulty : Reg.request → bool) (experiment_name : string) :
  ∃ (w' : Reg.state) (out' : list string),
    @delete_mlflow_experiment Reg.service Reg.registry unit experiment_name None
      (reg_env (Reg.server l faulty) [] tt)
    = (Ok tt, reg_env w' out' tt)
    ∧ Sim.requests (Reg.base w') = [Sim.GetExperimentByName experiment_name]
    ∧ Reg.requests w'
      = (if bool_decide (experiment_name = "demo") then [Reg.Delete "1"] else [])
    ∧ Reg.stored w'
      = (if bool_decide (experiment_name = "demo")
            && negb (faulty (Reg.Delete "1"))
         then Reg.set_stage "1" "deleted" <$> l else l).
Proof.
  unfold delete_mlflow_experiment, select_tracking_uri. cbn [truthy].
  unfold mbind at 1, M_bind at 1. unfold mbind at 1, M_bind at 1, ask at 1.
  unfold print at 1. cbn [env_world stdout locals].
  unfold try_except. unfold mbind at 1, M_bind at 1, call at 1.
  cbn [env_world stdout locals get_experiment_by_name Reg.service Reg.on_base
       Reg.base Reg.server].
  unfold Reg.on_base. cbn [Reg.base Reg.server].
  cbn [get_experiment_by_name Sim.service].
  rewrite (sim_serve_const (Sim.GetExperimentByName experiment_name)
             (λ w, if bool_decide (Experiment.name (Sim.experiment w)
                                   = experiment_name)
                   then Some (Sim.experiment w) else None)).
  cbn [Sim.faulty Sim.server Sim.experiment Sim.record_request Experiment.name].
  case_bool_decide as Hname.
  - rewrite bool_decide_eq_true_2 by done. cbn [Experiment.experiment_id].
    unfold mbind at 1, M_bind at 1.
    change (@delete_experiment Reg.service Reg.registry "1")
      with (Reg.serve (Reg.Delete "1")
              (λ w, (tt, Reg.with_stored
                           (Reg.set_stage "1" "deleted" <$> Reg.stored w) w))).
    rewrite reg_call. cbn [Reg.faulty Reg.with_base Reg.server].
    destruct (faulty (Reg.Delete "1")); cbn [fst snd andb negb];
      eexists _, _; (split; [reflexivity|]); by repeat split.
  - rewrite bool_decide_eq_false_2 by done.
    eexists _, _. split; [reflexivity|]. by repeat split.
Qed.

(** ** One row on a healthy service *)

Section RowTrace.
Context `{Builtins}.

Lemma import_call {A : Type} (r : Sim.request) (a : Sim.state → A)
    (w : Sim.state) (out : list string) (l : import_locals) :
  (∀ r, Sim.faulty w r = false) →
  @call Sim.service import_locals A (Sim.serve r (λ w, (a w, w)))
    (import_env w out l)
  = (Ok (a (Sim.record_request r w)), import_env (Sim.record_request r w) out l).
Proof.
  intros Hf. unfold call. cbn [env_world stdout locals].
  by rewrite sim_serve_const, Hf.
Qed.

Lemma log_run_data_sim (d : decoded) (w : Sim.state) (out : list string)
    (l : import_locals) :
  (∀ r, Sim.faulty w r = false) →
  ∃ out' : list string,
    @log_run_data Sim.service import_locals d (import_env w out l)
    = (Ok tt, import_env (record_all (group_requests d) w) out' l).
Proof.
  intros Hf. unfold log_run_data, group_requests.
  repeat case_bool_decide;
    unfold mbind, M_bind, mret, M_ret, print, call, record_all;
    cbn [env_world stdout locals log_params log_metrics set_tags Sim.service
         app foldl];
    unfold Sim.serve;
    repeat (progress (cbn [env_world stdout locals Sim.faulty Sim.record_request];
                      rewrite ?Hf));
    by eexists.
Qed.

Lemma length_new_run_ids (k n : nat) : length (new_run_ids k n) = n.
Proof. unfold new_run_ids. by rewrite length_fmap, length_seq. Qed.

Lemma import_row_sim (experiment_id : string) (artifacts_dir : option string)
    (metadata : Metadata) (count index : nat) (run_data : row)
    (w : Sim.state) (out : list string) (l : import_locals) :
  (∀ r, Sim.faulty w r = false) →
  ∃ out' : list string,
    @import_row _ Sim.service experiment_id artifacts_dir false metadata count
      index run_data (import_env w out l)
    = (Ok tt,
       import_env
         (Sim.with_started (S (Sim.started w))
            (record_all (row_requests experiment_id metadata run_data) w))
         out' (append_imported ("run-" +:+ pretty (Sim.started w)) l)).
Proof.
  intros Hf. unfold import_row.
  unfold mbind at 1, M_bind at 1, print at 1.
  unfold mbind at 1, M_bind at 1. rewrite for_each_print, list_fmap_id.
  cbn [env_world stdout locals].
  unfold with_run. unfold mbind at 1, M_bind at 1. cbn [start_run Sim.service].
  unfold call at 1. cbn [env_world stdout locals]. unfold Sim.serve.
  cbn [Sim.faulty Sim.record_request]. rewrite Hf.
  cbn [Sim.started Sim.record_request].
  set (w1 := Sim.with_started _ _).
  assert (∀ r, Sim.faulty w1 r = false) as Hf1 by done.
  unfold leave_run.
  match goal with
  | |- context [log_run_data ?d] =>
      destruct (log_run_data_sim d w1
                  ((out ++ ["Importing run " +:+ pretty (index + 1)%nat +:+ "/"
                              +:+ pretty count])
                     ++ printed d) l Hf1)
        as (out2 & Hlog)
  end.
  rewrite (bind_ok _ _ _ _ _ Hlog).
  unfold import_run_artifacts. cbn match.
  unfold mbind at 1, M_bind at 1, mret at 1, M_ret at 1.
  unfold mbind at 1, M_bind at 1, modify_locals at 1.
  unfold print at 1. cbn [env_world stdout locals].
  unfold mbind at 1, M_bind at 1. cbn [end_run Sim.service].
  rewrite import_call by (intros; by rewrite record_all_faulty).
  eexists. unfold mret, M_ret. f_equal. f_equal.
  unfold row_requests, w1. rewrite !record_all_app, !record_all_fields.
  cbn [Sim.uri Sim.experiment Sim.runs Sim.page_cap Sim.short_page_ends
       Sim.started Sim.artifacts Sim.existing Sim.tree Sim.table Sim.ledger
       Sim.faulty Sim.requests Sim.record_request Sim.with_started].
  reflexivity.
Qed.

Lemma import_loop_sim (experiment_id : string) (artifacts_dir : option string)
    (metadata : Metadata) (count : nat) (entries : list (nat * row)) :
  ∀ (w : Sim.state) (out : list string) (l : import_locals),
    (∀ r, Sim.faulty w r = false) →
    ∃ out' : list string,
      for_each entries
        (@import_step _ Sim.service experiment_id artifacts_dir false metadata
           count)
        (import_env w out l)
      = (Ok tt,
         import_env
           (Sim.with_started (Sim.started w + length entries)
              (record_all
                 (concat (row_requests experiment_id metadata <$> entries.*2)) w))
           out'
           {| imported_runs :=
                imported_runs l ++ new_run_ids (Sim.started w) (length entries);
              failed_runs := failed_runs l |}).
Proof.
  induction entries as [|[i run_data] entries IH]; intros w out l Hf.
  { exists out. cbn [for_each length fmap list_fmap concat record_all foldl].
    unfold new_run_ids. cbn [seq fmap list_fmap]. rewrite app_nil_r, Nat.add_0_r.
    unfold mret, M_ret. f_equal. f_equal; [by destruct w|by destruct l]. }
  rewrite for_each_cons.
  destruct (import_row_sim experiment_id artifacts_dir metadata count i run_data
              w out l Hf) as (out1 & Hrow).
  unfold mbind at 1, M_bind at 1. unfold import_step at 1, try_except.
  cbn [fst snd]. rewrite Hrow.
  match goal with
  | |- context [for_each entries _ (import_env ?w1 ?o1 ?l1)] =>
      destruct (IH w1 o1 l1) as (out' & Hloop)
  end.
  { intros r. cbn [Sim.faulty Sim.with_started]. by rewrite record_all_faulty. }
  rewrite Hloop. exists out'. f_equal. f_equal.
  - rewrite fmap_cons. cbn [fst snd fmap list_fmap concat length].
    rewrite record_all_app, !record_all_fields.
    cbn [Sim.uri Sim.experiment Sim.runs Sim.page_cap Sim.short_page_ends
         Sim.started Sim.artifacts Sim.existing Sim.tree Sim.table Sim.ledger
         Sim.faulty Sim.requests Sim.record_request Sim.with_started].
    unfold Sim.with_started.
    cbn [Sim.uri Sim.experiment Sim.runs Sim.page_cap Sim.short_page_ends
         Sim.started Sim.artifacts Sim.existing Sim.tree Sim.table Sim.ledger
         Sim.faulty Sim.requests].
    f_equal; first [lia | by rewrite <- !app_assoc].
  - unfold append_imported, new_run_ids.
    cbn [imported_runs failed_runs Sim.started Sim.with_started length seq
         fmap list_fmap].
    by rewrite <- app_assoc.
Qed.

(** X20.  The whole trace of an import of a table into the existing
    experiment of the reference service, without artifacts and without a
    ledger, when no request fails: the experiment is looked up and not
    created again, the table is read, and every row, in order, becomes a
    run of its own that is started, receives the non-empty groups of the
    decoded row, parameters, then metrics, then tags, and is ended as
    [FINISHED]; the summary counts every row as imported and is written
    next to the table.  Nothing of the system columns is sent: the runs
    get new identifiers, and whatever their [status] column says, they
    are finished. *)
Theorem import_trace (rows : list row) (csv_path : string)
    (artifacts_dir : option string) (create_experiment_flag : bool)
    (l0 : import_locals) :
  ∃ (w' : Sim.state) (out' : list string),
    @import_runs _ Sim.service csv_path "demo" artifacts_dir false
      create_experiment_flag None None
      (import_env (import_server rows [] [] (λ _, false)) [] l0)
    = (Ok (Some (clean_summary (length rows))),
       import_env w' out'
         {| imported_runs := new_run_ids 0 (length rows); failed_runs := [] |})
    ∧ Sim.requests w'
      = [Sim.GetExperimentByName "demo"; Sim.ReadCsv csv_path]
          ++ concat (row_requests "1" empty_metadata <$> rows)
          ++ [Sim.WriteFile
                (path_join (dirname csv_path) "import_summary.json")
                (ImportReport (clean_summary (length rows)))].
Proof.
  unfold import_runs, select_tracking_uri. cbn [truthy].
  unfold mbind at 1, M_bind at 1. unfold mbind at 1, M_bind at 1, ask at 1.
  unfold print at 1. cbn [env_world stdout locals].
  unfold mbind at 1, M_bind at 1. unfold setup_experiment, try_except.
  unfold mbind at 1, M_bind at 1. cbn [get_experiment_by_name Sim.service].
  rewrite import_call by done.
  cbn [Sim.experiment Sim.record_request import_server Experiment.name
       Experiment.experiment_id].
  rewrite bool_decide_eq_true_2 by done.
  unfold mbind at 1, M_bind at 1, print at 1. unfold mret at 1, M_ret at 1.
  cbn [env_world stdout locals].
  unfold mbind at 1, M_bind at 1. unfold load_rows, try_except.
  unfold mbind at 1, M_bind at 1. cbn [read_csv Sim.service].
  rewrite import_call by done.
  cbn [Sim.table Sim.record_request import_server].
  unfold mbind at 1, M_bind at 1, print at 1. unfold mret at 1, M_ret at 1.
  cbn [env_world stdout locals].
  unfold mbind at 1, M_bind at 1. unfold load_ledger. cbn [truthy].
  unfold mret at 1, M_ret at 1.
  change (all_lists (complete empty_metadata)) with (Some empty_metadata).
  unfold mbind at 1, M_bind at 1. unfold import_loaded.
  unfold mbind at 1, M_bind at 1, modify_locals at 1.
  cbn [env_world stdout locals].
  unfold mbind at 1, M_bind at 1. unfold import_rows.
  match goal with
  | |- context [for_each (enumerate rows) _ (import_env ?w1 ?o1 ?l1)] =>
      destruct (import_loop_sim "1" artifacts_dir empty_metadata (length rows)
                  (enumerate rows) w1 o1 l1) as (out1 & Hloop)
  end; [done|].
  match type of Hloop with
  | ?lhs = _ =>
      match goal with
      | |- context [@for_each ?S ?L ?X ?xs ?b ?s] =>
          change (@for_each S L X xs b s) with lhs
      end
  end.
  rewrite Hloop, enumerate_snd, enumerate_length.
  unfold mbind at 1, M_bind at 1, get_locals at 1.
  unfold mbind at 1, M_bind at 1, ask at 1.
  cbn [env_world stdout locals get_tracking_uri Sim.service].
  unfold emit_summary. unfold mbind at 1, M_bind at 1.
  cbn [write_file Sim.service].
  rewrite import_call
    by (intros; cbn [Sim.faulty Sim.with_started]; by rewrite record_all_faulty).
  unfold make_summary.
  cbn [imported_runs failed_runs app Sim.started Sim.record_request
       import_server Sim.uri Sim.with_started].
  rewrite record_all_uri.
  cbn [Sim.uri Sim.record_request import_server].
  rewrite !length_new_run_ids.
  change (length (@nil nat)) with 0%nat.
  cbn [Experiment.experiment_id]. fold (clean_summary (length rows)).
  eexists _, _. split.
  - unfold mbind, M_bind, print, mret, M_ret.
    cbn [env_world stdout locals ImportSummary.failed_run_indices clean_summary].
    reflexivity.
  - cbn [Sim.requests Sim.record_request Sim.with_started].
    rewrite record_all_requests.
    cbn [Sim.requests Sim.record_request import_server app].
    reflexivity.
Qed.

End RowTrace.

(** The first of the three rows, imported. *)
Example first_row_imported :
  let result :=
    @import_runs Decimal.builtins Sim.service "out/demo_runs.csv" "demo" None
      false true None None
      (import_env (import_server (take 1 three_rows) [] [] (λ _, false)) []
         no_locals) in
  result.1 = Ok (Some (clean_summary 1))
  ∧ Sim.requests (env_world result.2)
    = [Sim.GetExperimentByName "demo"; Sim.ReadCsv "out/demo_runs.csv";
       Sim.StartRun "1"; Sim.LogParams {["lr" := "0.01"]};
       Sim.LogMetrics {["loss" := float_of_Z 1]}; Sim.EndRun "FINISHED";
       Sim.WriteFile "out/import_summary.json" (ImportReport (clean_summary 1))].
Proof. vm_compute. done. Qed.

(** ** What the tools do not catch *)

Section Preamble.
Context `{Builtins} `{Service} `{!Registry}.

Lemma select_raises {L} (tracking_uri : option string) (uri : string)
    (s : env L) (e : exn) (w' : world) :
  truthy tracking_uri = Some uri →
  set_tracking_uri uri (env_world s) = (Raise e, w') →
  select_tracking_uri tracking_uri s = (Raise e, Env w' (stdout s) (locals s)).
Proof.
  intros Huri Hset. unfold select_tracking_uri. rewrite Huri.
  unfold mbind, M_bind, call. by rewrite Hset.
Qed.

(** X21.  The selection of the tracking URI is protected by no [try] in
    any of the five tools: when a tracking URI is given and setting it
    raises, each tool raises the same exception at once, in the world
    that the failed call left and without a line of output. *)
Theorem tracking_uri_failure_escapes (tracking_uri : option string)
    (uri : string) (e : exn) (w w' : world) (out : list string) :
  truthy tracking_uri = Some uri →
  set_tracking_uri uri w = (Raise e, w') →
  (∀ fuel experiment_name output_dir include_artifacts,
     export_runs_detailed fuel experiment_name output_dir include_artifacts
       tracking_uri (Env w out tt)
     = (Raise e, Env w' out tt))
  ∧ (∀ csv_path experiment_name artifacts_dir import_artifacts create
       metadata_path l,
       import_runs csv_path experiment_name artifacts_dir import_artifacts
         create metadata_path tracking_uri (Env w out l)
       = (Raise e, Env w' out l))
  ∧ (∀ experiment_name,
       delete_all_runs_in_experiment experiment_name tracking_uri (Env w out tt)
       = (Raise e, Env w' out tt))
  ∧ (∀ experiment_names,
       restore_experiments experiment_names tracking_uri (Env w out tt)
       = (Raise e, Env w' out tt))
  ∧ (∀ experiment_name,
       delete_mlflow_experiment experiment_name tracking_uri (Env w out tt)
       = (Raise e, Env w' out tt)).
Proof.
  intros Huri Hset.
  assert (∀ L (l : L),
            select_tracking_uri tracking_uri (Env w out l)
            = (Raise e, Env w' out l)) as Hselect.
  { intros L l. by apply (select_raises tracking_uri uri). }
  repeat split; intros;
    unfold export_runs_detailed, import_runs, delete_all_runs_in_experiment,
      restore_experiments, delete_mlflow_experiment;
    by rewrite (bind_raise _ _ _ _ _ (Hselect _ _)).
Qed.

End Preamble.

Lemma tracking_uri_failure_escapes_example :
  let w :=
    {| Reg.base := failing_server [] 5000 true uri_fails; Reg.stored := [];
       Reg.faulty := λ _, false; Reg.requests := [] |} in
  ∃ w' : Reg.state,
    truthy (Some "http://remote:5000") = Some "http://remote:5000"
    ∧ @set_tracking_uri Reg.service "http://remote:5000" w
      = (Raise "service failure", w')
    ∧ @export_runs_detailed Reg.service unit 1 "demo" None true
        (Some "http://remote:5000") (reg_env w [] tt)
      = (Raise "service failure", reg_env w' [] tt).
Proof.
  cbv zeta. eexists. split; [reflexivity|]. split; [reflexivity|].
  eapply (@tracking_uri_failure_escapes Decimal.builtins Reg.service Reg.registry
            (Some "http://remote:5000") "http://remote:5000" "service failure");
    reflexivity.
Defined.

(** ** A ledger file that lacks a list *)

Section LoadedLedger.
Context `{Builtins}.

Lemma extract_step_complete (metadata : Metadata) (d : decoded)
    (entry : string * cell) :
  extract_step_loaded (complete metadata) d entry
  = (extract_step metadata d entry, None).
Proof.
  destruct entry as [col v]. unfold extract_step_loaded, extract_step.
  cbn [complete ld_parameters ld_metrics ld_tags].
  repeat (destruct (_ : bool); [done|]). done.
Qed.

(** On a ledger with its three lists the decoder for loaded ledgers is
    the decoder. *)
Lemma extract_run_data_complete (run_data : row) (metadata : Metadata) :
  extract_run_data_loaded run_data (complete metadata)
  = (extract_run_data run_data metadata, None).
Proof.
  unfold extract_run_data_loaded, extract_run_data. generalize decoded_empty.
  induction run_data as [|entry run_data IH]; intros d; [done|].
  cbn [extract_from foldl]. rewrite extract_step_complete. apply IH.
Qed.





End LoadedLedger.

Section WholeLedger.
Context `{Builtins} `{Service}.

Lemma for_each_ext {L X} (xs : list X) (body1 body2 : X → M L unit) :
  (∀ x s, body1 x s = body2 x s) →
  ∀ s, for_each xs body1 s = for_each xs body2 s.
Proof.
  intros Hbody. induction xs as [|x xs IH]; intros s; [done|].
  rewrite !for_each_cons. unfold mbind, M_bind. rewrite Hbody.
  destruct (body2 x s) as [[[]|e] s']; [apply IH|done].
Qed.

Lemma import_rows_complete (experiment_id : string)
    (artifacts_dir : option string) (import_artifacts : bool)
    (metadata : Metadata) (rows : list row) (s : env import_locals) :
  import_rows_loaded experiment_id artifacts_dir import_artifacts
    (complete metadata) rows s
  = import_rows experiment_id artifacts_dir import_artifacts metadata rows s.
Proof.
  unfold import_rows_loaded, import_rows. apply for_each_ext.
  intros entry s0. unfold import_step_loaded, import_step, try_except.
  unfold import_row_loaded, import_row.
  by rewrite extract_run_data_complete.
Qed.

(** With a ledger that has its three lists, the lines for loaded ledgers
    are those of [import_loaded]. *)
Lemma import_loaded_complete (csv_path experiment_name experiment_id : string)
    (artifacts_dir : option string) (import_artifacts : bool)
    (metadata : Metadata) (rows : list row) (s : env import_locals) :
  import_loaded_partial csv_path experiment_name experiment_id artifacts_dir
    import_artifacts (complete metadata) rows s
  = import_loaded csv_path experiment_name experiment_id artifacts_dir
      import_artifacts metadata rows s.
Proof.
  unfold import_loaded_partial, import_loaded.
  unfold mbind at 1 5, M_bind at 1 5, modify_locals.
  unfold mbind at 1 4, M_bind at 1 4.
  by rewrite import_rows_complete.
Qed.

End WholeLedger.


(** A ledger file without the lists of metrics and tags: both lines of
    the loader are printed, the row of the exported table is imported by
    its prefixes, and the row with the column [epochs] fails before a
    run is started for it. *)
Example ledger_without_metrics :
  let result :=
    @import_runs Decimal.builtins Sim.service "out/demo_runs.csv" "demo" None
      false true (Some "out/demo_metadata.json") None
      (import_env (ledger_server two_rows parameters_only) [] no_locals) in
  stdout result.2
  = ["Using default MLflow tracking URI: http://localhost:5000";
     "Using existing experiment: demo (ID: 1)";
     "Loaded 2 runs from out/demo_runs.csv";
     "Loaded metadata from out/demo_metadata.json";
     "Error loading metadata, will rely on column prefixes: 'metrics'";
     "Importing run 1/2"; "Logged 1 parameters";
     "Successfully imported run to run-0"; "Importing run 2/2";
     "Failed to import run 1: 'metrics'";
     newline +:+ "Import Summary for Experiment 'demo':";
     "Total Runs Attempted: 2"; "Successful Imports: 1"; "Failed Imports: 1";
     "Failed Run Indices: [1]"]
  ∧ locals result.2 = {| imported_runs := ["run-0"]; failed_runs := [1%nat] |}
  ∧ Sim.started (env_world result.2) = 1%nat.
Proof. vm_compute. done. Qed.
